(** * Highlite settings manager: a model of [settingsManager.ts]

    The development follows
    [src/managers/highlite/settingsManager.ts] and
    [src/interfaces/highlite/plugin/pluginSettings.interface.ts].

    - JavaScript objects used as string-keyed maps ([plugin.settings], the
      persisted record, the IndexedDB object store) are association lists
      in insertion order, read and written the way the source does it:
      loops run over the keys and look each key up again, so that only the
      first binding of a key is ever seen.  Keys that look like array
      indices, which JavaScript enumerates first, get no special place.
    - The manager is a record of its private fields plus the parts of the
      world it touches: the object store, the rows of its two views, the
      work handed to the event loop, and a trace of the calls that leave
      the manager (plugin callbacks, store writes).  The store has no other
      writer.
    - [registerPlugins] is run to its end, one awaited store write after
      the other.  A change handler is its synchronous part, up to and
      including the store write it awaits; what follows the [await] is
      queued with the timers and not run here.
    - Plugin-authored functions ([callback], [onLoaded]) are opaque to the
      manager: the trace records each invocation with its receiver, and
      what their bodies do is outside the model.  Validators are predicates
      over the candidate value.
    - Styling of the controls (colours, borders, the value shown after a
      rejected edit) is left out; the [display] and fade state of the rows
      is kept.
    - Three smaller models stand beside the manager: the search box of the
      main view ([Search]), the disabled state of the controls of a view
      ([Controls]), and the two functions that enter an action name in a
      context menu table of the game ([ContextMenu]). *)

From Stdlib Require Import String Ascii List Bool Arith ZArith QArith Lia Lqa.
From Stdlib Require Import DecimalString DecimalNat.
Import ListNotations.

Close Scope Q_scope.
Local Open Scope string_scope.
Local Open Scope list_scope.

(** ** JavaScript objects as ordered maps *)

Module Obj.

Definition t (A : Type) : Type := list (string * A).

(** [o[k]]: the first binding of [k]. *)
Fixpoint get {A} (o : t A) (k : string) : option A :=
  match o with
  | [] => None
  | (k', v) :: o' => if String.eqb k' k then Some v else get o' k
  end.

(** [o[k] = v]: an existing key keeps its position, a new key goes last. *)
Fixpoint set {A} (o : t A) (k : string) (v : A) : t A :=
  match o with
  | [] => [(k, v)]
  | (k', v') :: o' =>
      if String.eqb k' k then (k', v) :: o' else (k', v') :: set o' k v
  end.

(** The keys a [for (const k in o)] loop visits. *)
Definition keys {A} (o : t A) : list string := map fst o.

(** Update the first binding of [k] in place, if there is one. *)
Fixpoint adjust {A} (f : A -> A) (o : t A) (k : string) : t A :=
  match o with
  | [] => []
  | (k', v) :: o' =>
      if String.eqb k' k then (k', f v) :: o' else (k', v) :: adjust f o' k
  end.

End Obj.

(** ** JavaScript numbers and primitive values *)

(** Finite doubles are rationals; comparisons with [NaN] are false. *)
Inductive number : Type :=
| NaN
| NegInfinity
| Finite (q : Q)
| PosInfinity.

Definition Qltb (x y : Q) : bool := negb (Qle_bool y x).

(** [a < b] on numbers. *)
Definition num_lt (a b : number) : bool :=
  match a, b with
  | NaN, _ | _, NaN => false
  | _, NegInfinity => false
  | NegInfinity, _ => true
  | PosInfinity, _ => false
  | Finite _, PosInfinity => true
  | Finite x, Finite y => Qltb x y
  end.

(** [a > b] on numbers. *)
Definition num_gt (a b : number) : bool := num_lt b a.

(** [boolean | number | string], and [undefined]. *)
Inductive JSValue : Type :=
| VUndefined
| VBool (b : bool)
| VNum (n : number)
| VStr (s : string).

Definition is_undefined (v : JSValue) : bool :=
  match v with VUndefined => true | _ => false end.

(** ** Settings and plugins *)

Module SettingsTypes.
Inductive t : Type := checkbox | range | color | text | button | combobox.
End SettingsTypes.

(** Modelled from the spec: the interface at hand declares the list of a
    combobox as [dataset] while the manager reads [setting.options], a field
    whose declaration is missing; the spec gives the choices of a
    single-choice setting as an ordered list of strings. *)
Definition Options : Type := list string.

(** [PluginSettings].  The label fields ([text], [description]) only feed
    row captions and are left out, and so is [dataset], which the manager
    never reads.  [callback] is required by the interface and opaque;
    [onLoaded] records whether the optional function is there.  [proxies]
    counts the [Proxy] layers [makeSettingsReactive] has wrapped around the
    setting object. *)
Record PluginSettings : Type := mkSetting {
  type : SettingsTypes.t;
  value : JSValue;
  validation : option (JSValue -> bool);
  hidden : option bool;
  disabled : option bool;
  onLoaded : bool;
  min : option number;
  max : option number;
  options : option Options;
  proxies : nat
}.

Definition with_value (v : JSValue) (s : PluginSettings) : PluginSettings :=
  mkSetting (type s) v (validation s) (hidden s) (disabled s) (onLoaded s)
            (min s) (max s) (options s) (proxies s).

Definition with_hidden (h : option bool) (s : PluginSettings) : PluginSettings :=
  mkSetting (type s) (value s) (validation s) h (disabled s) (onLoaded s)
            (min s) (max s) (options s) (proxies s).

Definition with_proxy (s : PluginSettings) : PluginSettings :=
  mkSetting (type s) (value s) (validation s) (hidden s) (disabled s)
            (onLoaded s) (min s) (max s) (options s) (S (proxies s)).

(** Modelled from the spec: the [Plugin] class ([plugin.class.ts]) is not
    part of the sources at hand.  A plugin has a [pluginName], an [author]
    and a settings map in declaration order in which the reserved key
    [enable] always exists; the manager and the plugins read
    [settings.enable] without a presence check and every other key with
    one.  [enable] is declared by the base class, before the settings a
    plugin adds in its constructor ([others]). *)
Record Plugin : Type := mkPlugin {
  pluginName : string;
  author : string;
  enable : PluginSettings;
  others : Obj.t PluginSettings
}.

Definition enable_key : string := "enable".

(** [plugin.settings[key]] *)
Definition settings_get (plugin : Plugin) (key : string) : option PluginSettings :=
  if String.eqb key enable_key then Some (enable plugin)
  else Obj.get (others plugin) key.

(** The keys of [for (const settingKey in plugin.settings)]. *)
Definition settings_keys (plugin : Plugin) : list string :=
  enable_key :: Obj.keys (others plugin).

(** Mutate the setting object stored under [key]. *)
Definition settings_adjust (f : PluginSettings -> PluginSettings)
    (plugin : Plugin) (key : string) : Plugin :=
  if String.eqb key enable_key
  then mkPlugin (pluginName plugin) (author plugin) (f (enable plugin)) (others plugin)
  else mkPlugin (pluginName plugin) (author plugin) (enable plugin)
                (Obj.adjust f (others plugin) key).

(** ** The manager *)

(** The persisted record of one user: plugin name, then setting key. *)
Definition SettingsRecord : Type := Obj.t (Obj.t JSValue).

(** Calls that leave the manager.  Plugins are named by their position in
    [pluginList], which is their identity as an object. *)
Inductive Event : Type :=
| Callback (receiver : nat) (key : string)
| OnLoaded (receiver : nat) (key : string)
| Put (user : string) (record : SettingsRecord).

(** Work handed to the event loop: the refresh passes that run after an
    awaited store write or from a [setTimeout(..., 0)] of a proxy, and the
    animation timers of a row. *)
Inductive Task : Type :=
| RefreshVisibility (plugin : nat)
| RefreshDisabled (plugin : nat)
| DisplayNone (id : string)
| FadeIn (id : string).

Inductive Display : Type := flex | none.

(** An element of the settings panel that carries an [id].  [faded] stands
    for the pair [opacity = '0'], [transform = 'translateY(-10px)']. *)
Record Element : Type := mkElement {
  id : string;
  display : Display;
  faded : bool
}.

Inductive View : Type := MainView | PluginView.

Record SettingsManager : Type := mkManager {
  database : Obj.t SettingsRecord;
  pluginList : list Plugin;
  username : string;
  databaseSettings : option SettingsRecord;
  mainSettingsView : list Element;
  pluginSettingsView : option (list Element);
  currentView : View;
  tasks : list Task;
  log : list Event
}.

Definition with_pluginList (l : list Plugin) (m : SettingsManager) :=
  mkManager (database m) l (username m) (databaseSettings m)
            (mainSettingsView m) (pluginSettingsView m) (currentView m)
            (tasks m) (log m).

Definition with_store (db : Obj.t SettingsRecord) (r : option SettingsRecord)
    (m : SettingsManager) :=
  mkManager db (pluginList m) (username m) r
            (mainSettingsView m) (pluginSettingsView m) (currentView m)
            (tasks m) (log m).

Definition with_views (mv : list Element) (pv : option (list Element))
    (cv : View) (m : SettingsManager) :=
  mkManager (database m) (pluginList m) (username m) (databaseSettings m)
            mv pv cv (tasks m) (log m).

Definition schedule (ts : list Task) (m : SettingsManager) :=
  mkManager (database m) (pluginList m) (username m) (databaseSettings m)
            (mainSettingsView m) (pluginSettingsView m) (currentView m)
            (tasks m ++ ts) (log m).

Definition emit (e : Event) (m : SettingsManager) :=
  mkManager (database m) (pluginList m) (username m) (databaseSettings m)
            (mainSettingsView m) (pluginSettingsView m) (currentView m)
            (tasks m) (log m ++ [e]).

(** ** storePluginSettings *)

(** The object built under [settingStore[pluginName]]. *)
Definition snapshot (plugin : Plugin) : Obj.t JSValue :=
  fold_left
    (fun settingStore settingKey =>
       match settings_get plugin settingKey with
       | Some setting => Obj.set settingStore settingKey (value setting)
       | None => settingStore
       end)
    (settings_keys plugin) [].

Definition storePluginSettings (user : string) (plugin : Plugin)
    (m : SettingsManager) : SettingsManager :=
  let current :=
    match databaseSettings m with
    | Some r => r
    | None => []
    end in
  let r := Obj.set current (pluginName plugin) (snapshot plugin) in
  emit (Put user r) (with_store (Obj.set (database m) user r) (Some r) m).

(** ** Access to a plugin and its settings through the manager *)

Fixpoint update_nth {A} (f : A -> A) (l : list A) (i : nat) : list A :=
  match l, i with
  | [], _ => []
  | x :: l', O => f x :: l'
  | x :: l', S i' => x :: update_nth f l' i'
  end.

(** [this.pluginList.find(p => p.pluginName === name)], with the position
    of the plugin found. *)
Fixpoint find_plugin (name : string) (l : list Plugin) : option (nat * Plugin) :=
  match l with
  | [] => None
  | p :: l' =>
      if String.eqb (pluginName p) name then Some (O, p)
      else match find_plugin name l' with
           | Some (i, q) => Some (S i, q)
           | None => None
           end
  end.

Definition setting_at (m : SettingsManager) (i : nat) (key : string)
  : option PluginSettings :=
  match nth_error (pluginList m) i with
  | Some plugin => settings_get plugin key
  | None => None
  end.

Definition adjust_setting (i : nat) (key : string)
    (f : PluginSettings -> PluginSettings) (m : SettingsManager) :=
  with_pluginList
    (update_nth (fun plugin => settings_adjust f plugin key) (pluginList m) i) m.

(** [this.storePluginSettings(this.username, plugin)] for the plugin at [i]. *)
Definition store_plugin (i : nat) (m : SettingsManager) : SettingsManager :=
  match nth_error (pluginList m) i with
  | Some plugin => storePluginSettings (username m) plugin m
  | None => m
  end.

Definition truthy (flag : option bool) : bool :=
  match flag with
  | Some true => true
  | _ => false
  end.

Definition flag_eqb (a b : option bool) : bool :=
  match a, b with
  | None, None => true
  | Some x, Some y => Bool.eqb x y
  | _, _ => false
  end.

(** ** makeSettingsReactive and writes through the proxies *)

(** The loop of [makeSettingsReactive] on the settings of [plugin]. *)
Definition make_reactive (plugin : Plugin) : Plugin :=
  fold_left
    (fun p settingKey =>
       if String.eqb settingKey enable_key then p
       else settings_adjust with_proxy p settingKey)
    (settings_keys plugin) plugin.

Definition makeSettingsReactive (i : nat) (m : SettingsManager) : SettingsManager :=
  with_pluginList (update_nth make_reactive (pluginList m) i) m.

(** [setting.hidden = v] on the setting object held under [key]: the
    assignment goes through every proxy layer, and each layer queues one
    visibility refresh when the old and the new value differ. *)
Definition write_hidden (i : nat) (key : string) (v : option bool)
    (m : SettingsManager) : SettingsManager :=
  match setting_at m i key with
  | None => m
  | Some setting =>
      let m1 := adjust_setting i key (with_hidden v) m in
      if flag_eqb (hidden setting) v then m1
      else schedule (repeat (RefreshVisibility i) (proxies setting)) m1
  end.

(** ** The document *)

Definition row_prefix : string := "highlite-settings-content-row-".

(** [`highlite-settings-content-row-${key}`] *)
Definition row_id (key : string) : string := String.append row_prefix key.

(** Both views are a [highlite-settings-content-row-holder] element
    followed by its rows. *)
Definition holder : Element := mkElement (row_id "holder") flex false.

(** The elements with an id that are attached to the document: those of the
    view shown in the panel. *)
Definition document_elements (m : SettingsManager) : list Element :=
  match currentView m with
  | MainView => mainSettingsView m
  | PluginView =>
      match pluginSettingsView m with
      | Some v => v
      | None => []
      end
  end.

Definition getElementById (m : SettingsManager) (i : string) : option Element :=
  find (fun e => String.eqb (id e) i) (document_elements m).

Fixpoint update_first (i : string) (f : Element -> Element) (l : list Element)
  : list Element :=
  match l with
  | [] => []
  | e :: l' => if String.eqb (id e) i then f e :: l' else e :: update_first i f l'
  end.

(** Mutate the element [getElementById] returns. *)
Definition update_element (i : string) (f : Element -> Element)
    (m : SettingsManager) : SettingsManager :=
  match currentView m with
  | MainView =>
      with_views (update_first i f (mainSettingsView m))
                 (pluginSettingsView m) (currentView m) m
  | PluginView =>
      with_views (mainSettingsView m)
                 (option_map (update_first i f) (pluginSettingsView m))
                 (currentView m) m
  end.

Definition fade_out (e : Element) : Element := mkElement (id e) (display e) true.
Definition show_flex (e : Element) : Element := mkElement (id e) flex (faded e).

(** [createMenu]: the main view starts as an empty holder and is shown. *)
Definition createMenu (m : SettingsManager) : SettingsManager :=
  with_views [holder] (pluginSettingsView m) MainView m.

(** [createPluginSettings]: one summary row per plugin in the main view.
    Its enable toggle is handled by [enable_change]. *)
Definition createPluginSettings (plugin : Plugin) (m : SettingsManager) :=
  with_views
    (mainSettingsView m ++ [mkElement (row_id (pluginName plugin)) flex false])
    (pluginSettingsView m) (currentView m) m.

(** ** refreshPluginSettingsVisibility *)

Definition refresh_row (i : nat) (m : SettingsManager) (settingKey : string) :=
  if String.eqb settingKey enable_key then m
  else
    let rid := row_id settingKey in
    match setting_at m i settingKey, getElementById m rid with
    | Some setting, Some contentRow =>
        if truthy (hidden setting)
        then schedule [DisplayNone rid] (update_element rid fade_out m)
        else match display contentRow with
             | none => schedule [FadeIn rid] (update_element rid show_flex m)
             | flex => m
             end
    | _, _ => m
    end.

Definition refreshPluginSettingsVisibility (i : nat) (m : SettingsManager) :=
  match nth_error (pluginList m) i with
  | Some plugin => fold_left (refresh_row i) (settings_keys plugin) m
  | None => m
  end.

(** ** registerPlugins *)

(** The body of the inner loop: one stored key of one stored plugin name. *)
Definition load_setting (pluginSettingData : Obj.t JSValue) (plugin : string)
    (m : SettingsManager) (settingKey : string) : SettingsManager :=
  match Obj.get pluginSettingData settingKey with
  | None | Some VUndefined => m
  | Some stored =>
      match find_plugin plugin (pluginList m) with
      | None => m
      | Some (i, foundPlugin) =>
          match settings_get foundPlugin settingKey with
          | None => m
          | Some setting =>
              let m1 := adjust_setting i settingKey (with_value stored) m in
              if onLoaded setting then emit (OnLoaded i settingKey) m1 else m1
          end
      end
  end.

Definition load_plugin (record : SettingsRecord) (m : SettingsManager)
    (plugin : string) : SettingsManager :=
  match Obj.get record plugin with
  | Some pluginSettingData =>
      fold_left (load_setting pluginSettingData plugin)
                (Obj.keys pluginSettingData) m
  | None => m
  end.

(** The load phase: [if (this.databaseSettings) { for ... for ... }]. *)
Definition load_settings (m : SettingsManager) : SettingsManager :=
  match databaseSettings m with
  | Some record => fold_left (load_plugin record) (Obj.keys record) m
  | None => m
  end.

(** One turn of [for (let plugin of this.pluginList)]. *)
Definition register_plugin (m : SettingsManager) (i : nat) : SettingsManager :=
  match nth_error (pluginList m) i with
  | None => m
  | Some plugin =>
      let m1 := storePluginSettings (username m) plugin m in
      let m2 := makeSettingsReactive i m1 in
      createPluginSettings plugin m2
  end.

Definition write_back (m : SettingsManager) : SettingsManager :=
  fold_left register_plugin (seq 0 (length (pluginList m))) m.

(** [this.databaseSettings = await this.database.get('settings', this.username)] *)
Definition read_store (m : SettingsManager) : SettingsManager :=
  with_store (database m) (Obj.get (database m) (username m)) m.

Definition registerPlugins (m : SettingsManager) : SettingsManager :=
  write_back (load_settings (read_store m)).

(** ** Change handlers of the controls *)

(** [setting.validation && !setting.validation(newValue)] *)
Definition rejected (setting : PluginSettings) (newValue : JSValue) : bool :=
  match validation setting with
  | Some validate => negb (validate newValue)
  | None => false
  end.

(** "Valid value - apply and save", shared by the handlers: the value is
    set, the callback is called on the plugin, the plugin is stored; what
    follows the awaited store write is left to the event loop. *)
Definition apply_and_save (i : nat) (key : string) (newValue : JSValue)
    (after : list Task) (m : SettingsManager) : SettingsManager :=
  let m1 := adjust_setting i key (with_value newValue) m in
  let m2 := emit (Callback i key) m1 in
  let m3 := store_plugin i m2 in
  schedule after m3.

(** The toggle of the summary row (createPluginSettings, lines 315-319). *)
Definition enable_change (i : nat) (checked : bool) (m : SettingsManager) :=
  let m1 := adjust_setting i enable_key (with_value (VBool checked)) m in
  let m2 := emit (Callback i enable_key) m1 in
  store_plugin i m2.

Definition checkbox_change (i : nat) (key : string) (newValue : bool)
    (m : SettingsManager) : SettingsManager :=
  match setting_at m i key with
  | None => m
  | Some setting =>
      if rejected setting (VBool newValue) then m
      else apply_and_save i key (VBool newValue)
             [RefreshVisibility i; RefreshDisabled i] m
  end.

(** The [value] of an [<input type="number">] is the empty string unless
    the text typed is a valid floating-point number. *)
Definition parseFloat_value (v : option Q) : number :=
  match v with
  | Some q => Finite q
  | None => NaN
  end.

(** [numberInput.min] is assigned [setting.min.toString()] only when
    [setting.min] is defined and is the empty string otherwise; the same
    for [max].  [parseFloat] reads a printed number back and gives [NaN]
    on the empty string. *)
Definition parseFloat_bound (bound : option number) : number :=
  match bound with
  | Some n => n
  | None => NaN
  end.

(** [newValue < min || newValue > max] with the bounds read off the input. *)
Definition out_of_bounds (setting : PluginSettings) (newValue : number) : bool :=
  let min := parseFloat_bound (min setting) in
  let max := parseFloat_bound (max setting) in
  num_lt newValue min || num_gt newValue max.

Definition range_change (i : nat) (key : string) (input : option Q)
    (m : SettingsManager) : SettingsManager :=
  match setting_at m i key with
  | None => m
  | Some setting =>
      let newValue := parseFloat_value input in
      if out_of_bounds setting newValue then m
      else if rejected setting (VNum newValue) then m
      else apply_and_save i key (VNum newValue) [RefreshVisibility i] m
  end.

Definition color_change (i : nat) (key : string) (newValue : string)
    (m : SettingsManager) : SettingsManager :=
  match setting_at m i key with
  | None => m
  | Some setting =>
      if rejected setting (VStr newValue) then m
      else apply_and_save i key (VStr newValue) [RefreshVisibility i] m
  end.

Definition text_change (i : nat) (key : string) (newValue : string)
    (m : SettingsManager) : SettingsManager :=
  match setting_at m i key with
  | None => m
  | Some setting =>
      if rejected setting (VStr newValue) then m
      else apply_and_save i key (VStr newValue) [RefreshVisibility i] m
  end.

Definition button_click (i : nat) (key : string) (m : SettingsManager) :=
  refreshPluginSettingsVisibility i (emit (Callback i key) m).

Definition combobox_change (i : nat) (key : string) (newValue : string)
    (m : SettingsManager) : SettingsManager :=
  apply_and_save i key (VStr newValue) [RefreshVisibility i] m.

(** ** openPluginSettings *)

(** [typeof setting.value !== 'string' || !setting.options.includes(setting.value)] *)
Definition needs_reset (v : JSValue) (opts : list string) : bool :=
  match v with
  | VStr s => negb (existsb (String.eqb s) opts)
  | _ => true
  end.

(** The [combobox] case of the switch: without a list only a label is
    shown; otherwise a value outside the list is replaced by the first
    option, the select is moved to index 0 and a [change] event is
    dispatched on it, which runs [combobox_change] with the value of the
    first option. *)
Definition build_combobox (i : nat) (key : string) (setting : PluginSettings)
    (m : SettingsManager) : SettingsManager :=
  match options setting with
  | None | Some [] => m
  | Some (first :: rest) =>
      if needs_reset (value setting) (first :: rest)
      then combobox_change i key first
             (adjust_setting i key (with_value (VStr first)) m)
      else m
  end.

(** The [switch (setting?.type)] of the loop.  The other cases only build
    their control. *)
Definition build_control (i : nat) (key : string) (setting : PluginSettings)
    (m : SettingsManager) : SettingsManager :=
  match type setting with
  | SettingsTypes.combobox => build_combobox i key setting m
  | _ => m
  end.

(** One turn of the loop over [plugin.settings]; the second component
    collects the rows appended to the new view so far. *)
Definition open_row (i : nat) (acc : SettingsManager * list Element)
    (settingKey : string) : SettingsManager * list Element :=
  if String.eqb settingKey enable_key then acc
  else
    match setting_at (fst acc) i settingKey with
    | None => acc
    | Some setting =>
        let contentRow :=
          mkElement (row_id settingKey)
                    (if truthy (hidden setting) then none else flex)
                    (truthy (hidden setting)) in
        (build_control i settingKey setting (fst acc), snd acc ++ [contentRow])
    end.

Definition openPluginSettings (i : nat) (m : SettingsManager) : SettingsManager :=
  match nth_error (pluginList m) i with
  | None => m
  | Some plugin =>
      let built := fold_left (open_row i) (settings_keys plugin) (m, []) in
      with_views (mainSettingsView (fst built)) (Some (holder :: snd built))
                 PluginView (fst built)
  end.

(** The back button of a detail view. *)
Definition back_click (m : SettingsManager) : SettingsManager :=
  with_views (mainSettingsView m) (pluginSettingsView m) MainView m.

(** ** toggleSettingVisibility, showSetting, hideSetting *)

Definition toggleSettingVisibility (name settingKey : string)
    (hidden_arg : option bool) (m : SettingsManager) : SettingsManager :=
  let rid := row_id settingKey in
  match getElementById m rid with
  | None => m
  | Some contentRow =>
      match find_plugin name (pluginList m) with
      | None => m
      | Some (i, plugin) =>
          match settings_get plugin settingKey with
          | None => m
          | Some setting =>
              let newHiddenState :=
                match hidden_arg with
                | Some h => h
                | None => negb (truthy (hidden setting))
                end in
              let m1 := write_hidden i settingKey (Some newHiddenState) m in
              if newHiddenState
              then schedule [DisplayNone rid] (update_element rid fade_out m1)
              else schedule [FadeIn rid] (update_element rid show_flex m1)
          end
      end
  end.

Definition showSetting (name settingKey : string) (m : SettingsManager) :=
  toggleSettingVisibility name settingKey (Some false) m.

Definition hideSetting (name settingKey : string) (m : SettingsManager) :=
  toggleSettingVisibility name settingKey (Some true) m.

(** ** The manager as a transition system *)

(** What can happen to a manager once its plugins are registered: the
    events of the controls, the calls of the public operations, and
    another registration. *)
Inductive Action : Type :=
| ToggleEnable (i : nat) (checked : bool)
| ChangeCheckbox (i : nat) (key : string) (checked : bool)
| ChangeRange (i : nat) (key : string) (input : option Q)
| ChangeColor (i : nat) (key : string) (picked : string)
| ChangeText (i : nat) (key : string) (typed : string)
| ClickButton (i : nat) (key : string)
| SelectOption (i : nat) (key : string) (choice : string)
| ClickCog (i : nat)
| ClickBack
| ToggleVisibility (name key : string) (hidden_arg : option bool)
| Register.

Definition perform (a : Action) (m : SettingsManager) : SettingsManager :=
  match a with
  | ToggleEnable i checked => enable_change i checked m
  | ChangeCheckbox i key checked => checkbox_change i key checked m
  | ChangeRange i key input => range_change i key input m
  | ChangeColor i key picked => color_change i key picked m
  | ChangeText i key typed => text_change i key typed m
  | ClickButton i key => button_click i key m
  | SelectOption i key choice => combobox_change i key choice m
  | ClickCog i => openPluginSettings i m
  | ClickBack => back_click m
  | ToggleVisibility name key hidden_arg =>
      toggleSettingVisibility name key hidden_arg m
  | Register => registerPlugins m
  end.

(** The states of a manager whose plugins have been registered. *)
Inductive running : SettingsManager -> Prop :=
| running_registered m : running (registerPlugins m)
| running_performed a m : running m -> running (perform a m).

(** The store, the in-memory record and the user are the same. *)
Definition same_store (m m' : SettingsManager) : Prop :=
  database m' = database m
  /\ databaseSettings m' = databaseSettings m
  /\ username m' = username m.

(** ** Vocabulary of the statements *)

(** What the store holds for the current user under a plugin name. *)
Definition stored_entry (m : SettingsManager) (name : string)
  : option (Obj.t JSValue) :=
  match Obj.get (database m) (username m) with
  | Some record => Obj.get record name
  | None => None
  end.

(** The value a record holds for one setting of one plugin; [None] when it
    has no defined value there. *)
Definition record_value (record : SettingsRecord) (name key : string)
  : option JSValue :=
  match Obj.get record name with
  | Some data =>
      match Obj.get data key with
      | Some v => if is_undefined v then None else Some v
      | None => None
      end
  | None => None
  end.

(** The same, read from the store for the current user. *)
Definition stored_value (m : SettingsManager) (name key : string)
  : option JSValue :=
  match Obj.get (database m) (username m) with
  | Some record => record_value record name key
  | None => None
  end.

(** What loading [record] does to the setting [key] of the plugin [name]. *)
Definition load_one (record : SettingsRecord) (name key : string)
    (s : PluginSettings) : PluginSettings :=
  match record_value record name key with
  | Some v => with_value v s
  | None => s
  end.

(** Everything but the plugins and the trace is the same. *)
Definition same_world (m m' : SettingsManager) : Prop :=
  database m' = database m
  /\ databaseSettings m' = databaseSettings m
  /\ username m' = username m
  /\ mainSettingsView m' = mainSettingsView m
  /\ pluginSettingsView m' = pluginSettingsView m
  /\ currentView m' = currentView m
  /\ tasks m' = tasks m.

(** An [onLoaded] call the load phase owes: a live setting with an
    [onLoaded] function and a defined value in the record. *)
Definition owed (record : SettingsRecord) (m0 : SettingsManager) (i : nat)
    (k : string) : Prop :=
  exists p s v,
    nth_error (pluginList m0) i = Some p
    /\ settings_get p k = Some s
    /\ onLoaded s = true
    /\ record_value record (pluginName p) k = Some v.

(** The state of the load phase, started in [m0], once the pairs of stored
    plugin name and stored key in [done] have been visited. *)
Definition loading (record : SettingsRecord) (done : string -> string -> Prop)
    (m0 m : SettingsManager) : Prop :=
  same_world m0 m
  /\ map pluginName (pluginList m) = map pluginName (pluginList m0)
  /\ (forall i p,
        nth_error (pluginList m0) i = Some p ->
        exists p',
          nth_error (pluginList m) i = Some p'
          /\ pluginName p' = pluginName p
          /\ settings_keys p' = settings_keys p
          /\ forall k,
              (settings_get p' k = settings_get p k
               \/ settings_get p' k
                  = option_map (load_one record (pluginName p) k)
                               (settings_get p k))
              /\ (done (pluginName p) k ->
                  settings_get p' k
                  = option_map (load_one record (pluginName p) k)
                               (settings_get p k)))
  /\ exists evs,
      log m = log m0 ++ evs
      /\ (forall e, In e evs -> exists i k, e = OnLoaded i k /\ owed record m0 i k)
      /\ (forall i k p, nth_error (pluginList m0) i = Some p ->
                        done (pluginName p) k ->
                        owed record m0 i k -> In (OnLoaded i k) evs).
(** The in-memory copy of the record agrees with the store.  It does after
    [read_store] and after every [storePluginSettings]. *)
Definition coherent (m : SettingsManager) : Prop :=
  Obj.get (database m) (username m) = databaseSettings m.

(** The record [storePluginSettings] starts from. *)
Definition current_record (m : SettingsManager) : SettingsRecord :=
  match databaseSettings m with
  | Some r => r
  | None => []
  end.

(** The store writes of a run of [storePluginSettings] over [ps], starting
    from the record [r0]. *)
Fixpoint puts (user : string) (r0 : SettingsRecord) (ps : list Plugin)
  : list Event :=
  match ps with
  | [] => []
  | p :: ps' =>
      let r := Obj.set r0 (pluginName p) (snapshot p) in
      Put user r :: puts user r ps'
  end.

Definition record_after (r0 : SettingsRecord) (ps : list Plugin) : SettingsRecord :=
  fold_left (fun r p => Obj.set r (pluginName p) (snapshot p)) ps r0.

Definition unique_names (m : SettingsManager) : Prop :=
  NoDup (map pluginName (pluginList m)).

(** The value of the setting [key] of the plugin at [i], if there is one. *)
Definition value_at (m : SettingsManager) (i : nat) (key : string)
  : option JSValue :=
  option_map value (setting_at m i key).

(** The handler behind the control the panel offers for a setting: the
    toggle of the summary row for [enable], and for every other key the
    control of the detail view, chosen by the type of the setting.  A
    button carries no candidate. *)
Definition user_write (i : nat) (key : string) (candidate : JSValue)
    (m : SettingsManager) : SettingsManager :=
  match setting_at m i key with
  | None => m
  | Some setting =>
      if String.eqb key enable_key
      then match candidate with
           | VBool checked => enable_change i checked m
           | _ => m
           end
      else match type setting, candidate with
           | SettingsTypes.checkbox, VBool b => checkbox_change i key b m
           | SettingsTypes.range, VNum NaN => range_change i key None m
           | SettingsTypes.range, VNum (Finite q) => range_change i key (Some q) m
           | SettingsTypes.color, VStr c => color_change i key c m
           | SettingsTypes.text, VStr t => text_change i key t m
           | SettingsTypes.combobox, VStr o => combobox_change i key o m
           | _, _ => m
           end
  end.

(** An accepted write, as the handlers perform it: the setting holds the
    new value, the callback of the setting was called on the plugin, and
    the snapshot of the plugin, new value included, was put under the name
    of the plugin in a record written to the store. *)
Definition accepted (m m' : SettingsManager) (i : nat) (key : string)
    (v : JSValue) : Prop :=
  exists p' r,
    nth_error (pluginList m') i = Some p'
    /\ value_at m' i key = Some v
    /\ log m' = log m ++ [Callback i key; Put (username m) r]
    /\ Obj.get r (pluginName p') = Some (snapshot p')
    /\ Obj.get (database m') (username m) = Some r
    /\ Obj.get (snapshot p') key = Some v.

(** "A write whose candidate the validator of the setting rejects changes
    nothing", at one setting and one candidate. *)
Definition rejected_write_is_noop_at (m : SettingsManager) (i : nat)
    (key : string) (candidate : JSValue) : Prop :=
  forall setting validate,
    setting_at m i key = Some setting ->
    validation setting = Some validate ->
    validate candidate = false ->
    user_write i key candidate m = m.

(** What a turn of the loop of [openPluginSettings] does to the manager. *)
Definition open_step (i : nat) (m : SettingsManager) (settingKey : string)
  : SettingsManager :=
  fst (open_row i (m, []) settingKey).

(** While a detail view is being built from [m0] for the plugin at [i],
    named [name]: the combobox under [key] still is the setting [s] ... *)
Definition unhealed (m0 : SettingsManager) (i : nat) (name key : string)
    (s : PluginSettings) (m : SettingsManager) : Prop :=
  username m = username m0
  /\ (exists evs, log m = log m0 ++ evs)
  /\ exists p',
      nth_error (pluginList m) i = Some p'
      /\ pluginName p' = name
      /\ settings_get p' key = Some s.

(** ... or it has been reset to [first]: its callback was called and the
    snapshot was stored straight after, and the store still holds the
    snapshot of the plugin. *)
Definition healed (m0 : SettingsManager) (i : nat) (name key first : string)
    (rest : list string) (m : SettingsManager) : Prop :=
  username m = username m0
  /\ (exists before after r,
         log m = log m0 ++ before ++ [Callback i key; Put (username m0) r] ++ after
         /\ record_value r name key = Some (VStr first))
  /\ exists p' s',
      nth_error (pluginList m) i = Some p'
      /\ pluginName p' = name
      /\ settings_get p' key = Some s'
      /\ value s' = VStr first
      /\ options s' = Some (first :: rest)
      /\ stored_entry m name = Some (snapshot p').

(** ** A small installation, used to exercise the statements *)

Module Example.

Definition toggle (v : bool) : PluginSettings :=
  mkSetting SettingsTypes.checkbox (VBool v) None None None false
            None None None 0.

(** An enable setting whose validator accepts nothing. *)
Definition locked (v : bool) : PluginSettings :=
  mkSetting SettingsTypes.checkbox (VBool v) (Some (fun _ => false)) None None
            false None None None 0.

Definition volume : PluginSettings :=
  mkSetting SettingsTypes.range (VNum (Finite (5 # 1))) None None None true
            (Some (Finite (0 # 1))) (Some (Finite (10 # 1))) None 0.

Definition offset : PluginSettings :=
  mkSetting SettingsTypes.range (VNum (Finite (1 # 2))) None None None false
            None None None 0.

Definition mode : PluginSettings :=
  mkSetting SettingsTypes.combobox (VStr "z") (Some (fun _ => false)) None None
            false None None (Some ["a"; "b"]) 0.

Definition not_empty (v : JSValue) : bool :=
  match v with
  | VStr "" => false
  | _ => true
  end.

Definition label : PluginSettings :=
  mkSetting SettingsTypes.text (VStr "hp") (Some not_empty) (Some true) None
            false None None None 0.

Definition alerts : Plugin :=
  mkPlugin "Alerts" "alice" (locked true)
           [("volume", volume); ("offset", offset); ("mode", mode);
            ("label", label); ("sound", toggle true)].

Definition lookup : Plugin := mkPlugin "Lookup" "bob" (toggle false) [].

(** A first-run user: nothing in the store. *)
Definition fresh : SettingsManager :=
  createMenu
    (mkManager [] [alerts; lookup] "player" None [] None MainView [] []).

(** A record written by an older set of plugins. *)
Definition old_record : SettingsRecord :=
  [("Alerts", [("volume", VNum (Finite (7 # 1))); ("gone", VBool true);
               ("sound", VUndefined)]);
   ("Removed", [("enable", VBool true)])].

(** A returning user. *)
Definition returning : SettingsManager :=
  createMenu
    (mkManager [("player", old_record)] [alerts; lookup] "player" None
               [] None MainView [] []).

Definition installed : SettingsManager := registerPlugins returning.

Definition opened : SettingsManager := openPluginSettings 0 installed.

(** A manager whose copy of the record is behind the store: since it read
    the record, the store has been given a lower volume for [Alerts] and
    an entry for another plugin. *)
Definition stale : SettingsManager :=
  mkManager
    [("player", [("Alerts", [("volume", VNum (Finite (1 # 1)))]);
                 ("Other", [("enable", VBool true)])])]
    [alerts; lookup] "player"
    (Some [("Alerts", [("volume", VNum (Finite (7 # 1)))])])
    [holder] None MainView [] [].

End Example.

(** * Context menu actions *)

(** [AddEntityAction] and [AddInventoryItemAction] register an action name
    in a table of the game, an object that maps every name to its number
    and every number back to its name. *)

Module ContextMenu.

(** What a lookup in the table gives: a number, an action name, or the
    member of that name that every object inherits.  The code derives its
    numbers from half a key count, so a number is kept as twice its value:
    [Number 6] is 3 and [Number 5] is 2.5. *)
Inductive Entry : Type :=
| Number (twice : Z)
| Name (s : string)
| Inherited (member : string).

(** The own properties of the table, an ordinary object as a TypeScript
    enum compiles to; [length] is [Object.keys(ContextMenuActions).length]
    as long as no key is listed twice. *)
Definition Table : Type := Obj.t Entry.

(** The names an ordinary object answers to without owning them. *)
Definition inherited (name : string) : bool :=
  existsb (String.eqb name)
    ["constructor"; "hasOwnProperty"; "isPrototypeOf";
     "propertyIsEnumerable"; "toLocaleString"; "toString"; "valueOf";
     "__proto__"; "__defineGetter__"; "__defineSetter__";
     "__lookupGetter__"; "__lookupSetter__"].

(** [ContextMenuActions[key]] *)
Definition read (actions : Table) (key : string) : option Entry :=
  match Obj.get actions key with
  | Some entry => Some entry
  | None => if inherited key then Some (Inherited key) else None
  end.

(** [ContextMenuActions[key] = entry], for a number or a string: the
    assignment to [__proto__] reaches the inherited setter, which ignores
    what is not an object. *)
Definition assign (actions : Table) (key : string) (entry : Entry) : Table :=
  if String.eqb key "__proto__" then actions else Obj.set actions key entry.

Definition decimal (n : nat) : string :=
  NilEmpty.string_of_uint (Nat.to_uint n).

(** The property key a number turns into when it indexes the table:
    [3] gives ["3"], [2.5] gives ["2.5"] (a key count stays far below the
    magnitude at which numbers print with an exponent). *)
Definition number_key (twice : nat) : string :=
  if Nat.even twice then decimal (Nat.div2 twice)
  else String.append (decimal (Nat.div2 twice)) ".5".

(** [ContextMenuActions[ContextMenuActions[actionName] = length / 2] = actionName],
    then [length / 2 - 1] of the table as it is by then. *)
Definition register (actionName : string) (actions : Table) : Entry * Table :=
  let count := length actions in
  let actions1 := assign actions actionName (Number (Z.of_nat count)) in
  let actions2 := assign actions1 (number_key count) (Name actionName) in
  (Number (Z.of_nat (length actions2) - 2), actions2).

Definition AddEntityAction (actionName : string) (actions : Table)
  : Entry * Table :=
  match read actions actionName with
  | Some existing => (existing, actions)
  | None => register actionName actions
  end.

Definition AddInventoryItemAction (actionName : string) (actions : Table)
  : Entry * Table :=
  register actionName actions.

(** A table of [n] actions: twice [n] keys, none listed twice, and no
    number from [n] on among them. *)
Definition well_formed (n : nat) (actions : Table) : Prop :=
  NoDup (Obj.keys actions)
  /\ length actions = 2 * n
  /\ forall k, n <= k -> Obj.get actions (decimal k) = None.

(** The number of a name is the key of an entry that names it back. *)
Definition paired (actions : Table) (actionName : string) (n : nat) : Prop :=
  Obj.get actions actionName = Some (Number (2 * Z.of_nat n))
  /\ Obj.get actions (decimal n) = Some (Name actionName).

(** The table TypeScript compiles [enum { Attack, Talk }] to. *)
Definition two_actions : Table :=
  [("Attack", Number 0); ("0", Name "Attack");
   ("Talk", Number 2); ("1", Name "Talk")].

End ContextMenu.

(** * The search box of the main view *)

Module Search.

(** [s.includes(t)] *)
Fixpoint includes (s t : string) : bool :=
  String.prefix t s
  || match s with
     | EmptyString => false
     | String _ s' => includes s' t
     end.

(** A row of the main view as [filterPlugins] reads it: the element, and
    the texts of the two spans of its first [div] when that [div] is a
    column holding both. *)
Record Row : Type := mkRow {
  element : Element;
  captions : option (string * string)
}.

(** The summary row [createPluginSettings] builds for a plugin. *)
Definition summary_row (plugin : Plugin) : Row :=
  mkRow (mkElement (row_id (pluginName plugin)) flex false)
        (Some (pluginName plugin, String.append "by " (author plugin))).

Definition show (d : Display) (e : Element) : Element :=
  mkElement (id e) d (faded e).

Section Lowercase.

(** [String.prototype.toLowerCase] *)
Variable toLowerCase : string -> string.

(** The body of [pluginRows.forEach]. *)
Definition filter_row (searchTerm : string) (r : Row) : Row :=
  if String.eqb (id (element r)) (row_id "holder") then r
  else
    match captions r with
    | None => r
    | Some (nameText, authorText) =>
        let pluginName := toLowerCase nameText in
        let pluginAuthor := toLowerCase authorText in
        if String.eqb searchTerm ""
           || includes pluginName searchTerm
           || includes pluginAuthor searchTerm
        then mkRow (show flex (element r)) (captions r)
        else mkRow (show none (element r)) (captions r)
    end.

Definition filterPlugins (searchTerm : string) (rows : list Row) : list Row :=
  map (filter_row searchTerm) rows.

(** The [input] listener of the search box. *)
Definition search_input (typed : string) (rows : list Row) : list Row :=
  filterPlugins (toLowerCase typed) rows.

End Lowercase.

(** Lower case for the letters A to Z, to run the filter on examples. *)
Definition ascii_lower (c : ascii) : ascii :=
  let n := nat_of_ascii c in
  if Nat.leb 65 n && Nat.leb n 90 then ascii_of_nat (n + 32) else c.

Fixpoint lower (s : string) : string :=
  match s with
  | EmptyString => EmptyString
  | String c s' => String (ascii_lower c) (lower s')
  end.

(** Whether the row is shown. *)
Definition shown (r : Row) : bool :=
  match display (element r) with
  | flex => true
  | none => false
  end.

End Search.

(** * The disabled state of the controls *)

Module Controls.

(** The form controls of a row, by tag name.  Labels and containers match
    no selector of the manager and are left out. *)
Inductive Tag : Type := input | button | select.

Record Control : Type := mkControl {
  tag : Tag;
  is_disabled : bool
}.

(** The rows of a view, in document order, by id. *)
Definition Rows : Type := Obj.t (list Control).

(** The view shown in the panel: its rows, and the controls it holds
    outside them (the search box of the main view; the detail view has
    none).  The view itself carries the id [row_id "holder"] and comes
    before its rows in document order. *)
Record Panel : Type := mkPanel {
  loose : list Control;
  rows : Rows
}.

(** Whether [querySelectorAll('input, button')] selects the control. *)
Definition selected (c : Control) : bool :=
  match tag c with
  | input | button => true
  | select => false
  end.

(** [inputs.forEach(input => { htmlInput.disabled = d; ... })] *)
Definition set_disabled (d : bool) (controls : list Control) : list Control :=
  map (fun c => if selected c then mkControl (tag c) d else c) controls.

(** The controls the switch of [openPluginSettings] puts in the row of a
    setting, and the handling of [setting.disabled] that follows it. *)
Definition row_controls (setting : PluginSettings) : list Control :=
  let built :=
    match type setting with
    | SettingsTypes.checkbox | SettingsTypes.range
    | SettingsTypes.color | SettingsTypes.text => [mkControl input false]
    | SettingsTypes.button => [mkControl button false]
    | SettingsTypes.combobox =>
        match options setting with
        | None | Some [] => []
        | Some (_ :: _) => [mkControl select false]
        end
    end in
  if truthy (disabled setting) then set_disabled true built else built.

(** The rows of the detail view of a plugin, as [openPluginSettings]
    builds them. *)
Definition detail_rows (plugin : Plugin) : Rows :=
  flat_map
    (fun settingKey =>
       if String.eqb settingKey enable_key then []
       else match settings_get plugin settingKey with
            | Some setting => [(row_id settingKey, row_controls setting)]
            | None => []
            end)
    (settings_keys plugin).

(** The detail view [openPluginSettings] puts in the panel. *)
Definition detail_view (plugin : Plugin) : Panel :=
  mkPanel [] (detail_rows plugin).

(** One turn of the loop of [refreshPluginSettingsDisabled].  For the key
    [holder], [getElementById] returns the view, and the selector then
    finds every control in it. *)
Definition refresh_row (plugin : Plugin) (panel : Panel) (settingKey : string)
  : Panel :=
  if String.eqb settingKey enable_key then panel
  else
    match settings_get plugin settingKey with
    | Some setting =>
        let d := truthy (disabled setting) in
        if String.eqb settingKey "holder"
        then mkPanel (set_disabled d (loose panel))
                     (map (fun row => (fst row, set_disabled d (snd row)))
                          (rows panel))
        else mkPanel (loose panel)
                     (Obj.adjust (set_disabled d) (rows panel) (row_id settingKey))
    | None => panel
    end.

Definition refreshPluginSettingsDisabled (plugin : Plugin) (panel : Panel) : Panel :=
  fold_left (refresh_row plugin) (settings_keys plugin) panel.

(** What plugin code does when it assigns [setting.disabled]. *)
Definition with_disabled (d : option bool) (s : PluginSettings) : PluginSettings :=
  mkSetting (type s) (value s) (validation s) (hidden s) d (onLoaded s)
            (min s) (max s) (options s) (proxies s).

(** A plugin that has switched two of its settings off. *)
Definition frozen : Plugin :=
  mkPlugin "Frozen" "carol" (Example.toggle true)
           [("volume", with_disabled (Some true) Example.volume);
            ("mode", with_disabled (Some true) Example.mode);
            ("label", Example.label)].

End Controls.

(** * What a plugin declares *)

(** The fields of a setting the manager only reads. *)
Record Declared : Type := mkDeclared {
  declared_type : SettingsTypes.t;
  declared_validation : option (JSValue -> bool);
  declared_disabled : option bool;
  declared_onLoaded : bool;
  declared_min : option number;
  declared_max : option number;
  declared_options : option Options
}.

Definition declared (s : PluginSettings) : Declared :=
  mkDeclared (type s) (validation s) (disabled s) (onLoaded s)
             (min s) (max s) (options s).

(** A plugin without the values, the [hidden] flags and the proxy layers of
    its settings: its name, its author, its keys in order and what each
    setting declares. *)
Definition declaration (p : Plugin)
  : string * string * Declared * list (string * Declared) :=
  (pluginName p, author p, declared (enable p),
   map (fun kv => (fst kv, declared (snd kv))) (others p)).

(** The declarations of the registered plugins are those of [m]. *)
Definition same_declarations (m m' : SettingsManager) : Prop :=
  map declaration (pluginList m') = map declaration (pluginList m).

(** A run of the manager: the actions of a list, one after the other. *)
Definition run (actions : list Action) (m : SettingsManager) : SettingsManager :=
  fold_left (fun m a => perform a m) actions m.

(** The store holds, under the name of every registered plugin, the
    snapshot of the plugin as it is in memory now. *)
Definition mirrored (m : SettingsManager) : Prop :=
  forall i p,
    nth_error (pluginList m) i = Some p ->
    stored_entry m (pluginName p) = Some (snapshot p).

(** ** A restart, used to exercise the statements *)

Module Restart.

(** The user turns the volume up to 10 ... *)
Definition louder : SettingsManager :=
  range_change 0 "volume" (Some (10 # 1)%Q) Example.installed.

(** ... and comes back later: the plugins are constructed anew, with
    their defaults, over the store the last session left. *)
Definition restarted : SettingsManager :=
  createMenu
    (mkManager (database louder) [Example.alerts; Example.lookup] "player"
               None [] None MainView [] []).

End Restart.

(** ** Vocabulary for the detail view *)

(** The row [openPluginSettings] builds for [settingKey] from the state
    [m]: none for [enable] or for a key without a setting. *)
Definition detail_row (i : nat) (m : SettingsManager) (settingKey : string)
  : list Element :=
  if String.eqb settingKey enable_key then []
  else
    match setting_at m i settingKey with
    | Some setting =>
        [mkElement (row_id settingKey)
                   (if truthy (hidden setting) then none else flex)
                   (truthy (hidden setting))]
    | None => []
    end.

(** The setting under [key] gives [openPluginSettings] nothing to repair:
    if it is a combobox with options, its value is one of them. *)
Definition settled (m : SettingsManager) (i : nat) (key : string) : Prop :=
  forall s first rest,
    setting_at m i key = Some s ->
    type s = SettingsTypes.combobox ->
    options s = Some (first :: rest) ->
    needs_reset (value s) (first :: rest) = false.

(** * Facts *)

(** ** Objects *)

Section ObjFacts.

Context {A : Type}.

Lemma get_set_same (o : Obj.t A) k v : Obj.get (Obj.set o k v) k = Some v.
Proof.
  induction o as [|[k' v'] o IH]; simpl.
  - now rewrite String.eqb_refl.
  - destruct (String.eqb_spec k' k) as [->|Hne]; simpl.
    + now rewrite String.eqb_refl.
    + apply String.eqb_neq in Hne. now rewrite Hne.
Qed.

Lemma get_set_other (o : Obj.t A) k k' v :
  k <> k' -> Obj.get (Obj.set o k v) k' = Obj.get o k'.
Proof.
  intros Hne. induction o as [|[k0 v0] o IH]; simpl.
  - apply String.eqb_neq in Hne. now rewrite Hne.
  - destruct (String.eqb_spec k0 k) as [->|Hk]; simpl.
    + apply String.eqb_neq in Hne. now rewrite Hne.
    + now rewrite IH.
Qed.

Lemma set_get_id (o : Obj.t A) k v : Obj.get o k = Some v -> Obj.set o k v = o.
Proof.
  induction o as [|[k0 v0] o IH]; simpl; [discriminate|].
  destruct (String.eqb_spec k0 k) as [->|Hk]; intros H.
  - now inversion H.
  - now rewrite IH.
Qed.

Lemma get_some_in_keys (o : Obj.t A) k v : Obj.get o k = Some v -> In k (Obj.keys o).
Proof.
  induction o as [|[k0 v0] o IH]; simpl; [discriminate|].
  destruct (String.eqb_spec k0 k) as [->|Hk]; intros H; [now left|right; auto].
Qed.

Lemma in_keys_get (o : Obj.t A) k : In k (Obj.keys o) -> exists v, Obj.get o k = Some v.
Proof.
  induction o as [|[k0 v0] o IH]; simpl; [tauto|].
  destruct (String.eqb_spec k0 k) as [->|Hk]; intros [H|H]; eauto; congruence.
Qed.

Lemma get_adjust_same (f : A -> A) (o : Obj.t A) k :
  Obj.get (Obj.adjust f o k) k = option_map f (Obj.get o k).
Proof.
  induction o as [|[k0 v0] o IH]; simpl; [reflexivity|].
  destruct (String.eqb_spec k0 k) as [->|Hk]; simpl.
  - now rewrite String.eqb_refl.
  - apply String.eqb_neq in Hk. now rewrite Hk.
Qed.

Lemma get_adjust_other (f : A -> A) (o : Obj.t A) k k' :
  k <> k' -> Obj.get (Obj.adjust f o k) k' = Obj.get o k'.
Proof.
  intros Hne. induction o as [|[k0 v0] o IH]; simpl; [reflexivity|].
  destruct (String.eqb_spec k0 k) as [->|Hk]; simpl.
  - apply String.eqb_neq in Hne. now rewrite Hne.
  - now rewrite IH.
Qed.

Lemma keys_adjust (f : A -> A) (o : Obj.t A) k :
  Obj.keys (Obj.adjust f o k) = Obj.keys o.
Proof.
  induction o as [|[k0 v0] o IH]; simpl; [reflexivity|].
  destruct (String.eqb k0 k); [reflexivity|].
  unfold Obj.keys in *. simpl. now f_equal.
Qed.

End ObjFacts.

(** Assigning [f k] under every key of [ks]: the result is read off [f]. *)
Lemma get_fold_set {V} (f : string -> option V) (ks : list string) :
  forall (acc : Obj.t V) k,
    Obj.get
      (fold_left (fun store key =>
                    match f key with
                    | Some v => Obj.set store key v
                    | None => store
                    end) ks acc) k
    = if in_dec string_dec k ks
      then match f k with Some v => Some v | None => Obj.get acc k end
      else Obj.get acc k.
Proof.
  induction ks as [|k0 ks IH]; intros acc k; simpl; [reflexivity|].
  rewrite IH.
  destruct (string_dec k0 k) as [->|Hne].
  - destruct (f k) as [v|] eqn:Hf.
    + destruct (in_dec string_dec k ks); [reflexivity|apply get_set_same].
    + destruct (in_dec string_dec k ks); reflexivity.
  - destruct (in_dec string_dec k ks) as [Hin|Hin].
    + destruct (f k); [reflexivity|].
      destruct (f k0); [now apply get_set_other|reflexivity].
    + destruct (f k0); [now apply get_set_other|reflexivity].
Qed.

Lemma fold_left_ext {X Y} (f g : X -> Y -> X) (l : list Y) :
  (forall x y, In y l -> f x y = g x y) ->
  forall x, fold_left f l x = fold_left g l x.
Proof.
  induction l as [|y l IH]; intros H x; simpl; [reflexivity|].
  rewrite H by now left. apply IH. intros; apply H; now right.
Qed.

(** ** Lists of plugins *)

Lemma nth_error_update_nth_same {A} (f : A -> A) (l : list A) i :
  nth_error (update_nth f l i) i = option_map f (nth_error l i).
Proof.
  revert i; induction l as [|x l IH]; intros [|i]; simpl; auto.
Qed.

Lemma nth_error_update_nth_other {A} (f : A -> A) (l : list A) i j :
  i <> j -> nth_error (update_nth f l i) j = nth_error l j.
Proof.
  revert i j; induction l as [|x l IH]; intros [|i] [|j] H; simpl; auto;
    congruence.
Qed.

Lemma map_update_nth {A B} (g : A -> B) (f : A -> A) (l : list A) i :
  (forall x, g (f x) = g x) -> map g (update_nth f l i) = map g l.
Proof.
  intros H. revert i; induction l as [|x l IH]; intros [|i]; simpl; auto.
  - now rewrite H.
  - now rewrite IH.
Qed.

(** ** Settings of one plugin *)

Lemma pluginName_adjust f p k : pluginName (settings_adjust f p k) = pluginName p.
Proof. unfold settings_adjust. now destruct (String.eqb k enable_key). Qed.

Lemma settings_keys_adjust f p k :
  settings_keys (settings_adjust f p k) = settings_keys p.
Proof.
  unfold settings_adjust, settings_keys.
  destruct (String.eqb k enable_key); simpl; [reflexivity|].
  now rewrite keys_adjust.
Qed.

Lemma settings_get_adjust_same f p k :
  settings_get (settings_adjust f p k) k = option_map f (settings_get p k).
Proof.
  unfold settings_adjust, settings_get.
  destruct (String.eqb k enable_key) eqn:E; simpl; rewrite ?E; [reflexivity|].
  apply get_adjust_same.
Qed.

Lemma settings_get_adjust_other f p k k' :
  k <> k' -> settings_get (settings_adjust f p k) k' = settings_get p k'.
Proof.
  intros Hne. unfold settings_adjust, settings_get.
  destruct (String.eqb_spec k enable_key) as [->|E];
    destruct (String.eqb_spec k' enable_key) as [->|E']; simpl;
    try reflexivity; try congruence.
  now apply get_adjust_other.
Qed.

Lemma settings_get_in_keys p k s :
  settings_get p k = Some s -> In k (settings_keys p).
Proof.
  unfold settings_get, settings_keys.
  destruct (String.eqb_spec k enable_key) as [->|E]; intros H.
  - now left.
  - right. eapply get_some_in_keys; eauto.
Qed.

Lemma in_keys_settings_get p k :
  In k (settings_keys p) -> exists s, settings_get p k = Some s.
Proof.
  unfold settings_get, settings_keys.
  destruct (String.eqb_spec k enable_key) as [->|E]; intros H; eauto.
  destruct H as [H|H]; [congruence|now apply in_keys_get].
Qed.

Lemma with_value_id s : with_value (value s) s = s.
Proof. now destruct s. Qed.

(** The snapshot maps exactly the keys of the plugin to their values. *)
Lemma snapshot_get p k :
  Obj.get (snapshot p) k = option_map value (settings_get p k).
Proof.
  unfold snapshot.
  rewrite fold_left_ext with
    (g := fun store key =>
            match option_map value (settings_get p key) with
            | Some v => Obj.set store key v
            | None => store
            end)
    by (intros x y _; now destruct (settings_get p y)).
  rewrite get_fold_set.
  - destruct (in_dec string_dec k (settings_keys p)) as [Hin|Hin]; simpl.
    + destruct (in_keys_settings_get _ _ Hin) as [s ->]. reflexivity.
    + destruct (settings_get p k) eqn:E; [|reflexivity].
      exfalso. apply Hin. eapply settings_get_in_keys; eauto.
Qed.

(** ** The manager's primitives *)

Lemma schedule_nil m : schedule [] m = m.
Proof. destruct m; unfold schedule; simpl. now rewrite app_nil_r. Qed.

(** [storePluginSettings] always leaves the in-memory record and the store
    in agreement. *)
Lemma storePluginSettings_coherent m plugin :
  coherent (storePluginSettings (username m) plugin m).
Proof. unfold coherent, storePluginSettings; simpl. apply get_set_same. Qed.

Lemma read_store_coherent m : coherent (read_store m).
Proof. reflexivity. Qed.

(** The accepted path of a handler, spelled out. *)
Lemma apply_and_save_eq m i key v after p :
  nth_error (pluginList m) i = Some p ->
  let p' := settings_adjust (with_value v) p key in
  let r := Obj.set (current_record m) (pluginName p) (snapshot p') in
  apply_and_save i key v after m
  = mkManager (Obj.set (database m) (username m) r)
              (update_nth (fun q => settings_adjust (with_value v) q key)
                          (pluginList m) i)
              (username m) (Some r)
              (mainSettingsView m) (pluginSettingsView m) (currentView m)
              (tasks m ++ after)
              (log m ++ [Callback i key; Put (username m) r]).
Proof.
  intros Hp p' r.
  unfold apply_and_save, store_plugin, emit, adjust_setting; simpl.
  rewrite nth_error_update_nth_same, Hp; simpl.
  unfold storePluginSettings, emit, with_store, schedule; simpl.
  rewrite pluginName_adjust, <- app_assoc. reflexivity.
Qed.

Lemma enable_change_eq m i checked :
  enable_change i checked m = apply_and_save i enable_key (VBool checked) [] m.
Proof. unfold apply_and_save. now rewrite schedule_nil. Qed.

Lemma stored_value_entry m name key :
  stored_value m name key
  = match stored_entry m name with
    | Some data =>
        match Obj.get data key with
        | Some v => if is_undefined v then None else Some v
        | None => None
        end
    | None => None
    end.
Proof.
  unfold stored_value, stored_entry, record_value.
  now destruct (Obj.get (database m) (username m)).
Qed.

(** ** C2: storing one plugin leaves the entries of the others alone *)

(** C2, as amended.  When the record kept in memory agrees with the store,
    [storePluginSettings(username, A)] replaces the entry of the record
    under the name of [A] by the snapshot of [A] and leaves the entry under
    the name of any other plugin [B] as the store had it; the record
    written is the whole record, and memory and store agree afterwards.
    The write starts from the record kept in memory and never reads the
    store; the two agree in every state this manager reaches on its own
    ([running_coherent]). *)
Theorem storePluginSettings_frame (m : SettingsManager) (A B : Plugin) :
  coherent m ->
  pluginName A <> pluginName B ->
  let m' := storePluginSettings (username m) A m in
  stored_entry m' (pluginName B) = stored_entry m (pluginName B)
  /\ stored_entry m' (pluginName A) = Some (snapshot A)
  /\ (forall key, stored_value m' (pluginName B) key
                  = stored_value m (pluginName B) key)
  /\ coherent m'.
Proof.
  intros Hco Hne m'.
  assert (HB : stored_entry m' (pluginName B) = stored_entry m (pluginName B)).
  { unfold stored_entry, m', storePluginSettings; simpl.
    rewrite get_set_same, get_set_other by exact Hne.
    rewrite Hco. destruct (databaseSettings m); reflexivity. }
  repeat split.
  - exact HB.
  - unfold stored_entry, m', storePluginSettings; simpl.
    rewrite get_set_same. apply get_set_same.
  - intros key. rewrite !stored_value_entry. now rewrite HB.
  - apply storePluginSettings_coherent.
Qed.

Lemma storePluginSettings_frame_witness :
  coherent Example.installed
  /\ pluginName Example.lookup <> pluginName Example.alerts
  /\ stored_entry
       (storePluginSettings (username Example.installed) Example.lookup
                            Example.installed)
       (pluginName Example.alerts)
     = stored_entry Example.installed (pluginName Example.alerts).
Proof.
  split; [reflexivity|split; [discriminate|]].
  apply (storePluginSettings_frame Example.installed Example.lookup Example.alerts).
  - reflexivity.
  - discriminate.
Defined.

(** C2 as the spec words it, for every state, fails from a stale copy.
    [storePluginSettings] does not read the store before it writes: it
    puts the snapshot into the record it has in memory and writes that
    record whole.  Storing [Lookup] from [Example.stale] brings the stored
    volume of [Alerts] back from 1 to 7 and drops the entry of [Other]. *)
Lemma storePluginSettings_frame_counterexample :
  let m := Example.stale in
  let m' := storePluginSettings (username m) Example.lookup m in
  pluginName Example.lookup <> pluginName Example.alerts
  /\ ~ coherent m
  /\ stored_value m "Alerts" "volume" = Some (VNum (Finite (1 # 1)))
  /\ stored_value m' "Alerts" "volume" = Some (VNum (Finite (7 # 1)))
  /\ stored_entry m "Other" = Some [("enable", VBool true)]
  /\ stored_entry m' "Other" = None
  /\ stored_entry m' (pluginName Example.alerts)
     <> stored_entry m (pluginName Example.alerts).
Proof.
  cbv zeta. repeat split; try reflexivity; try discriminate.
Qed.

Lemma nth_error_adjust_same i key f m p :
  nth_error (pluginList m) i = Some p ->
  nth_error (pluginList (adjust_setting i key f m)) i
  = Some (settings_adjust f p key).
Proof.
  intros Hp. unfold adjust_setting; simpl.
  now rewrite nth_error_update_nth_same, Hp.
Qed.

Lemma apply_and_save_accepted m i key v after p s :
  nth_error (pluginList m) i = Some p ->
  settings_get p key = Some s ->
  accepted m (apply_and_save i key v after m) i key v.
Proof.
  intros Hp Hs.
  assert (Hget : settings_get (settings_adjust (with_value v) p key) key
                 = Some (with_value v s))
    by now rewrite settings_get_adjust_same, Hs.
  exists (settings_adjust (with_value v) p key),
         (Obj.set (current_record m) (pluginName p)
                  (snapshot (settings_adjust (with_value v) p key))).
  rewrite (apply_and_save_eq m i key v after p Hp); simpl.
  repeat split.
  - now rewrite nth_error_update_nth_same, Hp.
  - unfold value_at, setting_at; simpl.
    now rewrite nth_error_update_nth_same, Hp; simpl; rewrite Hget.
  - rewrite pluginName_adjust. apply get_set_same.
  - apply get_set_same.
  - now rewrite snapshot_get, Hget.
Qed.

(** ** C1: writes a validator rejects *)

Lemma rejected_true setting validate candidate :
  validation setting = Some validate ->
  validate candidate = false ->
  rejected setting candidate = true.
Proof. unfold rejected. now intros -> ->. Qed.

(** C1.  For a setting of the detail view that is a checkbox, a range, a
    colour or a text setting: when its validator rejects the candidate
    taken from the control, the handler returns the manager as it found
    it, so the value is unchanged, no callback is called and nothing is
    written to the store.  The handler of a combobox is the one that has
    no such check ([rejected_write_counterexample]); the toggle of
    [enable] has none by design. *)
Theorem rejected_write_is_noop (m : SettingsManager) (i : nat) (key : string)
    (candidate : JSValue) :
  key <> enable_key ->
  (forall setting, setting_at m i key = Some setting ->
                   type setting <> SettingsTypes.combobox) ->
  rejected_write_is_noop_at m i key candidate.
Proof.
  intros Hkey Hty setting validate Hs Hv Hrej.
  pose proof (rejected_true _ _ _ Hv Hrej) as Hr.
  specialize (Hty _ Hs).
  unfold user_write. rewrite Hs.
  apply String.eqb_neq in Hkey. rewrite Hkey.
  destruct (type setting) eqn:Ety; try congruence;
    destruct candidate as [|b|[| |q|]|c]; try reflexivity.
  - unfold checkbox_change. now rewrite Hs, Hr.
  - unfold range_change. rewrite Hs; simpl. rewrite Hr.
    now destruct (out_of_bounds setting NaN).
  - unfold range_change. rewrite Hs; simpl. rewrite Hr.
    now destruct (out_of_bounds setting (Finite q)).
  - unfold color_change. now rewrite Hs, Hr.
  - unfold text_change. now rewrite Hs, Hr.
Qed.

Lemma rejected_write_is_noop_witness :
  "label" <> enable_key
  /\ setting_at Example.opened 0 "label" = Some (with_proxy Example.label)
  /\ validation (with_proxy Example.label) = Some Example.not_empty
  /\ Example.not_empty (VStr "") = false
  /\ user_write 0 "label" (VStr "") Example.opened = Example.opened.
Proof.
  split; [discriminate|].
  split; [reflexivity|].
  split; [reflexivity|].
  split; [reflexivity|].
  apply (rejected_write_is_noop Example.opened 0 "label" (VStr ""))
    with (setting := with_proxy Example.label) (validate := Example.not_empty).
  - discriminate.
  - intros setting H. vm_compute in H. inversion H. discriminate.
  - reflexivity.
  - reflexivity.
  - reflexivity.
Defined.

(** The change handler of a combobox has no validation step: whatever
    validator the setting carries, the option picked becomes the value, the
    callback is called and the snapshot is stored. *)
Lemma combobox_ignores_validation m i key p s choice :
  nth_error (pluginList m) i = Some p ->
  key <> enable_key ->
  settings_get p key = Some s ->
  type s = SettingsTypes.combobox ->
  user_write i key (VStr choice) m = combobox_change i key choice m
  /\ accepted m (user_write i key (VStr choice) m) i key (VStr choice).
Proof.
  intros Hp Hk Hs Ht.
  assert (E : user_write i key (VStr choice) m = combobox_change i key choice m).
  { unfold user_write, setting_at. rewrite Hp, Hs.
    apply String.eqb_neq in Hk. now rewrite Hk, Ht. }
  split; [exact E|]. rewrite E. unfold combobox_change.
  eapply apply_and_save_accepted; eauto.
Qed.

(** C1, the failing input.  The combobox [mode] of the example carries a
    validator that accepts nothing.  With the detail view open and the
    value ["a"], the user picks ["b"]: the validator rejects it, and the
    handler still sets the value, calls the callback and stores the
    snapshot.  The rejected write is not a no-op. *)
Lemma rejected_write_counterexample :
  (exists s validate,
      setting_at Example.opened 0 "mode" = Some s
      /\ type s = SettingsTypes.combobox
      /\ validation s = Some validate
      /\ validate (VStr "b") = false)
  /\ value_at Example.opened 0 "mode" = Some (VStr "a")
  /\ accepted Example.opened (user_write 0 "mode" (VStr "b") Example.opened)
              0 "mode" (VStr "b")
  /\ ~ rejected_write_is_noop_at Example.opened 0 "mode" (VStr "b").
Proof.
  assert (P : exists p,
             nth_error (pluginList Example.opened) 0 = Some p
             /\ settings_get p "mode"
                = Some (with_value (VStr "a") (with_proxy Example.mode)))
    by (vm_compute; eexists; split; reflexivity).
  destruct P as (p & P1 & P2).
  assert (N : "mode" <> enable_key) by discriminate.
  split; [|split; [|split]].
  - exists (with_value (VStr "a") (with_proxy Example.mode)), (fun _ => false).
    split; [unfold setting_at; now rewrite P1, P2|].
    split; [reflexivity|]. split; reflexivity.
  - unfold value_at, setting_at. now rewrite P1, P2.
  - exact (proj2 (combobox_ignores_validation Example.opened 0 "mode" p _ "b"
                    P1 N P2 eq_refl)).
  - intros H.
    assert (Hs : setting_at Example.opened 0 "mode"
                 = Some (with_value (VStr "a") (with_proxy Example.mode)))
      by (unfold setting_at; now rewrite P1, P2).
    specialize (H _ (fun _ => false) Hs eq_refl eq_refl).
    apply (f_equal (fun m => value_at m 0 "mode")) in H.
    vm_compute in H. discriminate H.
Qed.

(** ** C5 and C10: the bounds check of a range input *)

Lemma Qltb_lt x y : Qltb x y = true <-> (x < y)%Q.
Proof.
  unfold Qltb. rewrite negb_true_iff, <- not_true_iff_false, Qle_bool_iff.
  split; [apply Qnot_le_lt|apply Qlt_not_le].
Qed.

Lemma Qltb_ge x y : Qltb x y = false <-> (y <= x)%Q.
Proof.
  unfold Qltb. rewrite negb_false_iff. apply Qle_bool_iff.
Qed.

Lemma num_lt_NaN_r a : num_lt a NaN = false.
Proof. now destruct a. Qed.

Lemma num_lt_NaN_l a : num_lt NaN a = false.
Proof. reflexivity. Qed.

(** The check rejects exactly the candidates below a declared [min] or
    above a declared [max]. *)
Lemma out_of_bounds_iff setting newValue :
  out_of_bounds setting newValue = true
  <-> (exists lo, min setting = Some lo /\ num_lt newValue lo = true)
      \/ (exists hi, max setting = Some hi /\ num_gt newValue hi = true).
Proof.
  unfold out_of_bounds, parseFloat_bound. rewrite orb_true_iff.
  split.
  - intros [H|H].
    + left. destruct (min setting) as [lo|]; [eauto|].
      now rewrite num_lt_NaN_r in H.
    + right. destruct (max setting) as [hi|]; [eauto|].
      unfold num_gt in H. now rewrite num_lt_NaN_l in H.
  - intros [[lo [-> H]]|[hi [-> H]]]; auto.
Qed.

Lemma out_of_bounds_unbounded setting newValue :
  min setting = None -> max setting = None ->
  out_of_bounds setting newValue = false.
Proof.
  intros Hmin Hmax. unfold out_of_bounds. rewrite Hmin, Hmax; simpl.
  unfold num_gt. now rewrite num_lt_NaN_r.
Qed.

Lemma range_change_accepted m i key input p setting :
  nth_error (pluginList m) i = Some p ->
  settings_get p key = Some setting ->
  out_of_bounds setting (parseFloat_value input) = false ->
  rejected setting (VNum (parseFloat_value input)) = false ->
  range_change i key input m
  = apply_and_save i key (VNum (parseFloat_value input)) [RefreshVisibility i] m
  /\ accepted m (range_change i key input m) i key
              (VNum (parseFloat_value input)).
Proof.
  intros Hp Hs Hb Hr.
  assert (E : range_change i key input m
              = apply_and_save i key (VNum (parseFloat_value input))
                               [RefreshVisibility i] m).
  { unfold range_change, setting_at. rewrite Hp, Hs; simpl. now rewrite Hb, Hr. }
  split; [exact E|]. rewrite E. eapply apply_and_save_accepted; eauto.
Qed.

Lemma range_change_out_of_bounds m i key input p setting :
  nth_error (pluginList m) i = Some p ->
  settings_get p key = Some setting ->
  out_of_bounds setting (parseFloat_value input) = true ->
  range_change i key input m = m.
Proof.
  intros Hp Hs Hb. unfold range_change, setting_at.
  rewrite Hp, Hs; simpl. now rewrite Hb.
Qed.

(** C5.  A range setting with [min = 0] and [max = 10]: the candidates 0
    and 10 are accepted when no validator objects (value updated, callback
    called, snapshot stored), the candidates -1 and 11 are rejected and the
    handler leaves the manager as it was. *)
Theorem range_boundary (m : SettingsManager) (i : nat) (key : string)
    (p : Plugin) (setting : PluginSettings) (lo hi : Q) :
  nth_error (pluginList m) i = Some p ->
  settings_get p key = Some setting ->
  type setting = SettingsTypes.range ->
  min setting = Some (Finite lo) -> (lo == 0)%Q ->
  max setting = Some (Finite hi) -> (hi == 10)%Q ->
  (forall c, (c == 0 \/ c == 10)%Q ->
             rejected setting (VNum (Finite c)) = false ->
             accepted m (range_change i key (Some c) m) i key (VNum (Finite c)))
  /\ (forall c, (c == -1 \/ c == 11)%Q -> range_change i key (Some c) m = m).
Proof.
  intros Hp Hs _ Hmin Hlo Hmax Hhi. split.
  - intros c Hc Hr.
    apply (range_change_accepted m i key (Some c) p setting); auto.
    unfold out_of_bounds, num_gt. rewrite Hmin, Hmax; simpl.
    apply orb_false_iff. split; apply Qltb_ge; destruct Hc; lra.
  - intros c Hc.
    apply (range_change_out_of_bounds m i key (Some c) p setting); auto.
    unfold out_of_bounds, num_gt. rewrite Hmin, Hmax; simpl.
    apply orb_true_iff. destruct Hc.
    + left. apply Qltb_lt. lra.
    + right. apply Qltb_lt. lra.
Qed.

Lemma range_boundary_witness :
  nth_error (pluginList Example.installed) 0
  = Some (make_reactive
            (settings_adjust (with_value (VNum (Finite (7 # 1))))
                             Example.alerts "volume"))
  /\ accepted Example.installed
              (range_change 0 "volume" (Some (10 # 1)%Q) Example.installed)
              0 "volume" (VNum (Finite (10 # 1)))
  /\ range_change 0 "volume" (Some (11 # 1)%Q) Example.installed
     = Example.installed.
Proof.
  split; [reflexivity|].
  pose proof
    (range_boundary Example.installed 0 "volume"
       (make_reactive
          (settings_adjust (with_value (VNum (Finite (7 # 1))))
                           Example.alerts "volume"))
       (with_proxy (with_value (VNum (Finite (7 # 1))) Example.volume))
       (0 # 1) (10 # 1)
       eq_refl eq_refl eq_refl eq_refl (Qeq_refl _) eq_refl (Qeq_refl _))
    as [Hin Hout].
  split.
  - apply Hin; [right; reflexivity|reflexivity].
  - apply Hout. right; reflexivity.
Defined.

(** C10.  The bounds check rejects only a candidate below a declared [min]
    or above a declared [max].  With neither declared both bounds parse to
    [NaN] and every candidate passes; an empty or non-numeric input then
    yields the candidate [NaN], which, with no validator, is accepted and
    stored as the value of the setting. *)
Theorem range_without_bounds (m : SettingsManager) (i : nat) (key : string)
    (p : Plugin) (setting : PluginSettings) :
  nth_error (pluginList m) i = Some p ->
  settings_get p key = Some setting ->
  type setting = SettingsTypes.range ->
  min setting = None -> max setting = None ->
  parseFloat_bound (min setting) = NaN
  /\ parseFloat_bound (max setting) = NaN
  /\ (forall s c, out_of_bounds s c = true
                  <-> (exists lo, min s = Some lo /\ num_lt c lo = true)
                      \/ (exists hi, max s = Some hi /\ num_gt c hi = true))
  /\ (forall c, out_of_bounds setting c = false)
  /\ parseFloat_value None = NaN
  /\ (validation setting = None ->
      accepted m (range_change i key None m) i key (VNum NaN)).
Proof.
  intros Hp Hs _ Hmin Hmax.
  split; [now rewrite Hmin|].
  split; [now rewrite Hmax|].
  split; [apply out_of_bounds_iff|].
  split; [intros c; now apply out_of_bounds_unbounded|].
  split; [reflexivity|].
  intros Hv.
  apply (range_change_accepted m i key None p setting); auto.
  - now apply out_of_bounds_unbounded.
  - unfold rejected. now rewrite Hv.
Qed.

Lemma range_without_bounds_witness :
  nth_error (pluginList Example.fresh) 0 = Some Example.alerts
  /\ settings_get Example.alerts "offset" = Some Example.offset
  /\ accepted Example.fresh (range_change 0 "offset" None Example.fresh)
              0 "offset" (VNum NaN).
Proof.
  split; [reflexivity|]. split; [reflexivity|].
  apply (range_without_bounds Example.fresh 0 "offset" Example.alerts
           Example.offset eq_refl eq_refl eq_refl eq_refl eq_refl).
  reflexivity.
Defined.

(** ** makeSettingsReactive *)

Lemma iter_with_proxy_value n s : value (Nat.iter n with_proxy s) = value s.
Proof. induction n; simpl; auto. Qed.

Lemma iter_with_proxy_proxies n s : proxies (Nat.iter n with_proxy s) = n + proxies s.
Proof. induction n; simpl; auto. Qed.

Lemma iter_with_proxy_shift n s :
  Nat.iter n with_proxy (with_proxy s) = with_proxy (Nat.iter n with_proxy s).
Proof. induction n; simpl; congruence. Qed.

(** Every key other than [enable] gains one proxy layer each time the loop
    visits it; nothing else changes. *)
Lemma make_reactive_fold ks :
  forall p,
    let p' :=
      fold_left
        (fun p settingKey =>
           if String.eqb settingKey enable_key then p
           else settings_adjust with_proxy p settingKey) ks p in
    pluginName p' = pluginName p
    /\ settings_keys p' = settings_keys p
    /\ forall k,
        settings_get p' k
        = option_map
            (Nat.iter (if String.eqb k enable_key then 0
                       else count_occ string_dec ks k) with_proxy)
            (settings_get p k).
Proof.
  induction ks as [|k0 ks IH]; intros p; simpl.
  - repeat split. intros k.
    destruct (String.eqb k enable_key); now destruct (settings_get p k).
  - destruct (String.eqb_spec k0 enable_key) as [->|Hk0].
    + destruct (IH p) as (Hn & Hk & Hg). repeat split; auto.
      intros k. rewrite Hg.
      destruct (String.eqb_spec k enable_key) as [->|Hk']; [reflexivity|].
      destruct (string_dec enable_key k); [congruence|reflexivity].
    + destruct (IH (settings_adjust with_proxy p k0)) as (Hn & Hk & Hg).
      repeat split.
      * now rewrite Hn, pluginName_adjust.
      * now rewrite Hk, settings_keys_adjust.
      * intros k. rewrite Hg.
        destruct (string_dec k0 k) as [->|Hne].
        -- rewrite settings_get_adjust_same.
           apply String.eqb_neq in Hk0. rewrite Hk0.
           destruct (settings_get p k); simpl; [|reflexivity].
           now rewrite iter_with_proxy_shift.
        -- now rewrite settings_get_adjust_other.
Qed.

Lemma make_reactive_name p : pluginName (make_reactive p) = pluginName p.
Proof. apply (make_reactive_fold (settings_keys p) p). Qed.

Lemma make_reactive_keys p : settings_keys (make_reactive p) = settings_keys p.
Proof. apply (make_reactive_fold (settings_keys p) p). Qed.

Lemma make_reactive_get p k :
  settings_get (make_reactive p) k
  = option_map
      (Nat.iter (if String.eqb k enable_key then 0
                 else count_occ string_dec (settings_keys p) k) with_proxy)
      (settings_get p k).
Proof. apply (make_reactive_fold (settings_keys p) p). Qed.

Lemma make_reactive_value p k :
  option_map value (settings_get (make_reactive p) k)
  = option_map value (settings_get p k).
Proof.
  rewrite make_reactive_get. destruct (settings_get p k); simpl; [|reflexivity].
  now rewrite iter_with_proxy_value.
Qed.

Lemma make_reactive_enable p : enable (make_reactive p) = enable p.
Proof.
  pose proof (make_reactive_get p enable_key) as H.
  unfold settings_get in H. simpl in H. congruence.
Qed.

(** The settings other than [enable] do get wrapped. *)
Lemma make_reactive_wraps p k s :
  k <> enable_key ->
  settings_get p k = Some s ->
  exists s', settings_get (make_reactive p) k = Some s'
             /\ proxies s < proxies s'.
Proof.
  intros Hk Hs. rewrite make_reactive_get, Hs.
  assert (In k (settings_keys p)) as Hin by (eapply settings_get_in_keys; eauto).
  apply (count_occ_In string_dec) in Hin.
  apply String.eqb_neq in Hk. rewrite Hk. cbn [option_map].
  eexists; split; [reflexivity|].
  rewrite iter_with_proxy_proxies. lia.
Qed.

Lemma snapshot_ext p q :
  settings_keys p = settings_keys q ->
  (forall k, option_map value (settings_get p k)
             = option_map value (settings_get q k)) ->
  snapshot p = snapshot q.
Proof.
  intros Hk Hv. unfold snapshot. rewrite Hk.
  apply fold_left_ext. intros store k _.
  specialize (Hv k).
  destruct (settings_get p k), (settings_get q k); simpl in Hv; congruence.
Qed.

Lemma snapshot_make_reactive p : snapshot (make_reactive p) = snapshot p.
Proof.
  apply snapshot_ext; [apply make_reactive_keys|apply make_reactive_value].
Qed.

(** ** C7: the enable toggle *)

(** C7.  The toggle of the summary row writes [enable] whatever validator
    the setting carries: the value is set, the callback of [enable] is
    called on the plugin and the snapshot of the plugin is stored, which
    are the only two calls it makes; it queues no refresh and touches no
    row.  [makeSettingsReactive] leaves the [enable] setting unwrapped, so
    that writing its [hidden] flag queues no refresh either. *)
Theorem enable_toggle_bypasses (m : SettingsManager) (i : nat) (p : Plugin)
    (checked : bool) :
  nth_error (pluginList m) i = Some p ->
  let m' := enable_change i checked m in
  user_write i enable_key (VBool checked) m = m'
  /\ accepted m m' i enable_key (VBool checked)
  /\ tasks m' = tasks m
  /\ mainSettingsView m' = mainSettingsView m
  /\ pluginSettingsView m' = pluginSettingsView m
  /\ currentView m' = currentView m
  /\ enable (make_reactive p) = enable p
  /\ (proxies (enable p) = 0 ->
      forall v, tasks (write_hidden i enable_key v (makeSettingsReactive i m))
                = tasks m).
Proof.
  intros Hp m'.
  assert (Hs : settings_get p enable_key = Some (enable p)) by reflexivity.
  split.
  { unfold user_write, setting_at. rewrite Hp, Hs. reflexivity. }
  split.
  { unfold m'. rewrite enable_change_eq.
    eapply apply_and_save_accepted; eauto. }
  unfold m'. rewrite enable_change_eq, (apply_and_save_eq _ _ _ _ _ _ Hp); simpl.
  split; [apply app_nil_r|].
  repeat (split; [reflexivity|]).
  split; [apply make_reactive_enable|].
  intros H0 v. unfold write_hidden, setting_at, makeSettingsReactive; simpl.
  rewrite nth_error_update_nth_same, Hp; simpl.
  unfold settings_get; simpl. rewrite make_reactive_enable, H0.
  destruct (flag_eqb (hidden (enable p)) v); simpl; [reflexivity|].
  apply app_nil_r.
Qed.

Lemma enable_toggle_bypasses_witness :
  nth_error (pluginList Example.installed) 0
  = Some (make_reactive
            (settings_adjust (with_value (VNum (Finite (7 # 1))))
                             Example.alerts "volume"))
  /\ accepted Example.installed (enable_change 0 false Example.installed)
              0 enable_key (VBool false).
Proof.
  split; [reflexivity|].
  apply (enable_toggle_bypasses Example.installed 0 _ false eq_refl).
Defined.

(** ** C9: toggling the visibility of a setting that is not there *)

(** C9.  [toggleSettingVisibility], [showSetting] and [hideSetting] return
    the manager untouched when the document has no element with the id of
    the row, when no registered plugin bears the name, or when the plugin
    found has no setting under the key. *)
Theorem toggleSettingVisibility_frame (m : SettingsManager)
    (name settingKey : string) (hidden_arg : option bool) :
  getElementById m (row_id settingKey) = None
  \/ find_plugin name (pluginList m) = None
  \/ (exists i plugin, find_plugin name (pluginList m) = Some (i, plugin)
                       /\ settings_get plugin settingKey = None) ->
  toggleSettingVisibility name settingKey hidden_arg m = m
  /\ showSetting name settingKey m = m
  /\ hideSetting name settingKey m = m.
Proof.
  intros H.
  assert (E : forall h, toggleSettingVisibility name settingKey h m = m).
  { intros h. unfold toggleSettingVisibility.
    destruct (getElementById m (row_id settingKey)); [|reflexivity].
    destruct H as [H|[H|(i & plugin & Hf & Hs)]].
    - discriminate.
    - now rewrite H.
    - now rewrite Hf, Hs. }
  unfold showSetting, hideSetting. now rewrite !E.
Qed.

Lemma toggleSettingVisibility_frame_witness :
  getElementById Example.installed (row_id "label") = None
  /\ hideSetting "Alerts" "label" Example.installed = Example.installed.
Proof.
  split; [reflexivity|].
  apply (toggleSettingVisibility_frame Example.installed "Alerts" "label" None).
  left. reflexivity.
Defined.

(** With the row on screen and the setting found, the flag does change. *)
Lemma toggleSettingVisibility_hides :
  option_map hidden (setting_at Example.opened 0 "sound") = Some None
  /\ option_map hidden
       (setting_at (hideSetting "Alerts" "sound" Example.opened) 0 "sound")
     = Some (Some true)
  /\ tasks (hideSetting "Alerts" "sound" Example.opened)
     = tasks Example.opened
       ++ [RefreshVisibility 0; DisplayNone (row_id "sound")].
Proof. repeat split. Qed.

(** ** Finding a plugin by name *)

Lemma find_plugin_some name l i p :
  find_plugin name l = Some (i, p) ->
  nth_error l i = Some p /\ pluginName p = name.
Proof.
  revert i; induction l as [|q l IH]; intros i; simpl; [discriminate|].
  destruct (String.eqb_spec (pluginName q) name) as [E|E].
  - intros H; inversion H; subst. now split.
  - destruct (find_plugin name l) as [[j r]|]; [|discriminate].
    intros H; inversion H; subst. simpl. now apply IH.
Qed.

Lemma find_plugin_none name l :
  find_plugin name l = None -> ~ In name (map pluginName l).
Proof.
  induction l as [|q l IH]; simpl; [tauto|].
  destruct (String.eqb_spec (pluginName q) name) as [E|E]; [discriminate|].
  destruct (find_plugin name l) as [[j r]|]; [discriminate|].
  intros _ [H|H]; [congruence|now apply IH].
Qed.

Lemma nth_error_name_in (l : list Plugin) i p :
  nth_error l i = Some p -> In (pluginName p) (map pluginName l).
Proof. intros H. apply in_map. eapply nth_error_In; eauto. Qed.

(** With unique names a name is borne at one position only. *)
Lemma unique_position (l : list Plugin) i j p q :
  NoDup (map pluginName l) ->
  nth_error l i = Some p -> nth_error l j = Some q ->
  pluginName p = pluginName q -> i = j.
Proof.
  intros Hnd Hi Hj E.
  apply (proj1 (NoDup_nth_error (map pluginName l)) Hnd).
  - rewrite length_map. apply nth_error_Some. congruence.
  - now rewrite !nth_error_map, Hi, Hj; simpl; rewrite E.
Qed.

Lemma nth_error_same_names (l l' : list Plugin) i p p' :
  map pluginName l' = map pluginName l ->
  nth_error l i = Some p -> nth_error l' i = Some p' ->
  pluginName p' = pluginName p.
Proof.
  intros E Hi Hi'.
  assert (H : nth_error (map pluginName l') i = nth_error (map pluginName l) i)
    by now rewrite E.
  rewrite !nth_error_map, Hi, Hi' in H. simpl in H. congruence.
Qed.

(** ** The load phase *)

Lemma same_world_refl m : same_world m m.
Proof. repeat split. Qed.

Lemma same_world_trans m1 m2 m3 :
  same_world m1 m2 -> same_world m2 m3 -> same_world m1 m3.
Proof.
  unfold same_world. intros (A1 & A2 & A3 & A4 & A5 & A6 & A7)
                            (B1 & B2 & B3 & B4 & B5 & B6 & B7).
  repeat split; congruence.
Qed.

Lemma record_value_data record n data k :
  Obj.get record n = Some data ->
  record_value record n k
  = match Obj.get data k with
    | Some v => if is_undefined v then None else Some v
    | None => None
    end.
Proof. unfold record_value. now intros ->. Qed.

Lemma load_one_none record n k x :
  record_value record n k = None ->
  option_map (load_one record n k) x = x.
Proof. unfold load_one. intros ->. now destruct x. Qed.

Lemma load_one_some record n k v x :
  record_value record n k = Some v ->
  option_map (load_one record n k) x = option_map (with_value v) x.
Proof. unfold load_one. now intros ->. Qed.

Lemma loading_start record m : loading record (fun _ _ => False) m m.
Proof.
  split; [apply same_world_refl|]. split; [reflexivity|]. split.
  - intros i p Hp. exists p. repeat split; auto; tauto.
  - exists []. rewrite app_nil_r. repeat split; simpl; tauto.
Qed.

Lemma loading_ext record (done done' : string -> string -> Prop) m0 m :
  (forall n k, done' n k -> done n k) ->
  loading record done m0 m -> loading record done' m0 m.
Proof.
  intros Hsub (Hw & Hn & Hp & evs & Hl & Hgood & Hall).
  split; [exact Hw|]. split; [exact Hn|]. split.
  - intros i p Hi. destruct (Hp i p Hi) as (p' & H1 & H2 & H3 & H4).
    exists p'. repeat split; auto; try apply H4. intros Hd. apply H4; auto.
  - exists evs. repeat split; auto. intros i k p Hi Hd. eapply Hall; eauto.
Qed.

(** A visit that changes nothing: it is enough that the setting visited is
    already as the record wants it and that no call is owed for it. *)
Lemma loading_skip record done m0 m n k :
  loading record done m0 m ->
  (forall i p p',
      nth_error (pluginList m0) i = Some p -> pluginName p = n ->
      nth_error (pluginList m) i = Some p' ->
      (settings_get p' k = settings_get p k
       \/ settings_get p' k
          = option_map (load_one record n k) (settings_get p k)) ->
      settings_get p' k = option_map (load_one record n k) (settings_get p k)
      /\ ~ owed record m0 i k) ->
  loading record (fun n' k' => done n' k' \/ (n' = n /\ k' = k)) m0 m.
Proof.
  intros (Hw & Hn & Hp & evs & Hl & Hgood & Hall) Hskip.
  split; [exact Hw|]. split; [exact Hn|]. split.
  - intros i p Hi. destruct (Hp i p Hi) as (p' & H1 & H2 & H3 & H4).
    exists p'. repeat split; auto; try apply H4.
    intros [Hd|[En Ek]]; [now apply H4|]. subst k0.
    rewrite En. apply (Hskip i p p'); auto.
    rewrite <- En. apply H4.
  - exists evs. repeat split; auto.
    intros i k0 p Hi [Hd|[En Ek]] Howed; [eapply Hall; eauto|]. subst k0.
    destruct (Hp i p Hi) as (p' & H1 & H2 & H3 & H4).
    exfalso. eapply (Hskip i p p'); eauto.
    rewrite <- En. apply H4.
Qed.

Lemma load_setting_loading record done m0 m n data k :
  unique_names m0 ->
  Obj.get record n = Some data ->
  loading record done m0 m ->
  loading record (fun n' k' => done n' k' \/ (n' = n /\ k' = k)) m0
          (load_setting data n m k).
Proof.
  intros Hnd Hrec Hload.
  pose proof (record_value_data record n data k Hrec) as Hrv.
  destruct (Obj.get data k) as [stored|] eqn:Hd.
  2:{ replace (load_setting data n m k) with m
        by (unfold load_setting; now rewrite Hd).
      apply loading_skip; auto. intros i p p' Hi En Hi' Hor.
      rewrite (load_one_none _ _ _ _ Hrv). split.
      - destruct Hor as [H|H]; [exact H|].
        now rewrite (load_one_none _ _ _ _ Hrv) in H.
      - intros (p0 & s & v & Hp0 & _ & _ & Hv). congruence. }
  destruct (is_undefined stored) eqn:Hu.
  { replace (load_setting data n m k) with m
      by (unfold load_setting; rewrite Hd; destruct stored;
          try discriminate; reflexivity).
    apply loading_skip; auto. intros i p p' Hi En Hi' Hor.
    rewrite (load_one_none _ _ _ _ Hrv). split.
    - destruct Hor as [H|H]; [exact H|].
      now rewrite (load_one_none _ _ _ _ Hrv) in H.
    - intros (p0 & s & v & Hp0 & _ & _ & Hv). congruence. }
  destruct Hload as (Hw & Hn & Hp & evs & Hl & Hgood & Hall).
  assert (Hload : loading record done m0 m)
    by (split; [exact Hw|]; split; [exact Hn|]; split; [exact Hp|];
        exists evs; auto).
  assert (Hnd' : NoDup (map pluginName (pluginList m)))
    by (rewrite Hn; exact Hnd).
  destruct (find_plugin n (pluginList m)) as [[i q]|] eqn:Hf.
  2:{ replace (load_setting data n m k) with m
        by (unfold load_setting; rewrite Hd, Hf; now destruct stored).
      apply loading_skip; auto. intros j p p' Hj En Hj' _.
      exfalso. apply find_plugin_none in Hf. apply Hf.
      rewrite Hn, <- En. eapply nth_error_name_in; eauto. }
  destruct (find_plugin_some _ _ _ _ Hf) as [Hiq Enq].
  destruct (settings_get q k) as [s'|] eqn:Hq.
  2:{ replace (load_setting data n m k) with m
        by (unfold load_setting; rewrite Hd, Hf, Hq; now destruct stored).
      apply loading_skip; auto. intros j p p' Hj En Hj' Hor.
      assert (j = i).
      { eapply (unique_position (pluginList m)); eauto.
        rewrite Enq, <- En. eapply nth_error_same_names; eauto. }
      subst j. assert (p' = q) by congruence. subst p'.
      rewrite Hq in Hor.
      assert (Hnone : settings_get p k = None).
      { destruct Hor as [H|H]; [congruence|].
        destruct (settings_get p k); [discriminate|reflexivity]. }
      rewrite Hq, Hnone. split; [reflexivity|].
      intros (p0 & s & v & Hp0 & Hs & _). congruence. }
  (* the visit writes the stored value *)
  assert (Hi0 : exists p0, nth_error (pluginList m0) i = Some p0).
  { destruct (nth_error (pluginList m0) i) as [p0|] eqn:E; [eauto|].
    exfalso. apply nth_error_None in E.
    assert (i < length (pluginList m)) by (apply nth_error_Some; congruence).
    assert (length (pluginList m) = length (pluginList m0))
      by (rewrite <- (length_map pluginName), Hn; apply length_map).
    lia. }
  destruct Hi0 as [p0 Hi0].
  destruct (Hp i p0 Hi0) as (q' & Hq1 & Hq2 & Hq3 & Hq4).
  assert (q' = q) by congruence. subst q'.
  assert (En0 : pluginName p0 = n) by congruence.
  assert (Hval : record_value record n k = Some stored) by exact Hrv.
  assert (Hs0 : exists s0, settings_get p0 k = Some s0
                           /\ onLoaded s0 = onLoaded s'
                           /\ with_value stored s' = with_value stored s0).
  { destruct (proj1 (Hq4 k)) as [H|H]; rewrite Hq in H.
    - exists s'. now rewrite <- H.
    - rewrite En0, (load_one_some _ _ _ _ _ Hval) in H.
      destruct (settings_get p0 k) as [s0|]; [|discriminate].
      simpl in H. inversion H. exists s0. now repeat split. }
  destruct Hs0 as (s0 & Hs0 & Hon & Hwv).
  set (m1 := adjust_setting i k (with_value stored) m).
  assert (Hres : load_setting data n m k
                 = if onLoaded s' then emit (OnLoaded i k) m1 else m1).
  { unfold load_setting. rewrite Hd, Hf, Hq. now destruct stored. }
  assert (Hpl : pluginList (load_setting data n m k)
                = update_nth (fun p => settings_adjust (with_value stored) p k)
                             (pluginList m) i)
    by (rewrite Hres; now destruct (onLoaded s')).
  assert (Hlog : log (load_setting data n m k)
                 = log m0 ++ evs
                   ++ (if onLoaded s' then [OnLoaded i k] else []))
    by (rewrite Hres; destruct (onLoaded s'); simpl; rewrite Hl;
        [now rewrite <- app_assoc|now rewrite app_nil_r]).
  split.
  { rewrite Hres. eapply same_world_trans; [exact Hw|].
    destruct (onLoaded s'); repeat split. }
  split.
  { rewrite Hpl, <- Hn. apply map_update_nth. intros; apply pluginName_adjust. }
  split.
  - intros j p Hj. rewrite Hpl.
    destruct (Hp j p Hj) as (p' & H1 & H2 & H3 & H4).
    destruct (Nat.eq_dec i j) as [<-|Hij].
    + assert (p = p0) by congruence. subst p.
      assert (p' = q) by congruence. subst p'.
      exists (settings_adjust (with_value stored) q k).
      rewrite nth_error_update_nth_same, Hiq.
      split; [reflexivity|]. split; [now rewrite pluginName_adjust|].
      split; [now rewrite settings_keys_adjust|].
      intros k0. destruct (string_dec k k0) as [<-|Hk].
      * assert (E : settings_get (settings_adjust (with_value stored) q k) k
                    = option_map (load_one record (pluginName p0) k)
                                 (settings_get p0 k)).
        { rewrite settings_get_adjust_same, Hq, Hs0, En0.
          rewrite (load_one_some _ _ _ _ _ Hval). simpl. now rewrite Hwv. }
        split; [now right|now intros _].
      * rewrite settings_get_adjust_other by exact Hk.
        split; [apply H4|].
        intros [Hd0|[_ Ek]]; [now apply H4|congruence].
    + exists p'. rewrite nth_error_update_nth_other by exact Hij.
      repeat split; auto; try apply H4.
      intros [Hd0|[En Ek]]; [now apply H4|].
      exfalso. apply Hij.
      eapply (unique_position (pluginList m0)); eauto. congruence.
  - exists (evs ++ (if onLoaded s' then [OnLoaded i k] else [])).
    split; [exact Hlog|]. split.
    + intros e He. apply in_app_or in He as [He|He]; [now apply Hgood|].
      destruct (onLoaded s') eqn:Eon; [|destruct He].
      destruct He as [<-|[]]. exists i, k. split; [reflexivity|].
      exists p0, s0, stored. repeat split; auto; congruence.
    + intros j k0 p Hj Hdone Howed. apply in_or_app.
      destruct Hdone as [Hd0|[En Ek]]; [left; eapply Hall; eauto|].
      subst k0. right.
      assert (j = i).
      { eapply (unique_position (pluginList m0)); eauto. congruence. }
      subst j. destruct Howed as (p1 & s1 & v1 & Hp1 & Hs1 & Hon1 & _).
      assert (p1 = p0) by congruence. subst p1.
      assert (s1 = s0) by congruence. subst s1.
      rewrite <- Hon, Hon1. now left.
Qed.

Lemma load_keys_loading record m0 n data ks :
  unique_names m0 ->
  Obj.get record n = Some data ->
  forall (done : string -> string -> Prop) m,
    loading record done m0 m ->
    loading record (fun n' k' => done n' k' \/ (n' = n /\ In k' ks)) m0
            (fold_left (load_setting data n) ks m).
Proof.
  intros Hnd Hrec. induction ks as [|k ks IH]; intros done m Hload; simpl.
  - eapply loading_ext; [|exact Hload]. intros n' k' [H|[_ []]]; exact H.
  - eapply loading_ext;
      [|apply IH; eapply load_setting_loading; eauto].
    simpl. intros n' k' [H|[En [Ek|Hin]]]; auto.
Qed.

Lemma load_plugin_loading record m0 n :
  unique_names m0 ->
  forall (done : string -> string -> Prop) m,
    loading record done m0 m ->
    loading record
            (fun n' k' => done n' k'
                          \/ (n' = n /\ exists v, record_value record n k' = Some v))
            m0 (load_plugin record m n).
Proof.
  intros Hnd done m Hload. unfold load_plugin.
  destruct (Obj.get record n) as [data|] eqn:Hrec.
  - eapply loading_ext; [|eapply load_keys_loading; eauto].
    simpl. intros n' k' [H|[En [v Hv]]]; auto. right. split; [exact En|].
    rewrite (record_value_data _ _ _ _ Hrec) in Hv.
    destruct (Obj.get data k') eqn:E; [|discriminate].
    eapply get_some_in_keys; eauto.
  - eapply loading_ext; [|exact Hload].
    intros n' k' [H|[En [v Hv]]]; [exact H|].
    unfold record_value in Hv. rewrite Hrec in Hv. discriminate.
Qed.

Lemma load_names_loading record m0 ns :
  unique_names m0 ->
  forall (done : string -> string -> Prop) m,
    loading record done m0 m ->
    loading record
            (fun n' k' => done n' k'
                          \/ (In n' ns /\ exists v, record_value record n' k' = Some v))
            m0 (fold_left (load_plugin record) ns m).
Proof.
  intros Hnd. induction ns as [|n ns IH]; intros done m Hload; simpl.
  - eapply loading_ext; [|exact Hload]. intros n' k' [H|[[] _]]; exact H.
  - eapply loading_ext; [|apply IH; eapply load_plugin_loading; eauto].
    simpl. intros n' k' [H|[[En|Hin] Hv]]; auto.
    subst n'. left. right. auto.
Qed.

(** The load phase as a whole: every pair the record has a defined value
    for has been visited. *)
Lemma load_settings_loading m record :
  databaseSettings m = Some record ->
  unique_names m ->
  loading record (fun _ _ => True) m (load_settings m).
Proof.
  intros Hdb Hnd. unfold load_settings. rewrite Hdb.
  pose proof (load_names_loading record m (Obj.keys record) Hnd _ m
                (loading_start record m))
    as (Hw & Hn & Hp & evs & Hl & Hgood & Hall).
  assert (Hvisit : forall n k v,
             record_value record n k = Some v ->
             False \/ (In n (Obj.keys record)
                       /\ exists v, record_value record n k = Some v)).
  { intros n k v Hv. right. split; [|eauto].
    unfold record_value in Hv.
    destruct (Obj.get record n) eqn:E; [|discriminate].
    eapply get_some_in_keys; eauto. }
  split; [exact Hw|]. split; [exact Hn|]. split.
  - intros i p Hi. destruct (Hp i p Hi) as (p' & H1 & H2 & H3 & H4).
    exists p'. repeat split; auto; try apply H4. intros _.
    destruct (record_value record (pluginName p) k) as [v|] eqn:Hv.
    + apply H4. eapply Hvisit; eauto.
    + rewrite (load_one_none _ _ _ _ Hv).
      destruct (proj1 (H4 k)) as [H|H]; [exact H|].
      now rewrite (load_one_none _ _ _ _ Hv) in H.
  - exists evs. repeat split; auto.
    intros i k p Hi _ Howed. eapply Hall; eauto.
    destruct Howed as (p1 & s & v & Hp1 & _ & _ & Hv).
    assert (p1 = p) by congruence. subst p1. eapply Hvisit; eauto.
Qed.

Lemma load_settings_none m :
  databaseSettings m = None -> load_settings m = m.
Proof. unfold load_settings. now intros ->. Qed.

(** ** The write-back loop *)

Lemma set_set {A} (o : Obj.t A) k v v' :
  Obj.set (Obj.set o k v) k v' = Obj.set o k v'.
Proof.
  induction o as [|[k0 v0] o IH]; simpl.
  - now rewrite String.eqb_refl.
  - destruct (String.eqb k0 k) eqn:E; simpl; rewrite E; [reflexivity|].
    now rewrite IH.
Qed.

Lemma update_nth_middle {A} (f : A -> A) (done rest : list A) x :
  update_nth f (done ++ x :: rest) (length done) = done ++ f x :: rest.
Proof. induction done as [|y done IH]; simpl; [reflexivity|now rewrite IH]. Qed.

Lemma register_plugin_eq m i p :
  nth_error (pluginList m) i = Some p ->
  let r := Obj.set (current_record m) (pluginName p) (snapshot p) in
  register_plugin m i
  = mkManager (Obj.set (database m) (username m) r)
              (update_nth make_reactive (pluginList m) i)
              (username m) (Some r)
              (mainSettingsView m
                 ++ [mkElement (row_id (pluginName p)) flex false])
              (pluginSettingsView m) (currentView m) (tasks m)
              (log m ++ [Put (username m) r]).
Proof. intros Hp r. unfold register_plugin. now rewrite Hp. Qed.

Lemma write_back_from rest :
  forall done m,
    pluginList m = done ++ rest ->
    let m' := fold_left register_plugin (seq (length done) (length rest)) m in
    let r := record_after (current_record m) rest in
    pluginList m' = done ++ map make_reactive rest
    /\ username m' = username m
    /\ log m' = log m ++ puts (username m) (current_record m) rest
    /\ tasks m' = tasks m
    /\ (rest = [] -> m' = m)
    /\ (rest <> [] ->
        databaseSettings m' = Some r
        /\ database m' = Obj.set (database m) (username m) r).
Proof.
  induction rest as [|p rest IH]; intros done m Hl; simpl.
  - rewrite app_nil_r in Hl. rewrite !app_nil_r.
    split; [exact Hl|]. split; [reflexivity|]. split; [reflexivity|].
    split; [reflexivity|]. split; [reflexivity|]. intros H; now destruct H.
  - assert (Hp : nth_error (pluginList m) (length done) = Some p)
      by (rewrite Hl, nth_error_app2, Nat.sub_diag by lia; reflexivity).
    rewrite (register_plugin_eq m _ p Hp).
    set (r1 := Obj.set (current_record m) (pluginName p) (snapshot p)).
    match goal with |- context [fold_left _ _ ?x] => set (m1 := x) end.
    assert (Hl1 : pluginList m1 = (done ++ [make_reactive p]) ++ rest).
    { unfold m1; simpl. rewrite Hl, update_nth_middle, <- app_assoc.
      reflexivity. }
    assert (Hlen : length (done ++ [make_reactive p]) = S (length done))
      by (rewrite length_app; simpl; lia).
    specialize (IH _ m1 Hl1). rewrite Hlen in IH. simpl in IH.
    destruct IH as (H1 & H2 & H3 & H4 & H5 & H6).
    split; [now rewrite H1, <- app_assoc|].
    split; [exact H2|].
    split; [rewrite H3; unfold m1; simpl; now rewrite <- app_assoc|].
    split; [exact H4|].
    split; [discriminate|].
    intros _. destruct rest as [|q rest].
    + rewrite (H5 eq_refl). now split.
    + destruct H6 as [H6 H7]; [discriminate|]. split; [exact H6|].
      rewrite H7. unfold m1; simpl. apply set_set.
Qed.

Lemma write_back_spec m :
  let m' := write_back m in
  let r := record_after (current_record m) (pluginList m) in
  pluginList m' = map make_reactive (pluginList m)
  /\ username m' = username m
  /\ log m' = log m ++ puts (username m) (current_record m) (pluginList m)
  /\ tasks m' = tasks m
  /\ (pluginList m = [] -> m' = m)
  /\ (pluginList m <> [] ->
      databaseSettings m' = Some r
      /\ database m' = Obj.set (database m) (username m) r).
Proof. apply (write_back_from (pluginList m) [] m). reflexivity. Qed.

Lemma record_after_other r0 ps n :
  ~ In n (map pluginName ps) ->
  Obj.get (record_after r0 ps) n = Obj.get r0 n.
Proof.
  revert r0; induction ps as [|p ps IH]; intros r0 H; simpl; [reflexivity|].
  simpl in H. unfold record_after in *; simpl.
  rewrite IH by tauto. apply get_set_other. tauto.
Qed.

Lemma record_after_get r0 ps p :
  NoDup (map pluginName ps) -> In p ps ->
  Obj.get (record_after r0 ps) (pluginName p) = Some (snapshot p).
Proof.
  revert r0; induction ps as [|q ps IH]; intros r0 Hnd Hin; [destruct Hin|].
  simpl in Hnd. inversion Hnd as [|? ? Hq Hnd']; subst.
  unfold record_after in *; simpl. destruct Hin as [->|Hin].
  - pose proof (record_after_other
                  (Obj.set r0 (pluginName p) (snapshot p)) ps _ Hq) as E.
    unfold record_after in E. rewrite E. apply get_set_same.
  - now apply IH.
Qed.

(** Storing what is stored already leaves the record as it is. *)
Lemma record_after_id r0 ps :
  (forall p, In p ps -> Obj.get r0 (pluginName p) = Some (snapshot p)) ->
  record_after r0 ps = r0.
Proof.
  induction ps as [|p ps IH]; intros H; [reflexivity|].
  unfold record_after in *; simpl.
  rewrite set_get_id by (apply H; now left).
  apply IH. intros q Hq. apply H. now right.
Qed.

(** The write-back loop wraps settings and stores them; it changes no
    value. *)
Lemma write_back_value_at m i key :
  value_at (write_back m) i key = value_at m i key.
Proof.
  destruct (write_back_spec m) as (W1 & _).
  unfold value_at, setting_at. rewrite W1, nth_error_map.
  destruct (nth_error (pluginList m) i) as [p|]; simpl; [|reflexivity].
  apply make_reactive_value.
Qed.


(** ** C3: what the load phase does to the live settings *)

(** C3.  With a record in the store and unique plugin names, the load
    phase of [registerPlugins] gives every setting of every registered
    plugin the value the record holds for it under the name of the plugin
    and the key of the setting, when that value is defined, and leaves the
    setting alone otherwise; [onLoaded] is called, on the plugin, for
    exactly the settings that were given a value and have the function.
    Stored entries without a live plugin or setting change nothing and
    raise no call: every call made is one of those. *)
Theorem load_settings_reconciles (m : SettingsManager) (record : SettingsRecord) :
  Obj.get (database m) (username m) = Some record ->
  unique_names m ->
  let m0 := read_store m in
  let m' := load_settings m0 in
  (forall i p key s,
      nth_error (pluginList m) i = Some p ->
      settings_get p key = Some s ->
      (forall v, record_value record (pluginName p) key = Some v ->
                 setting_at m' i key = Some (with_value v s)
                 /\ value_at (registerPlugins m) i key = Some v)
      /\ (record_value record (pluginName p) key = None ->
          setting_at m' i key = Some s
          /\ value_at (registerPlugins m) i key = Some (value s)))
  /\ (forall i p key,
         nth_error (pluginList m) i = Some p ->
         settings_get p key = None -> setting_at m' i key = None)
  /\ length (pluginList m') = length (pluginList m)
  /\ exists calls,
      log m' = log m ++ calls
      /\ (forall i key p s v,
             nth_error (pluginList m) i = Some p ->
             settings_get p key = Some s ->
             onLoaded s = true ->
             record_value record (pluginName p) key = Some v ->
             In (OnLoaded i key) calls)
      /\ (forall e, In e calls ->
                    exists i key, e = OnLoaded i key /\ owed record m i key).
Proof.
  intros Hrec Hnd m0 m'.
  assert (Hdb : databaseSettings m0 = Some record) by exact Hrec.
  destruct (load_settings_loading m0 record Hdb Hnd)
    as (Hw & Hn & Hp & evs & Hl & Hgood & Hall).
  fold m' in Hw, Hn, Hp, Hl.
  split; [|split; [|split]].
  - intros i p key s Hi Hs.
    destruct (Hp i p Hi) as (p' & H1 & H2 & H3 & H4).
    pose proof (proj2 (H4 key) I) as Hk. rewrite Hs in Hk.
    unfold registerPlugins. fold m0. fold m'.
    rewrite write_back_value_at.
    unfold value_at, setting_at. rewrite H1, Hk. unfold load_one. split.
    + now intros v ->.
    + now intros ->.
  - intros i p key Hi Hs.
    destruct (Hp i p Hi) as (p' & H1 & H2 & H3 & H4).
    pose proof (proj2 (H4 key) I) as Hk. rewrite Hs in Hk.
    unfold setting_at. now rewrite H1, Hk.
  - rewrite <- (length_map pluginName), Hn. apply length_map.
  - exists evs. split; [exact Hl|]. split.
    + intros i key p s v Hi Hs Hon Hv.
      apply (Hall i key p Hi I). exists p, s, v. auto.
    + exact Hgood.
Qed.

Lemma example_unique_names : unique_names Example.returning.
Proof.
  unfold unique_names; simpl.
  repeat constructor; simpl; intuition discriminate.
Defined.

Lemma load_settings_reconciles_witness :
  Obj.get (database Example.returning) (username Example.returning)
  = Some Example.old_record
  /\ unique_names Example.returning
  /\ setting_at (load_settings (read_store Example.returning)) 0 "volume"
     = Some (with_value (VNum (Finite (7 # 1))) Example.volume).
Proof.
  split; [reflexivity|]. split; [exact example_unique_names|].
  destruct (load_settings_reconciles Example.returning Example.old_record
              eq_refl example_unique_names) as (H & _).
  apply (H 0 Example.alerts "volume" Example.volume eq_refl eq_refl).
  reflexivity.
Defined.

Lemma puts_nth user r0 ps i p :
  nth_error ps i = Some p ->
  exists r, nth_error (puts user r0 ps) i = Some (Put user r)
            /\ Obj.get r (pluginName p) = Some (snapshot p).
Proof.
  revert r0 i; induction ps as [|q ps IH]; intros r0 [|i] H; simpl in *;
    try discriminate.
  - inversion H; subst. eexists; split; [reflexivity|apply get_set_same].
  - now apply IH.
Qed.

(** The load phase, with or without a record in the store. *)
Lemma load_settings_shape m :
  unique_names m ->
  let mL := load_settings (read_store m) in
  same_world (read_store m) mL
  /\ map pluginName (pluginList mL) = map pluginName (pluginList m)
  /\ (exists calls, log mL = log m ++ calls)
  /\ forall i p,
      nth_error (pluginList m) i = Some p ->
      exists pL,
        nth_error (pluginList mL) i = Some pL
        /\ pluginName pL = pluginName p
        /\ settings_keys pL = settings_keys p
        /\ forall k,
            settings_get pL k
            = option_map
                (fun s => match stored_value m (pluginName p) k with
                          | Some v => with_value v s
                          | None => s
                          end)
                (settings_get p k).
Proof.
  intros Hnd mL. unfold stored_value.
  destruct (Obj.get (database m) (username m)) as [record|] eqn:Hrec.
  - destruct (load_settings_loading (read_store m) record Hrec Hnd)
      as (Hw & Hn & Hp & evs & Hl & _).
    split; [exact Hw|]. split; [exact Hn|]. split; [now exists evs|].
    intros i p Hi. destruct (Hp i p Hi) as (pL & H1 & H2 & H3 & H4).
    exists pL. repeat split; auto. intros k. apply (proj2 (H4 k) I).
  - assert (E : mL = read_store m)
      by (apply load_settings_none; exact Hrec).
    rewrite E. split; [apply same_world_refl|]. split; [reflexivity|].
    split; [exists []; simpl; now rewrite app_nil_r|].
    intros i p Hi. exists p. repeat split; auto.
    intros k. now destruct (settings_get p k).
Qed.

(** ** C6: every registered plugin is written back *)

(** C6.  After the load phase [registerPlugins] stores every registered
    plugin, whether the record had data for it or not: the i-th write puts
    the snapshot of the i-th plugin under its name, and with unique names
    the store ends up holding, under the name of each plugin, its full
    snapshot: every key with its current value, which is the stored value
    where the record had a defined one and the constructor default
    otherwise.  A user without a record gets one built up from the empty
    record. *)
Theorem registerPlugins_writes_back (m : SettingsManager) :
  unique_names m ->
  let m' := registerPlugins m in
  (exists calls writes,
      log m' = log m ++ calls ++ writes
      /\ forall i p,
          nth_error (pluginList m) i = Some p ->
          exists p' r,
            nth_error (pluginList m') i = Some p'
            /\ pluginName p' = pluginName p
            /\ nth_error writes i = Some (Put (username m) r)
            /\ Obj.get r (pluginName p) = Some (snapshot p')
            /\ stored_entry m' (pluginName p) = Some (snapshot p')
            /\ (forall key, Obj.get (snapshot p') key = value_at m' i key)
            /\ (forall key s,
                   settings_get p key = Some s ->
                   Obj.get (snapshot p') key
                   = Some (match stored_value m (pluginName p) key with
                           | Some v => v
                           | None => value s
                           end)))
  /\ (Obj.get (database m) (username m) = None ->
      pluginList m <> [] ->
      Obj.get (database m') (username m)
      = Some (record_after [] (pluginList m)))
  /\ coherent m'.
Proof.
  intros Hnd m'.
  destruct (load_settings_shape m Hnd) as (Hw & Hn & [calls Hcalls] & Hp).
  set (mL := load_settings (read_store m)) in *.
  pose proof (write_back_spec mL) as W.
  change (write_back mL) with m' in W.
  destruct W as (W1 & W2 & W3 & W4 & W5 & W6).
  destruct Hw as (Hdb & Hdbs & Hu & _).
  simpl in Hdb, Hdbs, Hu.
  assert (HndL : NoDup (map pluginName (pluginList mL)))
    by (rewrite Hn; exact Hnd).
  assert (Hu' : username m' = username m) by congruence.
  split; [|split].
  - exists calls, (puts (username mL) (current_record mL) (pluginList mL)).
    split; [now rewrite W3, Hcalls, <- app_assoc|].
    intros i p Hi. destruct (Hp i p Hi) as (pL & H1 & H2 & H3 & H4).
    destruct (puts_nth (username mL) (current_record mL) _ i pL H1)
      as (r & Hr1 & Hr2).
    assert (HL : pluginList mL <> [])
      by (intros E; rewrite E in H1; now destruct i).
    destruct (W6 HL) as [W7 W8].
    exists (make_reactive pL), r.
    split; [now rewrite W1, nth_error_map, H1|].
    split; [now rewrite make_reactive_name|].
    split; [now rewrite <- Hu|].
    split; [now rewrite snapshot_make_reactive, <- H2|].
    split.
    { unfold stored_entry. rewrite W8, Hu', <- Hu, get_set_same.
      rewrite snapshot_make_reactive, <- H2.
      apply record_after_get; auto. eapply nth_error_In; eauto. }
    split.
    { intros key. unfold value_at, setting_at.
      rewrite W1, nth_error_map, H1; simpl. apply snapshot_get. }
    intros key s Hs.
    rewrite snapshot_make_reactive, snapshot_get, H4, Hs; simpl.
    now destruct (stored_value m (pluginName p) key).
  - intros Hnone HL.
    assert (E : mL = read_store m)
      by (apply load_settings_none; exact Hnone).
    assert (HL' : pluginList mL <> []) by (rewrite E; exact HL).
    destruct (W6 HL') as [W7 W8].
    rewrite W8, Hu, get_set_same. rewrite E. unfold current_record; simpl.
    now rewrite Hnone.
  - unfold coherent.
    destruct (pluginList mL) as [|q l] eqn:EL.
    + rewrite (W5 eq_refl). rewrite Hdb, Hdbs, Hu. reflexivity.
    + destruct W6 as [W7 W8]; [discriminate|].
      rewrite W7, W8, W2. apply get_set_same.
Qed.

Lemma registerPlugins_writes_back_witness :
  unique_names Example.returning
  /\ nth_error (pluginList Example.returning) 0 = Some Example.alerts
  /\ Obj.get (database Example.installed) (username Example.returning)
     = Some
         [("Alerts",
           [("enable", VBool true); ("volume", VNum (Finite (7 # 1)));
            ("offset", VNum (Finite (1 # 2))); ("mode", VStr "z");
            ("label", VStr "hp"); ("sound", VBool true)]);
          ("Removed", [("enable", VBool true)]);
          ("Lookup", [("enable", VBool false)])]
  /\ coherent Example.installed.
Proof.
  split; [exact example_unique_names|]. split; [reflexivity|].
  split; [reflexivity|].
  apply (registerPlugins_writes_back Example.returning example_unique_names).
Defined.

(** ** C8: a second run of registerPlugins *)

Lemma read_store_id m : coherent m -> read_store m = m.
Proof.
  unfold coherent, read_store, with_store. intros ->. now destruct m.
Qed.

(** After [registerPlugins] the store holds the snapshot of every
    registered plugin under its name. *)
Lemma registerPlugins_stored m :
  unique_names m ->
  let m1 := registerPlugins m in
  unique_names m1
  /\ coherent m1
  /\ forall i p1,
      nth_error (pluginList m1) i = Some p1 ->
      stored_entry m1 (pluginName p1) = Some (snapshot p1).
Proof.
  intros Hnd m1.
  destruct (load_settings_shape m Hnd) as (Hw & Hn & _ & _).
  set (mL := load_settings (read_store m)) in *.
  pose proof (write_back_spec mL) as W.
  change (write_back mL) with m1 in W.
  destruct W as (W1 & W2 & _ & _ & W5 & W6).
  destruct Hw as (Hdb & Hdbs & Hu & _). simpl in Hdb, Hdbs, Hu.
  assert (HndL : NoDup (map pluginName (pluginList mL)))
    by (rewrite Hn; exact Hnd).
  split; [|split].
  - unfold unique_names. rewrite W1, map_map.
    erewrite map_ext; [exact HndL|]. intros; apply make_reactive_name.
  - unfold coherent. destruct (pluginList mL) as [|q l] eqn:EL.
    + rewrite (W5 eq_refl). rewrite Hdb, Hdbs, Hu. reflexivity.
    + destruct W6 as [W7 W8]; [discriminate|].
      rewrite W7, W8, W2. apply get_set_same.
  - intros i p1 Hi. rewrite W1, nth_error_map in Hi.
    destruct (nth_error (pluginList mL) i) as [pL|] eqn:HL; [|discriminate].
    simpl in Hi. inversion Hi; subst p1.
    assert (HLne : pluginList mL <> [])
      by (intros E; rewrite E in HL; now destruct i).
    destruct (W6 HLne) as [W7 W8].
    unfold stored_entry. rewrite W8, W2, get_set_same.
    rewrite snapshot_make_reactive, make_reactive_name.
    apply record_after_get; auto. eapply nth_error_In; eauto.
Qed.

(** Loading a plugin's own snapshot changes none of its settings. *)
Lemma load_own_snapshot p k s :
  settings_get p k = Some s ->
  match (match Obj.get (snapshot p) k with
         | Some v => if is_undefined v then None else Some v
         | None => None
         end) with
  | Some v => with_value v s
  | None => s
  end = s.
Proof.
  intros Hs. rewrite snapshot_get, Hs; simpl.
  destruct (is_undefined (value s)); [reflexivity|apply with_value_id].
Qed.

(** The trace of the load phase: calls of [onLoaded] and nothing else. *)
Lemma load_settings_calls m :
  unique_names m ->
  exists calls,
    log (load_settings (read_store m)) = log m ++ calls
    /\ forall e, In e calls -> exists i key, e = OnLoaded i key.
Proof.
  intros Hnd.
  destruct (Obj.get (database m) (username m)) as [record|] eqn:Hrec.
  - destruct (load_settings_loading (read_store m) record Hrec Hnd)
      as (_ & _ & _ & evs & Hl & Hgood & _).
    exists evs. split; [exact Hl|]. intros e He.
    destruct (Hgood e He) as (i & k & -> & _). eauto.
  - rewrite (load_settings_none (read_store m) Hrec).
    exists []. split; [simpl; now rewrite app_nil_r|]. intros e [].
Qed.

(** Writing back plugins whose snapshots the record already holds writes
    that very record, once for each plugin. *)
Lemma puts_repeat user r0 ps :
  (forall p, In p ps -> Obj.get r0 (pluginName p) = Some (snapshot p)) ->
  puts user r0 ps = repeat (Put user r0) (length ps).
Proof.
  induction ps as [|p ps IH]; intros H; simpl; [reflexivity|].
  rewrite set_get_id by (apply H; now left).
  f_equal. apply IH. intros q Hq. apply H. now right.
Qed.

(** C8.  With unique plugin names, running [registerPlugins] again on
    what the first run left gives every setting of every plugin the value
    it had after the first run and leaves the store and the in-memory
    record as they were.  The trace of the second run is the [onLoaded]
    calls of its load phase followed by one store write for each
    registered plugin, and every one of these writes puts the record the
    first run left in memory and in the store. *)
Theorem registerPlugins_idempotent (m : SettingsManager) :
  unique_names m ->
  let m1 := registerPlugins m in
  let m2 := registerPlugins m1 in
  (forall i key, value_at m2 i key = value_at m1 i key)
  /\ database m2 = database m1
  /\ databaseSettings m2 = databaseSettings m1
  /\ exists calls,
      log m2 = log m1 ++ calls
               ++ repeat (Put (username m1) (current_record m1))
                         (length (pluginList m1))
      /\ (forall e, In e calls -> exists i key, e = OnLoaded i key)
      /\ (pluginList m1 <> [] ->
          databaseSettings m1 = Some (current_record m1)
          /\ Obj.get (database m1) (username m1) = Some (current_record m1)).
Proof.
  intros Hnd m1 m2.
  destruct (registerPlugins_stored m Hnd) as (Hnd1 & Hco1 & Hst1).
  fold m1 in Hnd1, Hco1, Hst1.
  destruct (load_settings_shape m1 Hnd1) as (Hw & Hn & _ & Hp).
  destruct (load_settings_calls m1 Hnd1) as (calls & Hcalls & Honly).
  rewrite (read_store_id m1 Hco1) in Hw, Hn, Hcalls, Hp.
  set (mL := load_settings m1) in *.
  assert (Em2 : m2 = write_back mL)
    by (unfold m2, registerPlugins; now rewrite (read_store_id m1 Hco1)).
  clearbody m2. subst m2.
  pose proof (write_back_spec mL) as W. cbv zeta in W.
  destruct W as (W1 & W2 & W3 & W4 & W5 & W6).
  destruct Hw as (Hdb & Hdbs & Hu & _).
  (* the load phase leaves every setting as it is *)
  assert (Hsame : forall i p1,
             nth_error (pluginList m1) i = Some p1 ->
             exists pL, nth_error (pluginList mL) i = Some pL
                        /\ pluginName pL = pluginName p1
                        /\ snapshot pL = snapshot p1
                        /\ forall k, settings_get pL k = settings_get p1 k).
  { intros i p1 Hi. destruct (Hp i p1 Hi) as (pL & H1 & H2 & H3 & H4).
    assert (H5 : forall k, settings_get pL k = settings_get p1 k).
    { intros k. rewrite H4. destruct (settings_get p1 k) as [s|] eqn:Hs;
        [|reflexivity]. simpl. f_equal.
      rewrite stored_value_entry, (Hst1 i p1 Hi).
      now apply load_own_snapshot. }
    exists pL. repeat split; auto.
    apply snapshot_ext; [exact H3|]. intros k. now rewrite H5. }
  assert (Hlen : length (pluginList mL) = length (pluginList m1))
    by (rewrite <- (length_map pluginName), Hn; apply length_map).
  assert (HinL : forall pL, In pL (pluginList mL) ->
             stored_entry m1 (pluginName pL) = Some (snapshot pL)).
  { intros pL Hin. apply In_nth_error in Hin as [i Hi].
    destruct (nth_error (pluginList m1) i) as [p1|] eqn:H1.
    - destruct (Hsame i p1 H1) as (pL' & Ha & Hb & Hc & _).
      assert (pL' = pL) by congruence. subst pL'.
      rewrite Hb, Hc. eapply Hst1; eauto.
    - apply nth_error_None in H1.
      assert (i < length (pluginList mL)) by (apply nth_error_Some; congruence).
      lia. }
  split.
  { intros i key. unfold value_at, setting_at.
    rewrite W1, nth_error_map.
    destruct (nth_error (pluginList m1) i) as [p1|] eqn:H1.
    - destruct (Hsame i p1 H1) as (pL & Ha & _ & _ & Hd).
      rewrite Ha; simpl. now rewrite make_reactive_value, Hd.
    - apply nth_error_None in H1.
      assert (E : nth_error (pluginList mL) i = None)
        by (apply nth_error_None; lia).
      now rewrite E. }
  destruct (pluginList mL) as [|q l] eqn:EL.
  { rewrite (W5 eq_refl). split; [exact Hdb|]. split; [exact Hdbs|].
    exists calls. rewrite Hcalls.
    assert (E1 : pluginList m1 = [])
      by (apply length_zero_iff_nil; now rewrite <- Hlen).
    rewrite E1. simpl. split; [now rewrite app_nil_r|].
    split; [exact Honly|]. intros H. now contradiction H. }
  destruct W6 as [W7 W8]; [discriminate|].
  (* the record the first run left *)
  assert (Hr1 : exists r1, databaseSettings m1 = Some r1).
  { pose proof (HinL q (or_introl eq_refl)) as Hq.
    unfold stored_entry in Hq. rewrite Hco1 in Hq.
    destruct (databaseSettings m1); [eauto|discriminate]. }
  destruct Hr1 as [r1 Hr1].
  assert (Hcur : current_record mL = r1)
    by (unfold current_record; now rewrite Hdbs, Hr1).
  assert (Hown : forall pL, In pL (q :: l) ->
             Obj.get r1 (pluginName pL) = Some (snapshot pL)).
  { intros pL Hin. specialize (HinL pL Hin).
    unfold stored_entry in HinL. now rewrite Hco1, Hr1 in HinL. }
  assert (Hrec : record_after (current_record mL) (q :: l) = r1)
    by (rewrite Hcur; now apply record_after_id).
  split.
  { rewrite W8, Hrec, Hdb, Hu. apply set_get_id.
    unfold coherent in Hco1. now rewrite Hco1. }
  split; [now rewrite W7, Hrec|].
  assert (Hcur1 : current_record m1 = r1)
    by (unfold current_record; now rewrite Hr1).
  exists calls. split; [|split].
  - rewrite W3, Hcalls, <- app_assoc. do 2 f_equal.
    rewrite Hcur, Hu, Hcur1, <- Hlen.
    now apply puts_repeat.
  - exact Honly.
  - intros _. rewrite Hcur1. split; [exact Hr1|].
    unfold coherent in Hco1. now rewrite Hco1.
Qed.

Lemma registerPlugins_idempotent_witness :
  unique_names Example.returning
  /\ value_at (registerPlugins Example.installed) 0 "volume"
     = Some (VNum (Finite (7 # 1)))
  /\ database (registerPlugins Example.installed) = database Example.installed
  /\ exists calls,
      log (registerPlugins Example.installed)
      = log Example.installed ++ calls
        ++ [Put "player" (current_record Example.installed);
            Put "player" (current_record Example.installed)]
      /\ forall e, In e calls -> exists i key, e = OnLoaded i key.
Proof.
  split; [exact example_unique_names|].
  destruct (registerPlugins_idempotent Example.returning example_unique_names)
    as (Hv & Hdb & _ & calls & Hlog & Honly & _).
  split; [|split; [exact Hdb|]].
  - unfold Example.installed. rewrite (Hv 0 "volume"). reflexivity.
  - exists calls. split; [exact Hlog|exact Honly].
Defined.

(** ** C4: a combobox whose value is not one of its options *)

Lemma fst_open_row i m rows k : fst (open_row i (m, rows) k) = open_step i m k.
Proof.
  unfold open_step, open_row; simpl.
  destruct (String.eqb k enable_key); [reflexivity|].
  now destruct (setting_at m i k).
Qed.

Lemma fst_fold_open_row i ks :
  forall m rows,
    fst (fold_left (open_row i) ks (m, rows)) = fold_left (open_step i) ks m.
Proof.
  induction ks as [|k ks IH]; intros m rows; simpl; [reflexivity|].
  rewrite <- (fst_open_row i m rows k).
  destruct (open_row i (m, rows) k) as [m' rows']. apply IH.
Qed.

Lemma needs_reset_first first rest : needs_reset (VStr first) (first :: rest) = false.
Proof. simpl. now rewrite String.eqb_refl. Qed.

(** A turn either leaves the manager alone or is the reset of a combobox:
    the value is replaced and the change handler runs. *)
Lemma open_step_cases i m k :
  open_step i m k = m
  \/ exists p s first rest,
      k <> enable_key
      /\ nth_error (pluginList m) i = Some p
      /\ settings_get p k = Some s
      /\ options s = Some (first :: rest)
      /\ needs_reset (value s) (first :: rest) = true
      /\ open_step i m k
         = apply_and_save i k (VStr first) [RefreshVisibility i]
             (adjust_setting i k (with_value (VStr first)) m).
Proof.
  unfold open_step, open_row; simpl.
  destruct (String.eqb_spec k enable_key) as [E|E]; [now left|].
  unfold setting_at.
  destruct (nth_error (pluginList m) i) as [p|] eqn:Hp; [|now left].
  destruct (settings_get p k) as [s|] eqn:Hs; [|now left].
  simpl. unfold build_control, build_combobox.
  destruct (type s); try (now left).
  destruct (options s) as [[|first rest]|] eqn:Ho; try (now left).
  destruct (needs_reset (value s) (first :: rest)) eqn:Hr; [|now left].
  right. exists p, s, first, rest. repeat split; auto.
Qed.

Lemma open_step_fires i m k p s first rest :
  k <> enable_key ->
  nth_error (pluginList m) i = Some p ->
  settings_get p k = Some s ->
  type s = SettingsTypes.combobox ->
  options s = Some (first :: rest) ->
  needs_reset (value s) (first :: rest) = true ->
  open_step i m k
  = apply_and_save i k (VStr first) [RefreshVisibility i]
      (adjust_setting i k (with_value (VStr first)) m).
Proof.
  intros Hk Hp Hs Ht Ho Hr. unfold open_step, open_row; simpl.
  apply String.eqb_neq in Hk. rewrite Hk. unfold setting_at.
  rewrite Hp, Hs; simpl. unfold build_control, build_combobox.
  now rewrite Ht, Ho, Hr.
Qed.

(** The state an accepted write leaves. *)
Lemma apply_and_save_spec m i k v after p :
  nth_error (pluginList m) i = Some p ->
  let mf := apply_and_save i k v after m in
  let p2 := settings_adjust (with_value v) p k in
  exists r,
    nth_error (pluginList mf) i = Some p2
    /\ username mf = username m
    /\ log mf = log m ++ [Callback i k; Put (username m) r]
    /\ Obj.get r (pluginName p) = Some (snapshot p2)
    /\ stored_entry mf (pluginName p) = Some (snapshot p2).
Proof.
  intros Hp mf p2.
  exists (Obj.set (current_record m) (pluginName p) (snapshot p2)).
  unfold mf. rewrite (apply_and_save_eq m i k v after p Hp).
  unfold stored_entry. cbn [pluginList username log database].
  split; [now rewrite nth_error_update_nth_same, Hp|].
  split; [reflexivity|]. split; [reflexivity|].
  split; [apply get_set_same|].
  rewrite get_set_same. apply get_set_same.
Qed.

(** The state a reset leaves. *)
Lemma reset_spec i m k v after p :
  nth_error (pluginList m) i = Some p ->
  let mf := apply_and_save i k v after (adjust_setting i k (with_value v) m) in
  exists p2 r,
    nth_error (pluginList mf) i = Some p2
    /\ pluginName p2 = pluginName p
    /\ settings_get p2 k = option_map (with_value v) (settings_get p k)
    /\ (forall k', k <> k' -> settings_get p2 k' = settings_get p k')
    /\ username mf = username m
    /\ log mf = log m ++ [Callback i k; Put (username m) r]
    /\ Obj.get r (pluginName p) = Some (snapshot p2)
    /\ stored_entry mf (pluginName p) = Some (snapshot p2).
Proof.
  intros Hp mf.
  pose proof (nth_error_adjust_same i k (with_value v) m p Hp) as Hp1.
  destruct (apply_and_save_spec _ i k v after _ Hp1)
    as (r & H1 & H2 & H3 & H4 & H5).
  fold mf in H1, H2, H3, H5.
  rewrite pluginName_adjust in H4, H5.
  exists (settings_adjust (with_value v) (settings_adjust (with_value v) p k) k), r.
  split; [exact H1|].
  split; [now rewrite !pluginName_adjust|].
  split.
  { rewrite !settings_get_adjust_same. now destruct (settings_get p k). }
  split.
  { intros k' Hk'. now rewrite !settings_get_adjust_other. }
  split; [exact H2|].
  split; [exact H3|].
  split; [exact H4|exact H5].
Qed.

Lemma record_value_snapshot r name p key v :
  Obj.get r name = Some (snapshot p) ->
  option_map value (settings_get p key) = Some v ->
  is_undefined v = false ->
  record_value r name key = Some v.
Proof.
  intros Hr Hv Hu. unfold record_value.
  now rewrite Hr, snapshot_get, Hv, Hu.
Qed.

Section Healing.

Variables (m0 : SettingsManager) (i : nat) (name key first : string)
          (rest : list string) (s : PluginSettings).

Hypothesis key_not_enable : key <> enable_key.
Hypothesis s_is_combobox : type s = SettingsTypes.combobox.
Hypothesis s_options : options s = Some (first :: rest).
Hypothesis s_needs_reset : needs_reset (value s) (first :: rest) = true.

Lemma healed_step m k :
  healed m0 i name key first rest m ->
  healed m0 i name key first rest (open_step i m k).
Proof.
  intros Hh. destruct (open_step_cases i m k) as [->|Hf]; [exact Hh|].
  destruct Hf as (p & sk & fk & rk & Hk & Hp & Hsk & Hok & Hrk & ->).
  destruct Hh as (Hu & (before & after & r & Hl & Hr)
                  & p' & s' & Hp' & Hn & Hs' & Hv & Ho & Hst).
  assert (p' = p) by congruence. subst p'.
  assert (Hne : k <> key).
  { intros ->. assert (sk = s') by congruence. subst sk.
    rewrite Ho in Hok. inversion Hok; subst.
    rewrite Hv, needs_reset_first in Hrk. discriminate. }
  destruct (reset_spec i m k (VStr fk) [RefreshVisibility i] p Hp)
    as (p2 & r2 & H1 & H2 & H3 & H4 & H5 & H6 & H7 & H8).
  split; [congruence|]. split.
  - exists before, (after ++ [Callback i k; Put (username m) r2]), r.
    split; [|exact Hr]. rewrite H6, Hl.
    now rewrite <- !app_assoc.
  - exists p2, s'. rewrite (H4 key Hne).
    repeat split; auto; congruence.
Qed.

Lemma healed_fold ks :
  forall m, healed m0 i name key first rest m ->
            healed m0 i name key first rest (fold_left (open_step i) ks m).
Proof.
  induction ks as [|k ks IH]; intros m Hh; simpl; [exact Hh|].
  apply IH. now apply healed_step.
Qed.

Lemma unhealed_step m k :
  unhealed m0 i name key s m ->
  (k = key /\ healed m0 i name key first rest (open_step i m k))
  \/ (k <> key /\ unhealed m0 i name key s (open_step i m k)).
Proof.
  intros (Hu & [evs Hl] & p' & Hp' & Hn & Hs).
  destruct (string_dec k key) as [->|Hne].
  - left. split; [reflexivity|].
    rewrite (open_step_fires i m key p' s first rest); auto.
    destruct (reset_spec i m key (VStr first) [RefreshVisibility i] p' Hp')
      as (p2 & r2 & H1 & H2 & H3 & H4 & H5 & H6 & H7 & H8).
    rewrite Hs in H3. simpl in H3.
    split; [congruence|]. split.
    + exists evs, [], r2. split.
      * rewrite H6, Hl, Hu. now rewrite <- !app_assoc.
      * rewrite <- Hn. eapply record_value_snapshot; eauto.
        now rewrite H3.
    + exists p2, (with_value (VStr first) s).
      repeat split; auto; congruence.
  - right. split; [exact Hne|].
    destruct (open_step_cases i m k) as [->|Hf].
    + split; [exact Hu|]. split; [now exists evs|]. now exists p'.
    + destruct Hf as (p & sk & fk & rk & Hk & Hp & Hsk & Hok & Hrk & ->).
      assert (p' = p) by congruence. subst p'.
      destruct (reset_spec i m k (VStr fk) [RefreshVisibility i] p Hp)
        as (p2 & r2 & H1 & H2 & H3 & H4 & H5 & H6 & H7 & H8).
      split; [congruence|]. split.
      * exists (evs ++ [Callback i k; Put (username m) r2]).
        rewrite H6, Hl. now rewrite <- app_assoc.
      * exists p2. rewrite (H4 key Hne). repeat split; auto; congruence.
Qed.

Lemma unhealed_fold ks :
  forall m,
    In key ks ->
    unhealed m0 i name key s m ->
    healed m0 i name key first rest (fold_left (open_step i) ks m).
Proof.
  induction ks as [|k ks IH]; intros m Hin Hun; [destruct Hin|]. simpl.
  destruct (unhealed_step m k Hun) as [[_ Hh]|[Hne Hun']].
  - now apply healed_fold.
  - apply IH; auto. destruct Hin; [congruence|assumption].
Qed.

End Healing.

(** C4.  When the detail view of a plugin is built and one of its
    combobox settings has a non-empty list of options and a value that is
    not a string of that list, the setting ends up with the first option as
    its value, its callback was called on the plugin, the snapshot of the
    plugin, holding the first option under the key, was put in the store
    straight after, and the store holds that value when the view is up. *)
Theorem combobox_self_heals (m : SettingsManager) (i : nat) (p : Plugin)
    (key : string) (s : PluginSettings) (first : string) (rest : list string) :
  nth_error (pluginList m) i = Some p ->
  key <> enable_key ->
  settings_get p key = Some s ->
  type s = SettingsTypes.combobox ->
  options s = Some (first :: rest) ->
  needs_reset (value s) (first :: rest) = true ->
  let m' := openPluginSettings i m in
  value_at m' i key = Some (VStr first)
  /\ (exists before after r,
         log m' = log m ++ before ++ [Callback i key; Put (username m) r] ++ after
         /\ record_value r (pluginName p) key = Some (VStr first))
  /\ stored_value m' (pluginName p) key = Some (VStr first)
  /\ exists p', nth_error (pluginList m') i = Some p'
                /\ stored_entry m' (pluginName p) = Some (snapshot p').
Proof.
  intros Hp Hk Hs Ht Ho Hr m'.
  assert (Hun : unhealed m i (pluginName p) key s m).
  { split; [reflexivity|]. split; [exists []; now rewrite app_nil_r|].
    now exists p. }
  pose proof (unhealed_fold m i (pluginName p) key first rest s Hk Ht Ho Hr
                (settings_keys p) m (settings_get_in_keys _ _ _ Hs) Hun) as Hh.
  assert (E : m' = let mf := fold_left (open_step i) (settings_keys p) m in
                   with_views (mainSettingsView mf)
                     (Some (holder :: snd (fold_left (open_row i)
                                             (settings_keys p) (m, []))))
                     PluginView mf).
  { unfold m', openPluginSettings. rewrite Hp. cbv zeta.
    now rewrite fst_fold_open_row. }
  cbv zeta in E.
  set (mf := fold_left (open_step i) (settings_keys p) m) in *.
  assert (Hpl : pluginList m' = pluginList mf) by (rewrite E; reflexivity).
  assert (Hlg : log m' = log mf) by (rewrite E; reflexivity).
  assert (Hse : stored_entry m' (pluginName p) = stored_entry mf (pluginName p))
    by (rewrite E; reflexivity).
  destruct Hh as (Hu & Hlog & p' & s' & Hp' & Hn & Hs' & Hv & _ & Hst).
  rewrite <- Hse in Hst.
  split.
  { unfold value_at, setting_at. rewrite Hpl, Hp', Hs'. simpl. now rewrite Hv. }
  split; [rewrite Hlg; exact Hlog|].
  split.
  { rewrite stored_value_entry, Hst, snapshot_get, Hs'; simpl.
    now rewrite Hv. }
  exists p'. split; [rewrite Hpl; exact Hp'|exact Hst].
Qed.

Lemma combobox_self_heals_witness :
  nth_error (pluginList Example.installed) 0
  = Some (make_reactive
            (settings_adjust (with_value (VNum (Finite (7 # 1))))
                             Example.alerts "volume"))
  /\ needs_reset (VStr "z") ["a"; "b"] = true
  /\ value_at Example.opened 0 "mode" = Some (VStr "a")
  /\ stored_value Example.opened "Alerts" "mode" = Some (VStr "a").
Proof.
  split; [reflexivity|]. split; [reflexivity|].
  destruct (combobox_self_heals Example.installed 0 _ "mode"
              (with_proxy Example.mode) "a" ["b"] eq_refl)
    as (Hv & _ & Hst & _); try reflexivity; try discriminate.
  split; [exact Hv|exact Hst].
Defined.

(** ** Memory and store agree in every running state *)

Lemma same_store_refl m : same_store m m.
Proof. repeat split. Qed.

Lemma same_store_trans m1 m2 m3 :
  same_store m1 m2 -> same_store m2 m3 -> same_store m1 m3.
Proof.
  intros (A1 & A2 & A3) (B1 & B2 & B3). repeat split; congruence.
Qed.

Lemma same_store_coherent m m' : same_store m m' -> coherent m -> coherent m'.
Proof. unfold coherent. intros (A1 & A2 & A3) H. congruence. Qed.

Lemma same_store_fold {K} (f : SettingsManager -> K -> SettingsManager) ks :
  (forall m k, same_store m (f m k)) ->
  forall m, same_store m (fold_left f ks m).
Proof.
  intros Hf. induction ks as [|k ks IH]; intros m; simpl.
  - apply same_store_refl.
  - eapply same_store_trans; [apply Hf|apply IH].
Qed.

Lemma same_store_update_element rid f m : same_store m (update_element rid f m).
Proof. unfold update_element. destruct (currentView m); repeat split. Qed.

Lemma same_store_write_hidden i key v m : same_store m (write_hidden i key v m).
Proof.
  unfold write_hidden. destruct (setting_at m i key) as [s|]; [|repeat split].
  destruct (flag_eqb (hidden s) v); repeat split.
Qed.

Lemma same_store_refresh i m : same_store m (refreshPluginSettingsVisibility i m).
Proof.
  unfold refreshPluginSettingsVisibility.
  destruct (nth_error (pluginList m) i); [|apply same_store_refl].
  apply same_store_fold. clear m. intros m k. unfold refresh_row.
  destruct (String.eqb k enable_key); [apply same_store_refl|].
  destruct (setting_at m i k) as [s|]; [|apply same_store_refl].
  destruct (getElementById m (row_id k)) as [e|]; [|apply same_store_refl].
  destruct (truthy (hidden s)).
  - eapply same_store_trans; [apply same_store_update_element|repeat split].
  - destruct (display e); [apply same_store_refl|].
    eapply same_store_trans; [apply same_store_update_element|repeat split].
Qed.

Lemma same_store_toggle name key h m :
  same_store m (toggleSettingVisibility name key h m).
Proof.
  unfold toggleSettingVisibility.
  destruct (getElementById m (row_id key)); [|apply same_store_refl].
  destruct (find_plugin name (pluginList m)) as [[i p]|]; [|apply same_store_refl].
  destruct (settings_get p key) as [s|]; [|apply same_store_refl].
  match goal with |- context [if ?b then _ else _] => destruct b end;
    (eapply same_store_trans; [apply same_store_write_hidden|]);
    (eapply same_store_trans; [apply same_store_update_element|repeat split]).
Qed.

Lemma same_store_load_setting data n m k : same_store m (load_setting data n m k).
Proof.
  unfold load_setting.
  destruct (Obj.get data k) as [[|vb|vn|vs]|]; try apply same_store_refl;
    (destruct (find_plugin n (pluginList m)) as [[i q]|];
     [|apply same_store_refl]);
    (destruct (settings_get q k) as [s|]; [|apply same_store_refl]);
    destruct (onLoaded s); repeat split.
Qed.

Lemma same_store_load_settings m : same_store m (load_settings m).
Proof.
  unfold load_settings.
  destruct (databaseSettings m) as [record|]; [|apply same_store_refl].
  apply same_store_fold. clear m. intros m n. unfold load_plugin.
  destruct (Obj.get record n) as [data|]; [|apply same_store_refl].
  apply same_store_fold. intros; apply same_store_load_setting.
Qed.

Lemma store_plugin_coherent i m : coherent m -> coherent (store_plugin i m).
Proof.
  intros H. unfold store_plugin.
  destruct (nth_error (pluginList m) i); [|exact H].
  apply storePluginSettings_coherent.
Qed.

Lemma apply_and_save_coherent i key v after m :
  coherent m -> coherent (apply_and_save i key v after m).
Proof.
  intros H. unfold apply_and_save.
  eapply same_store_coherent with (m := store_plugin i _); [repeat split|].
  apply store_plugin_coherent. exact H.
Qed.

Lemma registerPlugins_coherent m : coherent (registerPlugins m).
Proof.
  unfold registerPlugins.
  set (mL := load_settings (read_store m)).
  assert (HL : coherent mL)
    by (eapply same_store_coherent;
        [apply same_store_load_settings|apply read_store_coherent]).
  destruct (write_back_spec mL) as (_ & W2 & _ & _ & W5 & W6).
  destruct (pluginList mL) as [|q l] eqn:EL.
  - now rewrite (W5 eq_refl).
  - destruct W6 as [W7 W8]; [discriminate|].
    unfold coherent. rewrite W7, W8, W2. apply get_set_same.
Qed.

Lemma openPluginSettings_coherent i m :
  coherent m -> coherent (openPluginSettings i m).
Proof.
  intros H. unfold openPluginSettings.
  destruct (nth_error (pluginList m) i) as [p|]; [|exact H].
  cbv zeta. rewrite fst_fold_open_row.
  eapply same_store_coherent with (m := fold_left (open_step i) _ m);
    [repeat split|].
  generalize (settings_keys p) as ks. intros ks. revert m H.
  induction ks as [|k ks IH]; intros m H; simpl; [exact H|].
  apply IH. destruct (open_step_cases i m k) as [->|Hf]; [exact H|].
  destruct Hf as (q & s & first & rest & _ & _ & _ & _ & _ & ->).
  apply apply_and_save_coherent. exact H.
Qed.

(** Whatever happens after a registration, the store holds the record the
    manager keeps in memory. *)
Lemma running_coherent m : running m -> coherent m.
Proof.
  induction 1 as [m|a m Hrun IH]; [apply registerPlugins_coherent|].
  destruct a; simpl.
  - rewrite enable_change_eq. now apply apply_and_save_coherent.
  - unfold checkbox_change. destruct (setting_at m i key) as [s|]; [|exact IH].
    destruct (rejected s _); [exact IH|now apply apply_and_save_coherent].
  - unfold range_change. destruct (setting_at m i key) as [s|]; [|exact IH].
    cbv zeta. destruct (out_of_bounds s _); [exact IH|].
    destruct (rejected s _); [exact IH|now apply apply_and_save_coherent].
  - unfold color_change. destruct (setting_at m i key) as [s|]; [|exact IH].
    destruct (rejected s _); [exact IH|now apply apply_and_save_coherent].
  - unfold text_change. destruct (setting_at m i key) as [s|]; [|exact IH].
    destruct (rejected s _); [exact IH|now apply apply_and_save_coherent].
  - unfold button_click.
    eapply same_store_coherent; [apply same_store_refresh|exact IH].
  - now apply apply_and_save_coherent.
  - now apply openPluginSettings_coherent.
  - exact IH.
  - eapply same_store_coherent; [apply same_store_toggle|exact IH].
  - apply registerPlugins_coherent.
Qed.

(** * Context menu actions *)

Lemma length_set {A} (o : Obj.t A) k v :
  length (Obj.set o k v)
  = match Obj.get o k with
    | Some _ => length o
    | None => S (length o)
    end.
Proof.
  induction o as [|[k0 v0] o IH]; simpl; [reflexivity|].
  destruct (String.eqb k0 k); simpl; [reflexivity|].
  rewrite IH. now destruct (Obj.get o k).
Qed.

Lemma keys_set_present {A} (o : Obj.t A) k v w :
  Obj.get o k = Some w -> Obj.keys (Obj.set o k v) = Obj.keys o.
Proof.
  induction o as [|[k0 v0] o IH]; simpl; [discriminate|].
  destruct (String.eqb k0 k); [reflexivity|].
  intros H. unfold Obj.keys in *. simpl. now rewrite IH.
Qed.

Lemma keys_set_absent {A} (o : Obj.t A) k v :
  Obj.get o k = None -> Obj.keys (Obj.set o k v) = Obj.keys o ++ [k].
Proof.
  induction o as [|[k0 v0] o IH]; simpl; [reflexivity|].
  destruct (String.eqb k0 k); [discriminate|].
  intros H. unfold Obj.keys in *. simpl. now rewrite IH.
Qed.

Lemma get_none_not_in_keys {A} (o : Obj.t A) k :
  Obj.get o k = None -> ~ In k (Obj.keys o).
Proof.
  intros H Hin. apply in_keys_get in Hin as [v Hv]. congruence.
Qed.

Lemma NoDup_keys_set {A} (o : Obj.t A) k v :
  NoDup (Obj.keys o) -> NoDup (Obj.keys (Obj.set o k v)).
Proof.
  intros Hnd. destruct (Obj.get o k) as [w|] eqn:E.
  - now rewrite (keys_set_present o k v w E).
  - rewrite (keys_set_absent o k v E).
    apply NoDup_app; [exact Hnd|repeat constructor; auto|].
    intros x Hx [E'|[]]. subst x. now apply (get_none_not_in_keys o k).
Qed.

Lemma decimal_inj n n' : ContextMenu.decimal n = ContextMenu.decimal n' -> n = n'.
Proof.
  unfold ContextMenu.decimal. intros H.
  apply DecimalNat.Unsigned.to_uint_inj.
  apply (f_equal NilEmpty.uint_of_string) in H.
  rewrite !NilEmpty.usu in H. congruence.
Qed.

Lemma number_key_whole n : ContextMenu.number_key (2 * n) = ContextMenu.decimal n.
Proof.
  unfold ContextMenu.number_key.
  rewrite Nat.even_mul; simpl.
  replace (n + (n + 0)) with (2 * n) by lia. now rewrite Nat.div2_double.
Qed.

Lemma not_decimal name :
  NilEmpty.uint_of_string name = None ->
  forall k, name <> ContextMenu.decimal k.
Proof.
  intros H k ->. unfold ContextMenu.decimal in H.
  rewrite NilEmpty.usu in H. discriminate.
Qed.

(** What [register] leaves, for a name that is not a number, in a table
    that does not hold the number the name gets. *)
Lemma read_own actions name :
  ContextMenu.inherited name = false ->
  ContextMenu.read actions name = Obj.get actions name.
Proof.
  intros H. unfold ContextMenu.read. rewrite H.
  now destruct (Obj.get actions name).
Qed.

Lemma assign_set actions key entry :
  key <> "__proto__" ->
  ContextMenu.assign actions key entry = Obj.set actions key entry.
Proof.
  intros H. unfold ContextMenu.assign.
  now destruct (String.eqb_spec key "__proto__").
Qed.

Lemma not_inherited_proto name :
  ContextMenu.inherited name = false -> name <> "__proto__".
Proof. intros H ->. discriminate. Qed.

(** With a whole number to enter, [register] makes two plain assignments. *)
Lemma register_eq actions name :
  ContextMenu.inherited name = false ->
  Nat.even (length actions) = true ->
  ContextMenu.register name actions
  = let count := length actions in
    let actions2 :=
      Obj.set (Obj.set actions name (ContextMenu.Number (Z.of_nat count)))
              (ContextMenu.number_key count) (ContextMenu.Name name) in
    (ContextMenu.Number (Z.of_nat (length actions2) - 2), actions2).
Proof.
  intros Hin Heven. unfold ContextMenu.register. cbv zeta.
  rewrite (assign_set actions name) by now apply not_inherited_proto.
  rewrite assign_set; [reflexivity|].
  unfold ContextMenu.number_key. rewrite Heven.
  intros E. exact (not_decimal "__proto__" eq_refl _ (eq_sym E)).
Qed.

Lemma register_spec actions name :
  ContextMenu.inherited name = false ->
  (forall k, name <> ContextMenu.decimal k) ->
  Nat.even (length actions) = true ->
  Obj.get actions (ContextMenu.number_key (length actions)) = None ->
  let result := ContextMenu.register name actions in
  Obj.get (snd result) name = Some (ContextMenu.Number (Z.of_nat (length actions)))
  /\ Obj.get (snd result) (ContextMenu.number_key (length actions))
     = Some (ContextMenu.Name name)
  /\ length (snd result)
     = match Obj.get actions name with
       | Some _ => S (length actions)
       | None => S (S (length actions))
       end
  /\ fst result = ContextMenu.Number (Z.of_nat (length (snd result)) - 2)
  /\ (NoDup (Obj.keys actions) -> NoDup (Obj.keys (snd result))).
Proof.
  intros Hin Hname Heven Hfree result.
  assert (Hne : name <> ContextMenu.number_key (length actions)).
  { unfold ContextMenu.number_key. rewrite Heven. apply Hname. }
  unfold result. rewrite (register_eq actions name Hin Heven); cbn [fst snd].
  rewrite get_set_other by auto. rewrite !get_set_same.
  rewrite !length_set, get_set_other by exact Hne. rewrite Hfree.
  split; [reflexivity|]. split; [reflexivity|].
  split; [now destruct (Obj.get actions name)|].
  split; [reflexivity|].
  intros Hnd. now apply NoDup_keys_set, NoDup_keys_set.
Qed.

Lemma well_formed_free n actions :
  ContextMenu.well_formed n actions ->
  Nat.even (length actions) = true
  /\ ContextMenu.number_key (length actions) = ContextMenu.decimal n
  /\ Obj.get actions (ContextMenu.decimal n) = None.
Proof.
  intros (_ & Hlen & Hfree). rewrite Hlen.
  split; [rewrite Nat.even_mul; reflexivity|].
  split; [apply number_key_whole|apply Hfree; lia].
Qed.

Lemma register_fresh n actions name :
  ContextMenu.well_formed n actions ->
  ContextMenu.inherited name = false ->
  Obj.get actions name = None ->
  (forall k, name <> ContextMenu.decimal k) ->
  let result := ContextMenu.register name actions in
  fst result = ContextMenu.Number (2 * Z.of_nat n)
  /\ ContextMenu.paired (snd result) name n
  /\ ContextMenu.well_formed (S n) (snd result)
  /\ (forall k, k <> name -> k <> ContextMenu.decimal n ->
                Obj.get (snd result) k = Obj.get actions k).
Proof.
  intros Hwf Hin Hnew Hname result.
  destruct (well_formed_free n actions Hwf) as (Heven & Hkey & Hfree).
  destruct Hwf as (Hnd & Hlen & Hhigh).
  assert (Hfree' : Obj.get actions (ContextMenu.number_key (length actions)) = None)
    by now rewrite Hkey.
  destruct (register_spec actions name Hin Hname Heven Hfree')
    as (H1 & H2 & H3 & H4 & H5).
  fold result in H1, H2, H3, H4, H5.
  rewrite Hnew in H3. rewrite Hkey in H2.
  split; [rewrite H4, H3, Hlen; f_equal; clear; lia|].
  split; [split; [rewrite H1, Hlen; do 2 f_equal; clear; lia|exact H2]|].
  split.
  - split; [auto|]. split; [lia|].
    intros k Hk. unfold result.
    rewrite (register_eq actions name Hin Heven); cbn [snd].
    rewrite Hkey, !get_set_other.
    + apply Hhigh. lia.
    + apply Hname.
    + intros E. apply decimal_inj in E. lia.
  - intros k Hk1 Hk2. unfold result.
    rewrite (register_eq actions name Hin Heven); cbn [snd].
    rewrite Hkey, !get_set_other; auto.
Qed.

(** X1.  [AddEntityAction] with a name that is new to a table of [n]
    actions, is not a number and is not a member every object inherits,
    returns [n], enters the name under [n] and [n] under the name, touches
    no other key, and leaves a table of [n + 1] actions. *)
Theorem AddEntityAction_fresh (n : nat) (actions : ContextMenu.Table)
    (name : string) :
  ContextMenu.well_formed n actions ->
  ContextMenu.inherited name = false ->
  Obj.get actions name = None ->
  (forall k, name <> ContextMenu.decimal k) ->
  let result := ContextMenu.AddEntityAction name actions in
  fst result = ContextMenu.Number (2 * Z.of_nat n)
  /\ ContextMenu.paired (snd result) name n
  /\ ContextMenu.well_formed (S n) (snd result)
  /\ (forall k, k <> name -> k <> ContextMenu.decimal n ->
                Obj.get (snd result) k = Obj.get actions k).
Proof.
  intros Hwf Hin Hnew Hname. unfold ContextMenu.AddEntityAction.
  rewrite (read_own actions name Hin), Hnew.
  now apply register_fresh.
Qed.

Lemma two_actions_well_formed : ContextMenu.well_formed 2 ContextMenu.two_actions.
Proof.
  split; [|split; [reflexivity|]].
  - repeat constructor; simpl; intuition discriminate.
  - intros k Hk.
    destruct (Obj.get ContextMenu.two_actions (ContextMenu.decimal k)) eqn:E;
      [|reflexivity].
    apply get_some_in_keys in E. simpl in E.
    destruct E as [E|[E|[E|[E|[]]]]].
    + exfalso. exact (not_decimal "Attack" eq_refl k E).
    + apply (decimal_inj 0 k) in E. lia.
    + exfalso. exact (not_decimal "Talk" eq_refl k E).
    + apply (decimal_inj 1 k) in E. lia.
Qed.

Lemma AddEntityAction_fresh_witness :
  ContextMenu.well_formed 2 ContextMenu.two_actions
  /\ Obj.get ContextMenu.two_actions "Trade" = None
  /\ fst (ContextMenu.AddEntityAction "Trade" ContextMenu.two_actions)
     = ContextMenu.Number 4.
Proof.
  split; [exact two_actions_well_formed|]. split; [reflexivity|].
  apply (AddEntityAction_fresh 2 ContextMenu.two_actions "Trade"
           two_actions_well_formed eq_refl eq_refl).
  now apply not_decimal.
Defined.

(** X2.  Asking [AddEntityAction] for the same name again returns the
    number it returned the first time and leaves the table as the first
    call left it. *)
Theorem AddEntityAction_again (n : nat) (actions : ContextMenu.Table)
    (name : string) :
  ContextMenu.well_formed n actions ->
  ContextMenu.inherited name = false ->
  Obj.get actions name = None ->
  (forall k, name <> ContextMenu.decimal k) ->
  let first := ContextMenu.AddEntityAction name actions in
  ContextMenu.AddEntityAction name (snd first) = first.
Proof.
  intros Hwf Hin Hnew Hname first.
  assert (E : first = ContextMenu.register name actions)
    by (unfold first, ContextMenu.AddEntityAction;
        now rewrite (read_own actions name Hin), Hnew).
  destruct (register_fresh n actions name Hwf Hin Hnew Hname)
    as (H1 & [H2 _] & _).
  rewrite <- E in H1, H2.
  unfold ContextMenu.AddEntityAction at 1.
  rewrite (read_own _ name Hin), H2, <- H1.
  now destruct first.
Qed.

Lemma AddEntityAction_again_witness :
  ContextMenu.well_formed 2 ContextMenu.two_actions
  /\ ContextMenu.AddEntityAction "Trade"
       (snd (ContextMenu.AddEntityAction "Trade" ContextMenu.two_actions))
     = ContextMenu.AddEntityAction "Trade" ContextMenu.two_actions.
Proof.
  split; [exact two_actions_well_formed|].
  apply (AddEntityAction_again 2 ContextMenu.two_actions "Trade"
           two_actions_well_formed eq_refl eq_refl).
  now apply not_decimal.
Defined.

(** X3.  [AddInventoryItemAction] has no such guard.  Called again with a
    name it has entered as number [n], it gives the name the number
    [n + 1] while [n] still names it, leaves an odd number of keys, and
    returns [n + 1/2]. *)
Theorem AddInventoryItemAction_again (n : nat) (actions : ContextMenu.Table)
    (name : string) :
  ContextMenu.well_formed n actions ->
  ContextMenu.inherited name = false ->
  Obj.get actions name = None ->
  (forall k, name <> ContextMenu.decimal k) ->
  let first := ContextMenu.AddInventoryItemAction name actions in
  let second := ContextMenu.AddInventoryItemAction name (snd first) in
  fst first = ContextMenu.Number (2 * Z.of_nat n)
  /\ fst second = ContextMenu.Number (2 * Z.of_nat n + 1)
  /\ Obj.get (snd second) name = Some (ContextMenu.Number (2 * Z.of_nat (S n)))
  /\ Obj.get (snd second) (ContextMenu.decimal n) = Some (ContextMenu.Name name)
  /\ Obj.get (snd second) (ContextMenu.decimal (S n))
     = Some (ContextMenu.Name name)
  /\ length (snd second) = 2 * n + 3.
Proof.
  intros Hwf Hin Hnew Hname first second.
  destruct (register_fresh n actions name Hwf Hin Hnew Hname)
    as (H1 & [H2 H3] & Hwf1 & _).
  change (ContextMenu.register name actions) with first in H1, H2, H3, Hwf1.
  destruct (well_formed_free (S n) (snd first) Hwf1) as (Heven & Hkey & Hfree).
  assert (Hfree' : Obj.get (snd first)
                     (ContextMenu.number_key (length (snd first))) = None)
    by now rewrite Hkey.
  destruct (register_spec (snd first) name Hin Hname Heven Hfree')
    as (S1 & S2 & S3 & S4 & _).
  change (ContextMenu.register name (snd first)) with second in S1, S2, S3, S4.
  destruct Hwf1 as (_ & Hlen & _).
  rewrite H2 in S3. rewrite Hkey in S2. rewrite Hlen in S1, S3.
  split; [exact H1|].
  split; [rewrite S4, S3; f_equal; clear; lia|].
  split; [rewrite S1; do 2 f_equal; clear; lia|].
  split.
  - unfold second, ContextMenu.AddInventoryItemAction.
    rewrite (register_eq (snd first) name Hin Heven).
    cbn [snd]. rewrite Hkey, !get_set_other; auto.
    + intros E. apply decimal_inj in E. lia.
  - split; [exact S2|lia].
Qed.

Lemma AddInventoryItemAction_again_witness :
  ContextMenu.well_formed 2 ContextMenu.two_actions
  /\ fst (ContextMenu.AddInventoryItemAction "Trade"
            (snd (ContextMenu.AddInventoryItemAction "Trade"
                    ContextMenu.two_actions)))
     = ContextMenu.Number 5.
Proof.
  split; [exact two_actions_well_formed|].
  apply (AddInventoryItemAction_again 2 ContextMenu.two_actions "Trade"
           two_actions_well_formed eq_refl eq_refl).
  now apply not_decimal.
Defined.

(** * The search box *)

Lemma prefix_app t s u :
  String.prefix t s = true -> String.prefix t (String.append s u) = true.
Proof.
  revert s; induction t as [|a t IH]; intros s; simpl.
  - now destruct (String.append s u).
  - destruct s as [|b s]; simpl; [discriminate|].
    destruct (ascii_dec a b); [apply IH|discriminate].
Qed.

Lemma includes_app s t u :
  Search.includes s t = true -> Search.includes (String.append s u) t = true.
Proof.
  induction s as [|a s IH]; simpl.
  - rewrite orb_false_r. intros H.
    destruct t; [now destruct u|discriminate].
  - intros H. apply orb_true_iff in H as [H|H]; apply orb_true_iff.
    + left. now apply (prefix_app t (String a s) u).
    + right. now apply IH.
Qed.

Lemma filter_row_twice lower t1 t2 r :
  Search.filter_row lower t2 (Search.filter_row lower t1 r)
  = Search.filter_row lower t2 r.
Proof.
  unfold Search.filter_row.
  destruct (String.eqb (id (Search.element r)) (row_id "holder")) eqn:E;
    [now rewrite E|].
  destruct (Search.captions r) as [[n a]|] eqn:C; [|now rewrite E, C].
  destruct (String.eqb t1 "" || Search.includes (lower n) t1
            || Search.includes (lower a) t1); simpl; rewrite E;
    destruct (String.eqb t2 "" || Search.includes (lower n) t2
              || Search.includes (lower a) t2); reflexivity.
Qed.

(** X4.  The search box keeps no memory: filtering by one term and then
    by another leaves the rows as filtering by the second term alone, so
    that no row is lost by an earlier search. *)
Theorem filterPlugins_last_term_wins (toLowerCase : string -> string)
    (t1 t2 : string) (rows : list Search.Row) :
  Search.filterPlugins toLowerCase t2 (Search.filterPlugins toLowerCase t1 rows)
  = Search.filterPlugins toLowerCase t2 rows.
Proof.
  unfold Search.filterPlugins. rewrite map_map.
  apply map_ext. intros r. apply filter_row_twice.
Qed.

Lemma append_inj_l p a b : String.append p a = String.append p b -> a = b.
Proof. induction p as [|c p IH]; simpl; intros H; [exact H|]. inversion H; auto. Qed.

Lemma row_id_inj a b : row_id a = row_id b -> a = b.
Proof. apply append_inj_l. Qed.

(** A summary row after two searches: shown exactly when the second term
    matches. *)
Lemma summary_row_filtered lower t0 t p :
  pluginName p <> "holder" ->
  Search.shown
    (Search.filter_row lower t (Search.filter_row lower t0 (Search.summary_row p)))
  = String.eqb t ""
    || Search.includes (lower (pluginName p)) t
    || Search.includes (lower (String.append "by " (author p))) t.
Proof.
  intros Hn. rewrite filter_row_twice. unfold Search.filter_row.
  cbn [Search.summary_row Search.element Search.captions id].
  destruct (String.eqb_spec (row_id (pluginName p)) (row_id "holder")) as [E|_];
    [now apply row_id_inj in E|].
  destruct (String.eqb t "" || Search.includes (lower (pluginName p)) t
            || Search.includes (lower (String.append "by " (author p))) t);
    reflexivity.
Qed.

(** X5.  Emptying the search box brings every plugin back, whatever was
    searched before. *)
Theorem search_cleared_shows_all (toLowerCase : string -> string)
    (plugins : list Plugin) (before : string) :
  toLowerCase "" = "" ->
  (forall p, In p plugins -> pluginName p <> "holder") ->
  map Search.shown
      (Search.search_input toLowerCase ""
         (Search.filterPlugins toLowerCase before
            (map Search.summary_row plugins)))
  = map (fun _ => true) plugins.
Proof.
  intros Hl Hn. unfold Search.search_input, Search.filterPlugins.
  rewrite Hl, !map_map. apply map_ext_in. intros p Hp.
  now rewrite summary_row_filtered by auto.
Qed.

Lemma search_cleared_shows_all_witness :
  Search.lower "" = ""
  /\ map Search.shown
       (Search.search_input Search.lower ""
          (Search.filterPlugins Search.lower "zzz"
             (map Search.summary_row [Example.alerts; Example.lookup])))
     = [true; true].
Proof.
  split; [reflexivity|].
  apply (search_cleared_shows_all Search.lower
           [Example.alerts; Example.lookup] "zzz" eq_refl).
  intros p [<-|[<-|[]]]; discriminate.
Defined.

(** X6.  The author caption of a row reads "by " and the author, and the
    search looks into it: a term found in "by ", such as "b" or "y", shows
    every plugin. *)
Theorem search_term_in_by_shows_all (toLowerCase : string -> string)
    (plugins : list Plugin) (before term : string) :
  (forall a, toLowerCase (String.append "by " a)
             = String.append "by " (toLowerCase a)) ->
  (forall p, In p plugins -> pluginName p <> "holder") ->
  Search.includes "by " term = true ->
  map Search.shown
      (Search.filterPlugins toLowerCase term
         (Search.filterPlugins toLowerCase before
            (map Search.summary_row plugins)))
  = map (fun _ => true) plugins.
Proof.
  intros Hby Hn Hterm. unfold Search.filterPlugins.
  rewrite !map_map. apply map_ext_in. intros p Hp.
  rewrite summary_row_filtered by auto.
  rewrite Hby, (includes_app "by " term _ Hterm).
  now rewrite !orb_true_r.
Qed.

Lemma search_term_in_by_shows_all_witness :
  Search.includes "by " "y" = true
  /\ map Search.shown
       (Search.filterPlugins Search.lower "y"
          (Search.filterPlugins Search.lower "zzz"
             (map Search.summary_row [Example.alerts; Example.lookup])))
     = [true; true].
Proof.
  split; [reflexivity|].
  apply (search_term_in_by_shows_all Search.lower
           [Example.alerts; Example.lookup] "zzz" "y").
  - intros a. reflexivity.
  - intros p [<-|[<-|[]]]; discriminate.
  - reflexivity.
Defined.

(** ** The disabled state of the controls *)

Lemma adjust_fixed {A} (f : A -> A) (o : Obj.t A) k :
  (forall v, Obj.get o k = Some v -> f v = v) -> Obj.adjust f o k = o.
Proof.
  induction o as [|[k0 v0] o IH]; simpl; [reflexivity|].
  destruct (String.eqb_spec k0 k) as [->|Hk]; intros H.
  - now rewrite (H v0 eq_refl).
  - now rewrite IH.
Qed.

Lemma get_map_snd {A} (f : A -> A) (o : Obj.t A) k :
  Obj.get (map (fun row => (fst row, f (snd row))) o) k = option_map f (Obj.get o k).
Proof.
  induction o as [|[k0 v0] o IH]; simpl; [reflexivity|].
  now destruct (String.eqb k0 k).
Qed.

Lemma set_disabled_twice d d' cs :
  Controls.set_disabled d (Controls.set_disabled d' cs) = Controls.set_disabled d cs.
Proof.
  unfold Controls.set_disabled. rewrite map_map. apply map_ext.
  intros [[] b]; reflexivity.
Qed.

Lemma set_disabled_selects d cs :
  forallb (fun c => negb (Controls.selected c)) cs = true ->
  Controls.set_disabled d cs = cs.
Proof.
  induction cs as [|c cs IH]; simpl; [reflexivity|].
  intros H. apply andb_prop in H as [H1 H2]. rewrite (IH H2).
  destruct (Controls.selected c); [discriminate|reflexivity].
Qed.

Lemma row_controls_fixed s :
  Controls.set_disabled (truthy (disabled s)) (Controls.row_controls s)
  = Controls.row_controls s.
Proof.
  unfold Controls.row_controls.
  destruct (truthy (disabled s)); [apply set_disabled_twice|].
  destruct (type s); try reflexivity.
  destruct (options s) as [[|]|]; reflexivity.
Qed.

Lemma get_detail_rows p k :
  k <> enable_key ->
  Obj.get (Controls.detail_rows p) (row_id k)
  = option_map Controls.row_controls (settings_get p k).
Proof.
  intros Hk. unfold Controls.detail_rows.
  assert (G : forall ks, 
    Obj.get (flat_map (fun settingKey =>
       if String.eqb settingKey enable_key then []
       else match settings_get p settingKey with
            | Some setting => [(row_id settingKey, Controls.row_controls setting)]
            | None => []
            end) ks) (row_id k)
    = if existsb (String.eqb k) ks then option_map Controls.row_controls (settings_get p k) else None).
  { induction ks as [|k0 ks IH]; simpl; [reflexivity|].
    destruct (String.eqb_spec k0 enable_key) as [->|E0]; simpl.
    - destruct (String.eqb_spec k enable_key); [contradiction|]. exact IH.
    - destruct (String.eqb_spec k k0) as [->|N]; simpl.
      + destruct (settings_get p k0) as [s|] eqn:G0; simpl.
        * now rewrite String.eqb_refl.
        * rewrite IH. now destruct (existsb _ ks).
      + destruct (settings_get p k0) as [s|] eqn:G0; simpl; [|exact IH].
        destruct (String.eqb_spec k0 k) as [E|_]; [congruence|exact IH]. }
  rewrite G. destruct (existsb (String.eqb k) (settings_keys p)) eqn:Ex; [reflexivity|].
  destruct (settings_get p k) as [s|] eqn:Gk; [|reflexivity].
  apply settings_get_in_keys in Gk.
  assert (existsb (String.eqb k) (settings_keys p) = true); [|congruence].
  apply existsb_exists. exists k. split; [exact Gk|apply String.eqb_refl].
Qed.

Lemma settings_get_holder p :
  Obj.get (others p) "holder" = None -> settings_get p "holder" = None.
Proof. intros H. unfold settings_get. simpl. exact H. Qed.

(** What one turn of the loop does to the row of [key]. *)
Lemma disabled_row_get p panel k0 key s :
  settings_get p "holder" = None ->
  key <> enable_key ->
  settings_get p key = Some s ->
  Obj.get (Controls.rows (Controls.refresh_row p panel k0)) (row_id key)
  = if String.eqb k0 key
    then option_map (Controls.set_disabled (truthy (disabled s)))
                    (Obj.get (Controls.rows panel) (row_id key))
    else Obj.get (Controls.rows panel) (row_id key).
Proof.
  intros Hh Hk Hs. unfold Controls.refresh_row.
  destruct (String.eqb_spec k0 key) as [->|N].
  - destruct (String.eqb_spec key enable_key); [contradiction|].
    rewrite Hs. destruct (String.eqb_spec key "holder") as [->|_]; [congruence|].
    apply get_adjust_same.
  - destruct (String.eqb k0 enable_key); [reflexivity|].
    destruct (settings_get p k0) as [s0|] eqn:G0; [|reflexivity].
    destruct (String.eqb_spec k0 "holder") as [->|_]; [congruence|].
    apply get_adjust_other. intros E. apply row_id_inj in E. contradiction.
Qed.

Lemma disabled_fold_get p key s controls :
  settings_get p "holder" = None ->
  key <> enable_key ->
  settings_get p key = Some s ->
  forall ks panel,
    Obj.get (Controls.rows panel) (row_id key) = Some controls ->
    Obj.get (Controls.rows (fold_left (Controls.refresh_row p) ks panel))
            (row_id key)
    = Some (if existsb (String.eqb key) ks
            then Controls.set_disabled (truthy (disabled s)) controls
            else controls).
Proof.
  intros Hh Hk Hs ks. revert controls.
  induction ks as [|k0 ks IH]; intros controls panel G; simpl; [exact G|].
  pose proof (disabled_row_get p panel k0 key s Hh Hk Hs) as R.
  rewrite G in R. rewrite (String.eqb_sym key k0).
  destruct (String.eqb k0 key); simpl in *.
  - rewrite (IH _ _ R). rewrite set_disabled_twice.
    now destruct (existsb _ ks).
  - apply IH, R.
Qed.

(** X7. After [refreshPluginSettingsDisabled], every input and button in the
    row of a setting is disabled exactly when the setting's [disabled] flag
    is truthy, whatever the controls were before; the plugin is assumed to
    have no setting called [holder], whose row id is that of the view. *)
Theorem refreshPluginSettingsDisabled_sets_row plugin panel key setting controls :
  Obj.get (others plugin) "holder" = None ->
  key <> enable_key ->
  settings_get plugin key = Some setting ->
  Obj.get (Controls.rows panel) (row_id key) = Some controls ->
  Obj.get (Controls.rows (Controls.refreshPluginSettingsDisabled plugin panel))
          (row_id key)
  = Some (Controls.set_disabled (truthy (disabled setting)) controls).
Proof.
  intros Hh Hk Hs G. unfold Controls.refreshPluginSettingsDisabled.
  rewrite (disabled_fold_get plugin key setting controls
             (settings_get_holder _ Hh) Hk Hs _ _ G).
  replace (existsb (String.eqb key) (settings_keys plugin)) with true; [reflexivity|].
  symmetry. apply existsb_exists. exists key. split.
  - eapply settings_get_in_keys; eauto.
  - apply String.eqb_refl.
Qed.

(** Any row, after one turn of the loop: untouched, or its inputs and
    buttons all set to one state. *)
Lemma disabled_row_any p panel k0 rid cs :
  Obj.get (Controls.rows panel) rid = Some cs ->
  exists cs', Obj.get (Controls.rows (Controls.refresh_row p panel k0)) rid
              = Some cs' /\
              (cs' = cs \/ exists d, cs' = Controls.set_disabled d cs).
Proof.
  intros G. unfold Controls.refresh_row.
  destruct (String.eqb k0 enable_key); [eauto|].
  destruct (settings_get p k0) as [s0|]; [|eauto].
  destruct (String.eqb k0 "holder"); cbn [Controls.rows].
  - rewrite get_map_snd, G. simpl. eauto.
  - destruct (String.eqb_spec (row_id k0) rid) as [<-|N].
    + rewrite get_adjust_same, G. simpl. eauto.
    + rewrite get_adjust_other by exact N. eauto.
Qed.

Lemma disabled_fold_any p rid ks : forall panel cs,
  Obj.get (Controls.rows panel) rid = Some cs ->
  exists cs', Obj.get (Controls.rows (fold_left (Controls.refresh_row p) ks panel))
                      rid = Some cs' /\
              (cs' = cs \/ exists d, cs' = Controls.set_disabled d cs).
Proof.
  induction ks as [|k0 ks IH]; intros panel cs G; simpl; [eauto|].
  destruct (disabled_row_any p panel k0 rid cs G) as (cs1 & G1 & C1).
  destruct (IH _ _ G1) as (cs2 & G2 & C2). exists cs2. split; [exact G2|].
  destruct C1 as [->|[d ->]]; [exact C2|].
  destruct C2 as [->|[d' ->]]; [eauto|]. rewrite set_disabled_twice. eauto.
Qed.

(** X8. The [disabled] flag has no effect on a combobox: its row holds no
    input and no button, so the row comes out of [openPluginSettings] with
    no disabled control and [refreshPluginSettingsDisabled] leaves it as it
    is, whatever the flag says. *)
Theorem combobox_never_disabled plugin key setting :
  key <> enable_key ->
  settings_get plugin key = Some setting ->
  type setting = SettingsTypes.combobox ->
  exists controls,
    Obj.get (Controls.detail_rows plugin) (row_id key) = Some controls /\
    Obj.get (Controls.rows (Controls.refreshPluginSettingsDisabled plugin
                              (Controls.detail_view plugin)))
            (row_id key) = Some controls /\
    forallb (fun c => negb (Controls.is_disabled c)) controls = true.
Proof.
  intros Hk Hs Ht.
  pose proof (get_detail_rows plugin key Hk) as G. rewrite Hs in G. simpl in G.
  assert (S : forallb (fun c => negb (Controls.selected c))
                      (Controls.row_controls setting) = true
              /\ forallb (fun c => negb (Controls.is_disabled c))
                         (Controls.row_controls setting) = true).
  { unfold Controls.row_controls. rewrite Ht.
    destruct (options setting) as [[|]|], (truthy (disabled setting)); split; reflexivity. }
  destruct S as [S1 S2].
  exists (Controls.row_controls setting). split; [exact G|]. split; [|exact S2].
  unfold Controls.refreshPluginSettingsDisabled.
  destruct (disabled_fold_any plugin (row_id key) (settings_keys plugin)
              (Controls.detail_view plugin) _ G)
    as (cs' & G' & [->|[d ->]]); [exact G'|].
  now rewrite (set_disabled_selects d _ S1) in G'.
Qed.

Lemma disabled_row_detail p k0 :
  settings_get p "holder" = None ->
  Controls.refresh_row p (Controls.detail_view p) k0 = Controls.detail_view p.
Proof.
  intros Hh. unfold Controls.refresh_row.
  destruct (String.eqb_spec k0 enable_key) as [|Hk]; [reflexivity|].
  destruct (settings_get p k0) as [s0|] eqn:G0; [|reflexivity].
  destruct (String.eqb_spec k0 "holder") as [->|_]; [congruence|].
  unfold Controls.detail_view; cbn [Controls.rows Controls.loose]. f_equal.
  apply adjust_fixed. intros v Hv.
  rewrite (get_detail_rows p k0 Hk), G0 in Hv. simpl in Hv.
  injection Hv as <-. apply row_controls_fixed.
Qed.

(** X9. The disabled state [openPluginSettings] gives the controls is the
    one [refreshPluginSettingsDisabled] computes: a refresh of a view that
    was just opened changes nothing, for a plugin with no setting called
    [holder]. *)
Theorem refresh_after_open_is_identity plugin :
  Obj.get (others plugin) "holder" = None ->
  Controls.refreshPluginSettingsDisabled plugin (Controls.detail_view plugin)
  = Controls.detail_view plugin.
Proof.
  intros Hh. apply settings_get_holder in Hh.
  unfold Controls.refreshPluginSettingsDisabled.
  induction (settings_keys plugin) as [|k0 ks IH]; simpl; [reflexivity|].
  now rewrite disabled_row_detail.
Qed.

Lemma refreshPluginSettingsDisabled_sets_row_witness :
  Obj.get
    (Controls.rows
       (Controls.refreshPluginSettingsDisabled Controls.frozen
          (Controls.mkPanel []
             [(row_id "volume",
               [Controls.mkControl Controls.input false;
                Controls.mkControl Controls.select false])])))
    (row_id "volume")
  = Some [Controls.mkControl Controls.input true;
          Controls.mkControl Controls.select false].
Proof.
  apply (refreshPluginSettingsDisabled_sets_row Controls.frozen _ "volume"
           (Controls.with_disabled (Some true) Example.volume)
           [Controls.mkControl Controls.input false;
            Controls.mkControl Controls.select false]);
    [reflexivity|discriminate|reflexivity|reflexivity].
Defined.

Lemma combobox_never_disabled_witness :
  truthy (disabled (Controls.with_disabled (Some true) Example.mode)) = true
  /\ exists controls,
    Obj.get (Controls.detail_rows Controls.frozen) (row_id "mode") = Some controls /\
    Obj.get (Controls.rows (Controls.refreshPluginSettingsDisabled Controls.frozen
                              (Controls.detail_view Controls.frozen)))
            (row_id "mode")
    = Some controls /\
    forallb (fun c => negb (Controls.is_disabled c)) controls = true.
Proof.
  split; [reflexivity|].
  apply (combobox_never_disabled Controls.frozen "mode"
           (Controls.with_disabled (Some true) Example.mode));
    [discriminate|reflexivity|reflexivity].
Defined.

Lemma refresh_after_open_is_identity_witness :
  Controls.refreshPluginSettingsDisabled Controls.frozen
    (Controls.detail_view Controls.frozen)
  = Controls.mkPanel []
      [(row_id "volume", [Controls.mkControl Controls.input true]);
       (row_id "mode", [Controls.mkControl Controls.select false]);
       (row_id "label", [Controls.mkControl Controls.input false])].
Proof.
  rewrite (refresh_after_open_is_identity Controls.frozen eq_refl).
  reflexivity.
Defined.

(** ** What the manager never changes *)

Lemma declared_adjust (f : PluginSettings -> PluginSettings) o k :
  (forall s, declared (f s) = declared s) ->
  map (fun kv : string * PluginSettings => (fst kv, declared (snd kv)))
      (Obj.adjust f o k)
  = map (fun kv => (fst kv, declared (snd kv))) o.
Proof.
  intros Hf. induction o as [|[k0 s0] o IH]; simpl; [reflexivity|].
  destruct (String.eqb k0 k); simpl; [now rewrite Hf|now rewrite IH].
Qed.

Lemma declaration_adjust f p k :
  (forall s, declared (f s) = declared s) ->
  declaration (settings_adjust f p k) = declaration p.
Proof.
  intros Hf. unfold settings_adjust, declaration.
  destruct (String.eqb k enable_key); simpl.
  - now rewrite Hf.
  - now rewrite declared_adjust.
Qed.

Lemma declaration_make_reactive p : declaration (make_reactive p) = declaration p.
Proof.
  unfold make_reactive. generalize (settings_keys p) as ks. intros ks.
  assert (G : forall q, declaration q = declaration p ->
              declaration
                (fold_left (fun p0 settingKey =>
                              if String.eqb settingKey enable_key then p0
                              else settings_adjust with_proxy p0 settingKey) ks q)
              = declaration p).
  { induction ks as [|k ks IH]; intros q Hq; simpl; [exact Hq|].
    apply IH. destruct (String.eqb k enable_key); [exact Hq|].
    rewrite declaration_adjust; [exact Hq|reflexivity]. }
  now apply G.
Qed.

Lemma same_declarations_refl m : same_declarations m m.
Proof. reflexivity. Qed.

Lemma same_declarations_trans m1 m2 m3 :
  same_declarations m1 m2 -> same_declarations m2 m3 -> same_declarations m1 m3.
Proof. unfold same_declarations. congruence. Qed.

Lemma same_declarations_list m m' :
  pluginList m' = pluginList m -> same_declarations m m'.
Proof. unfold same_declarations. now intros ->. Qed.

Lemma same_declarations_fold {K} (f : SettingsManager -> K -> SettingsManager) ks :
  (forall m k, same_declarations m (f m k)) ->
  forall m, same_declarations m (fold_left f ks m).
Proof.
  intros Hf. induction ks as [|k ks IH]; intros m; simpl.
  - apply same_declarations_refl.
  - eapply same_declarations_trans; [apply Hf|apply IH].
Qed.

Lemma same_declarations_adjust i key f m :
  (forall s, declared (f s) = declared s) ->
  same_declarations m (adjust_setting i key f m).
Proof.
  intros Hf. unfold same_declarations, adjust_setting; simpl.
  apply map_update_nth. intros p. now apply declaration_adjust.
Qed.

Lemma same_declarations_emit e m m' :
  same_declarations m m' -> same_declarations m (emit e m').
Proof. exact (fun H => H). Qed.

Lemma same_declarations_schedule ts m m' :
  same_declarations m m' -> same_declarations m (schedule ts m').
Proof. exact (fun H => H). Qed.

Lemma same_declarations_store_plugin i m : same_declarations m (store_plugin i m).
Proof.
  unfold store_plugin. destruct (nth_error (pluginList m) i); reflexivity.
Qed.

Lemma same_declarations_apply_and_save i key v after m :
  same_declarations m (apply_and_save i key v after m).
Proof.
  unfold apply_and_save. apply same_declarations_schedule.
  eapply same_declarations_trans; [|apply same_declarations_store_plugin].
  apply same_declarations_emit, same_declarations_adjust. reflexivity.
Qed.

Lemma pluginList_update_element rid f m :
  pluginList (update_element rid f m) = pluginList m.
Proof. unfold update_element. now destruct (currentView m). Qed.

Lemma pluginList_refresh_row i m k : pluginList (refresh_row i m k) = pluginList m.
Proof.
  unfold refresh_row.
  destruct (String.eqb k enable_key); [reflexivity|].
  destruct (setting_at m i k) as [s|]; [|reflexivity].
  destruct (getElementById m (row_id k)) as [e|]; [|reflexivity].
  destruct (truthy (hidden s)); [apply pluginList_update_element|].
  destruct (display e); [reflexivity|apply pluginList_update_element].
Qed.

Lemma pluginList_refresh i m :
  pluginList (refreshPluginSettingsVisibility i m) = pluginList m.
Proof.
  unfold refreshPluginSettingsVisibility.
  destruct (nth_error (pluginList m) i) as [p|]; [|reflexivity].
  generalize (settings_keys p) as ks. intros ks. revert m.
  induction ks as [|k ks IH]; intros m; simpl; [reflexivity|].
  now rewrite IH, pluginList_refresh_row.
Qed.

Lemma same_declarations_write_hidden i key v m :
  same_declarations m (write_hidden i key v m).
Proof.
  unfold write_hidden.
  destruct (setting_at m i key) as [s|]; [|apply same_declarations_refl].
  destruct (flag_eqb (hidden s) v); [|apply same_declarations_schedule];
    apply same_declarations_adjust; reflexivity.
Qed.

Lemma same_declarations_toggle name key h m :
  same_declarations m (toggleSettingVisibility name key h m).
Proof.
  unfold toggleSettingVisibility.
  destruct (getElementById m (row_id key)); [|apply same_declarations_refl].
  destruct (find_plugin name (pluginList m)) as [[i p]|];
    [|apply same_declarations_refl].
  destruct (settings_get p key) as [s|]; [|apply same_declarations_refl].
  match goal with |- context [if ?b then _ else _] => destruct b end;
    (eapply same_declarations_trans; [apply same_declarations_write_hidden|]);
    apply same_declarations_list; simpl; apply pluginList_update_element.
Qed.

Lemma same_declarations_load_setting data n m k :
  same_declarations m (load_setting data n m k).
Proof.
  unfold load_setting.
  destruct (Obj.get data k) as [[|b|x|s]|]; try apply same_declarations_refl;
    (destruct (find_plugin n (pluginList m)) as [[i p]|];
       [|apply same_declarations_refl]);
    (destruct (settings_get p k) as [st|]; [|apply same_declarations_refl]);
    (destruct (onLoaded st);
       [apply same_declarations_emit|];
       apply same_declarations_adjust; reflexivity).
Qed.

Lemma same_declarations_load_settings m : same_declarations m (load_settings m).
Proof.
  unfold load_settings. destruct (databaseSettings m) as [r|];
    [|apply same_declarations_refl].
  apply same_declarations_fold. clear m. intros m n. unfold load_plugin.
  destruct (Obj.get r n) as [data|]; [|apply same_declarations_refl].
  apply same_declarations_fold. intros. apply same_declarations_load_setting.
Qed.

Lemma same_declarations_register_plugin m i :
  same_declarations m (register_plugin m i).
Proof.
  unfold register_plugin.
  destruct (nth_error (pluginList m) i) as [p|]; [|apply same_declarations_refl].
  unfold same_declarations; simpl.
  apply map_update_nth. apply declaration_make_reactive.
Qed.

Lemma same_declarations_registerPlugins m :
  same_declarations m (registerPlugins m).
Proof.
  unfold registerPlugins, write_back.
  eapply same_declarations_trans with (m2 := load_settings (read_store m)).
  - eapply same_declarations_trans with (m2 := read_store m);
      [apply same_declarations_list; reflexivity
      |apply same_declarations_load_settings].
  - apply same_declarations_fold. apply same_declarations_register_plugin.
Qed.

Lemma same_declarations_open_step i m k : same_declarations m (open_step i m k).
Proof.
  destruct (open_step_cases i m k) as [->|Hf]; [apply same_declarations_refl|].
  destruct Hf as (q & s & first & rest & _ & _ & _ & _ & _ & ->).
  eapply same_declarations_trans;
    [apply (same_declarations_adjust i k (with_value (VStr first))); reflexivity
    |apply same_declarations_apply_and_save].
Qed.

Lemma same_declarations_open i m : same_declarations m (openPluginSettings i m).
Proof.
  unfold openPluginSettings.
  destruct (nth_error (pluginList m) i) as [p|]; [|apply same_declarations_refl].
  cbv zeta. rewrite fst_fold_open_row.
  eapply same_declarations_trans
    with (m2 := fold_left (open_step i) (settings_keys p) m);
    [|apply same_declarations_list; reflexivity].
  apply same_declarations_fold. intros. apply same_declarations_open_step.
Qed.

Ltac handler_keeps_declarations :=
  match goal with
  | |- same_declarations ?m (match setting_at ?m ?i ?key with _ => _ end) =>
      destruct (setting_at m i key) as [?s|]; [|apply same_declarations_refl];
      repeat match goal with
             | |- context [if ?b then _ else _] =>
                 destruct b; [apply same_declarations_refl|]
             end;
      apply same_declarations_apply_and_save
  end.

Lemma perform_same_declarations a m : same_declarations m (perform a m).
Proof.
  destruct a as [i c|i key c|i key c|i key c|i key c|i key|i key c|i| |n key h|];
    simpl.
  - rewrite enable_change_eq. apply same_declarations_apply_and_save.
  - unfold checkbox_change. handler_keeps_declarations.
  - unfold range_change. handler_keeps_declarations.
  - unfold color_change. handler_keeps_declarations.
  - unfold text_change. handler_keeps_declarations.
  - unfold button_click. apply same_declarations_list.
    now rewrite pluginList_refresh.
  - apply same_declarations_apply_and_save.
  - apply same_declarations_open.
  - apply same_declarations_list. reflexivity.
  - apply same_declarations_toggle.
  - apply same_declarations_registerPlugins.
Qed.

(** X10. Nothing the manager does changes what a plugin declares: after any
    run of panel events, calls of the visibility operations and
    registrations, every plugin has the name, the author and the setting
    keys it had, in the same order, and every setting its type, validator,
    [disabled] flag, [onLoaded] function, bounds and options.  The manager
    writes only the [value] and [hidden] fields and wraps proxies. *)
Theorem run_keeps_declarations (actions : list Action) (m : SettingsManager) :
  map declaration (pluginList (run actions m)) = map declaration (pluginList m).
Proof.
  unfold run. revert m.
  induction actions as [|a actions IH]; intros m; simpl; [reflexivity|].
  rewrite IH. apply perform_same_declarations.
Qed.

(** ** The store mirrors the settings *)

Lemma same_declarations_names m m' :
  same_declarations m m' ->
  map pluginName (pluginList m') = map pluginName (pluginList m).
Proof.
  unfold same_declarations. intros H.
  assert (E : forall l, map pluginName l
                        = map (fun d => fst (fst (fst d))) (map declaration l))
    by (intros l; rewrite map_map; reflexivity).
  now rewrite (E (pluginList m')), (E (pluginList m)), H.
Qed.

Lemma same_declarations_unique m m' :
  same_declarations m m' -> unique_names m' -> unique_names m.
Proof.
  intros H. unfold unique_names. now rewrite (same_declarations_names _ _ H).
Qed.

Lemma unique_same_declarations m m' :
  same_declarations m m' -> unique_names m -> unique_names m'.
Proof.
  intros H. unfold unique_names. now rewrite (same_declarations_names _ _ H).
Qed.

Lemma update_nth_none {A} (f : A -> A) (l : list A) i :
  nth_error l i = None -> update_nth f l i = l.
Proof.
  revert i. induction l as [|x l IH]; intros [|i]; simpl; try reflexivity.
  - discriminate.
  - intros H. now rewrite IH.
Qed.

Lemma mirrored_ext m m' :
  pluginList m' = pluginList m ->
  database m' = database m ->
  username m' = username m ->
  mirrored m -> mirrored m'.
Proof.
  intros Hl Hd Hu H i p Hp. unfold stored_entry. rewrite Hd, Hu.
  rewrite Hl in Hp. exact (H i p Hp).
Qed.

Lemma snapshot_adjust f p key :
  (forall s, value (f s) = value s) ->
  snapshot (settings_adjust f p key) = snapshot p.
Proof.
  intros Hf. apply snapshot_ext; [apply settings_keys_adjust|].
  intros k. destruct (String.eqb_spec key k) as [->|N].
  - rewrite settings_get_adjust_same.
    destruct (settings_get p k); simpl; [now rewrite Hf|reflexivity].
  - now rewrite settings_get_adjust_other.
Qed.

Lemma mirrored_adjust i key f m :
  (forall s, value (f s) = value s) ->
  mirrored m -> mirrored (adjust_setting i key f m).
Proof.
  intros Hf H j q Hq. unfold adjust_setting in Hq. simpl in Hq.
  change (stored_entry (adjust_setting i key f m) (pluginName q))
    with (stored_entry m (pluginName q)).
  destruct (Nat.eq_dec i j) as [<-|N].
  - rewrite nth_error_update_nth_same in Hq.
    destruct (nth_error (pluginList m) i) as [p|] eqn:Hp; [|discriminate].
    simpl in Hq. injection Hq as <-.
    rewrite pluginName_adjust, snapshot_adjust by exact Hf. exact (H i p Hp).
  - rewrite nth_error_update_nth_other in Hq by exact N. exact (H j q Hq).
Qed.

(** An accepted write brings the store up to date for the plugin written,
    and leaves it up to date for the others. *)
Lemma apply_and_save_mirrors i key v after m :
  unique_names m -> coherent m ->
  (forall j q, j <> i -> nth_error (pluginList m) j = Some q ->
               stored_entry m (pluginName q) = Some (snapshot q)) ->
  mirrored (apply_and_save i key v after m).
Proof.
  intros Hu Hc H.
  destruct (nth_error (pluginList m) i) as [p|] eqn:Hp.
  - rewrite (apply_and_save_eq m i key v after p Hp). cbv zeta.
    intros j q Hq. unfold stored_entry. simpl in *. rewrite get_set_same.
    destruct (Nat.eq_dec i j) as [<-|N].
    + rewrite nth_error_update_nth_same, Hp in Hq. simpl in Hq.
      injection Hq as <-. rewrite pluginName_adjust. apply get_set_same.
    + rewrite nth_error_update_nth_other in Hq by exact N.
      assert (Hne : pluginName p <> pluginName q).
      { intros E. apply N. eapply unique_position; eauto. }
      rewrite get_set_other by exact Hne.
      rewrite <- (H j q (fun E => N (eq_sym E)) Hq).
      unfold stored_entry, current_record. rewrite Hc.
      now destruct (databaseSettings m).
  - assert (Hm : mirrored m).
    { intros j q Hq. apply (H j q); [|exact Hq]. intros ->. congruence. }
    unfold apply_and_save, store_plugin, adjust_setting. simpl.
    rewrite (update_nth_none _ _ _ Hp), Hp.
    eapply mirrored_ext; [| | |exact Hm]; reflexivity.
Qed.

Lemma mirrored_others m i :
  mirrored m ->
  forall j q, j <> i -> nth_error (pluginList m) j = Some q ->
              stored_entry m (pluginName q) = Some (snapshot q).
Proof. intros H j q _. apply H. Qed.

Lemma open_step_mirrors i m k :
  unique_names m -> coherent m -> mirrored m ->
  unique_names (open_step i m k) /\ coherent (open_step i m k)
  /\ mirrored (open_step i m k).
Proof.
  intros Hu Hc Hm.
  pose proof (same_declarations_open_step i m k) as Hd.
  split; [eapply unique_same_declarations; eauto|].
  destruct (open_step_cases i m k) as [->|Hf]; [now split|].
  destruct Hf as (q & s & first & rest & _ & _ & _ & _ & _ & E).
  rewrite E. split; [now apply apply_and_save_coherent|].
  apply apply_and_save_mirrors.
  - eapply unique_same_declarations; [|exact Hu].
    apply same_declarations_adjust. reflexivity.
  - exact Hc.
  - intros j p Hj Hp. unfold adjust_setting in Hp. simpl in Hp.
    rewrite nth_error_update_nth_other in Hp by (intros X; apply Hj; now rewrite X).
    exact (Hm j p Hp).
Qed.

Lemma openPluginSettings_mirrors i m :
  unique_names m -> coherent m -> mirrored m -> mirrored (openPluginSettings i m).
Proof.
  intros Hu Hc Hm. unfold openPluginSettings.
  destruct (nth_error (pluginList m) i) as [p|]; [|exact Hm].
  cbv zeta. rewrite fst_fold_open_row.
  apply mirrored_ext with (m := fold_left (open_step i) (settings_keys p) m);
    try reflexivity.
  generalize (settings_keys p) as ks. intros ks. revert m Hu Hc Hm.
  induction ks as [|k ks IH]; intros m Hu Hc Hm; simpl; [exact Hm|].
  destruct (open_step_mirrors i m k Hu Hc Hm) as (Hu' & Hc' & Hm').
  now apply IH.
Qed.

Lemma toggleSettingVisibility_mirrors name key h m :
  mirrored m -> mirrored (toggleSettingVisibility name key h m).
Proof.
  intros Hm. unfold toggleSettingVisibility.
  destruct (getElementById m (row_id key)); [|exact Hm].
  destruct (find_plugin name (pluginList m)) as [[i p]|]; [|exact Hm].
  destruct (settings_get p key) as [s|]; [|exact Hm].
  assert (W : forall v, mirrored (write_hidden i key v m)).
  { intros v. unfold write_hidden.
    destruct (setting_at m i key) as [s0|]; [|exact Hm].
    assert (A : mirrored (adjust_setting i key (with_hidden v) m))
      by (apply mirrored_adjust; [reflexivity|exact Hm]).
    destruct (flag_eqb (hidden s0) v); [exact A|].
    eapply mirrored_ext; [| | |exact A]; reflexivity. }
  match goal with |- context [if ?b then _ else _] => destruct b end;
    (eapply mirrored_ext; [| | |apply W]; simpl;
     [apply pluginList_update_element
     |unfold update_element; now destruct (currentView _)
     |unfold update_element; now destruct (currentView _)]).
Qed.

Ltac handler_mirrors Hu Hc Hm :=
  match goal with
  | |- mirrored (match setting_at ?m ?i ?key with _ => _ end) =>
      destruct (setting_at m i key) as [?s|]; [|exact Hm];
      repeat match goal with
             | |- context [if ?b then _ else _] => destruct b; [exact Hm|]
             end;
      apply apply_and_save_mirrors;
      [exact Hu|exact Hc|now apply mirrored_others]
  end.

Lemma perform_mirrors a m :
  unique_names m -> coherent m -> mirrored m -> mirrored (perform a m).
Proof.
  intros Hu Hc Hm.
  destruct a as [i c|i key c|i key c|i key c|i key c|i key|i key c|i| |n key h|];
    simpl.
  - rewrite enable_change_eq.
    apply apply_and_save_mirrors; [exact Hu|exact Hc|now apply mirrored_others].
  - unfold checkbox_change. handler_mirrors Hu Hc Hm.
  - unfold range_change. handler_mirrors Hu Hc Hm.
  - unfold color_change. handler_mirrors Hu Hc Hm.
  - unfold text_change. handler_mirrors Hu Hc Hm.
  - unfold button_click.
    destruct (same_store_refresh i (emit (Callback i key) m)) as (Hd & _ & Hn).
    eapply mirrored_ext; [| | |exact Hm]; [|exact Hd|exact Hn].
    now rewrite pluginList_refresh.
  - apply apply_and_save_mirrors; [exact Hu|exact Hc|now apply mirrored_others].
  - now apply openPluginSettings_mirrors.
  - exact Hm.
  - now apply toggleSettingVisibility_mirrors.
  - exact (proj2 (proj2 (registerPlugins_stored m Hu))).
Qed.

(** X11. With unique plugin names, in every state the manager reaches once
    its plugins are registered, the store holds under the name of each
    registered plugin the snapshot of the plugin as it is in memory: every
    key of the plugin with the value the setting has now.  No event of the
    panel leaves a value in memory that the store does not have. *)
Theorem store_mirrors_settings (m : SettingsManager) :
  running m -> unique_names m -> mirrored m.
Proof.
  induction 1 as [m|a m Hrun IH]; intros Hu.
  - assert (Hu0 : unique_names m)
      by (eapply same_declarations_unique;
          [apply same_declarations_registerPlugins|exact Hu]).
    exact (proj2 (proj2 (registerPlugins_stored m Hu0))).
  - assert (Hu0 : unique_names m).
    { eapply same_declarations_unique; [|exact Hu].
      apply perform_same_declarations. }
    apply perform_mirrors; auto using running_coherent.
Qed.

Lemma example_opened_unique_names : unique_names Example.opened.
Proof.
  exact (unique_same_declarations Example.returning Example.opened
           (same_declarations_trans Example.returning Example.installed
              Example.opened
              (same_declarations_registerPlugins Example.returning)
              (same_declarations_open 0 Example.installed))
           example_unique_names).
Qed.

Lemma store_mirrors_settings_witness :
  running Example.opened
  /\ unique_names Example.opened
  /\ stored_entry Example.opened "Alerts"
     = Some [("enable", VBool true); ("volume", VNum (Finite (7 # 1)));
             ("offset", VNum (Finite (1 # 2))); ("mode", VStr "a");
             ("label", VStr "hp"); ("sound", VBool true)].
Proof.
  assert (R : running Example.opened)
    by exact (running_performed (ClickCog 0) Example.installed
                (running_registered Example.returning)).
  split; [exact R|]. split; [exact example_opened_unique_names|].
  generalize (store_mirrors_settings Example.opened R
                example_opened_unique_names 0).
  vm_compute.
  intros H.
  exact (H _ eq_refl).
Defined.

(** ** Registration and the entries of the store *)

Lemma stored_entry_same_store m m' name :
  same_store m m' -> stored_entry m' name = stored_entry m name.
Proof.
  intros (Hd & _ & Hu). unfold stored_entry. now rewrite Hd, Hu.
Qed.

Lemma load_phase_record m :
  let mL := load_settings (read_store m) in
  database mL = database m
  /\ username mL = username m
  /\ current_record mL
     = match Obj.get (database m) (username m) with
       | Some r => r
       | None => []
       end.
Proof.
  intros mL.
  destruct (same_store_load_settings (read_store m)) as (Hd & Hs & Hu).
  fold mL in Hd, Hs, Hu. simpl in Hd, Hs, Hu.
  unfold current_record. now rewrite Hs.
Qed.

(** X12. [registerPlugins] keeps what the store holds under a name that no
    registered plugin bears: the entry of a plugin that is not installed
    any more is carried over, key by key, into the record written back. *)
Theorem registerPlugins_keeps_foreign_entries (m : SettingsManager)
    (name : string) :
  ~ In name (map pluginName (pluginList m)) ->
  stored_entry (registerPlugins m) name = stored_entry m name.
Proof.
  intros Hn. unfold registerPlugins.
  destruct (load_phase_record m) as (Hd & Hu & Hr).
  set (mL := load_settings (read_store m)) in *.
  assert (Hnames : map pluginName (pluginList mL) = map pluginName (pluginList m)).
  { apply (same_declarations_names m mL).
    eapply same_declarations_trans with (m2 := read_store m);
      [apply same_declarations_list; reflexivity
      |apply same_declarations_load_settings]. }
  destruct (write_back_spec mL) as (_ & _ & _ & _ & W5 & W6).
  destruct (pluginList mL) as [|q l] eqn:EL.
  - rewrite (W5 eq_refl). unfold stored_entry. now rewrite Hd, Hu.
  - destruct W6 as [_ W8]; [discriminate|].
    unfold stored_entry at 1. rewrite W8.
    assert (Hu' : username (write_back mL) = username mL)
      by apply (write_back_spec mL).
    rewrite Hu', get_set_same, record_after_other by (rewrite Hnames; exact Hn).
    rewrite Hr. unfold stored_entry.
    now destruct (Obj.get (database m) (username m)).
Qed.

Lemma registerPlugins_keeps_foreign_entries_witness :
  stored_entry Example.returning "Removed" = Some [("enable", VBool true)]
  /\ stored_entry (registerPlugins Example.returning) "Removed"
     = Some [("enable", VBool true)].
Proof.
  split; [reflexivity|].
  rewrite (registerPlugins_keeps_foreign_entries Example.returning "Removed").
  - reflexivity.
  - simpl. intros [H|[H|[]]]; discriminate.
Defined.

(** X13. An accepted write survives a restart.  When a handler has accepted
    the value [v] for a setting, a manager started later over the same
    store for the same user, with plugins declared afresh and under unique
    names, gives [v] to the setting of that key of the plugin of that name
    when it registers its plugins, whatever default the setting was
    declared with. *)
Theorem accepted_write_survives_restart (m m' : SettingsManager) (i : nat)
    (key : string) (v : JSValue) (p' : Plugin)
    (restarted : SettingsManager) (j : nat) (q : Plugin) (s : PluginSettings) :
  accepted m m' i key v ->
  nth_error (pluginList m') i = Some p' ->
  is_undefined v = false ->
  database restarted = database m' ->
  username restarted = username m ->
  unique_names restarted ->
  nth_error (pluginList restarted) j = Some q ->
  pluginName q = pluginName p' ->
  settings_get q key = Some s ->
  value_at (registerPlugins restarted) j key = Some v.
Proof.
  intros (p0 & r & Hp0 & _ & _ & Hr & Hdb & Hsnap) Hp' Hv Hd Hu Hnd Hq Hname Hs.
  rewrite Hp' in Hp0. injection Hp0 as <-.
  assert (Hst : stored_value restarted (pluginName q) key = Some v).
  { unfold stored_value, record_value.
    rewrite Hd, Hu, Hdb, Hname, Hr, Hsnap, Hv. reflexivity. }
  destruct (load_settings_shape restarted Hnd) as (_ & _ & _ & Hload).
  destruct (Hload j q Hq) as (pL & HpL & _ & _ & Hget).
  unfold registerPlugins. rewrite write_back_value_at.
  unfold value_at, setting_at. rewrite HpL, Hget, Hs, Hst. reflexivity.
Qed.

Lemma restarted_unique_names : unique_names Restart.restarted.
Proof.
  unfold unique_names. 
  change (NoDup ["Alerts"; "Lookup"]).
  repeat constructor; simpl; intuition discriminate.
Defined.

Lemma accepted_write_survives_restart_witness :
  accepted Example.installed Restart.louder 0 "volume" (VNum (Finite (10 # 1)))
  /\ settings_get Example.alerts "volume" = Some Example.volume
  /\ value Example.volume = VNum (Finite (5 # 1))
  /\ value_at (registerPlugins Restart.restarted) 0 "volume"
     = Some (VNum (Finite (10 # 1))).
Proof.
  assert (A : accepted Example.installed Restart.louder 0 "volume"
                       (VNum (Finite (10 # 1)))).
  { exact (proj2 (range_change_accepted Example.installed 0 "volume"
                    (Some (10 # 1)%Q)
                    (make_reactive
                       (settings_adjust (with_value (VNum (Finite (7 # 1))))
                                        Example.alerts "volume"))
                    (with_proxy (with_value (VNum (Finite (7 # 1))) Example.volume))
                    eq_refl eq_refl eq_refl eq_refl)). }
  split; [exact A|]. split; [reflexivity|]. split; [reflexivity|].
  assert (P : exists p', nth_error (pluginList Restart.louder) 0 = Some p'
                     /\ pluginName Example.alerts = pluginName p').
  { vm_compute. eexists. split; reflexivity. }
  destruct P as (p' & P1 & P2).
  assert (D : database Restart.restarted = database Restart.louder) by reflexivity.
  assert (U : username Restart.restarted = username Example.installed) by reflexivity.
  exact (accepted_write_survives_restart Example.installed Restart.louder 0
           "volume" (VNum (Finite (10 # 1))) p'
           Restart.restarted 0 Example.alerts Example.volume
           A P1 eq_refl D U restarted_unique_names eq_refl P2 eq_refl).
Defined.

(** ** More on the handlers *)

Lemma out_of_bounds_NaN setting : out_of_bounds setting NaN = false.
Proof.
  unfold out_of_bounds, num_gt. cbv zeta.
  now rewrite num_lt_NaN_l, num_lt_NaN_r.
Qed.

(** X14. Declared bounds do not stop an empty input.  Whatever [min] and
    [max] a range setting declares, an input that is empty or not a number
    gives the candidate [NaN], which is below no minimum and above no
    maximum; unless a validator objects, [NaN] becomes the value of the
    setting, the callback is called and [NaN] is stored. *)
Theorem range_accepts_empty_input (m : SettingsManager) (i : nat)
    (key : string) (p : Plugin) (setting : PluginSettings) :
  nth_error (pluginList m) i = Some p ->
  settings_get p key = Some setting ->
  rejected setting (VNum NaN) = false ->
  out_of_bounds setting NaN = false
  /\ accepted m (range_change i key None m) i key (VNum NaN).
Proof.
  intros Hp Hs Hr. split; [apply out_of_bounds_NaN|].
  apply (range_change_accepted m i key None p setting Hp Hs);
    [apply out_of_bounds_NaN|exact Hr].
Qed.

Lemma range_accepts_empty_input_witness :
  min Example.volume = Some (Finite (0 # 1))
  /\ max Example.volume = Some (Finite (10 # 1))
  /\ accepted Example.fresh (range_change 0 "volume" None Example.fresh)
              0 "volume" (VNum NaN).
Proof.
  split; [reflexivity|]. split; [reflexivity|].
  exact (proj2 (range_accepts_empty_input Example.fresh 0 "volume"
                  Example.alerts Example.volume eq_refl eq_refl eq_refl)).
Defined.

Lemma setting_at_apply_and_save i key v after m j key' :
  j <> i \/ key' <> key ->
  setting_at (apply_and_save i key v after m) j key' = setting_at m j key'.
Proof.
  intros Hne. unfold setting_at, apply_and_save, store_plugin, adjust_setting.
  simpl.
  assert (E : nth_error (update_nth (fun plugin => settings_adjust (with_value v) plugin key)
                           (pluginList m) i) j
              = option_map (fun plugin => if Nat.eqb i j
                                          then settings_adjust (with_value v) plugin key
                                          else plugin)
                           (nth_error (pluginList m) j)).
  { destruct (Nat.eqb_spec i j) as [<-|N].
    - apply nth_error_update_nth_same.
    - rewrite nth_error_update_nth_other by exact N.
      now destruct (nth_error (pluginList m) j). }
  match goal with
  | |- context [nth_error (pluginList ?x) j] =>
      assert (L : pluginList x
                  = update_nth (fun plugin => settings_adjust (with_value v) plugin key)
                               (pluginList m) i)
  end.
  { destruct (nth_error (update_nth _ (pluginList m) i) i); reflexivity. }
  rewrite L, E. destruct (nth_error (pluginList m) j) as [q|]; [|reflexivity].
  simpl. destruct (Nat.eqb_spec i j) as [<-|N]; [|reflexivity].
  destruct Hne as [Hne|Hne]; [contradiction|].
  apply settings_get_adjust_other. congruence.
Qed.

(** X15. A write through a control touches one setting.  Whatever the
    control of the setting [key] of the plugin at [i] does with a
    candidate, every setting of every other plugin and every other setting
    of the same plugin is afterwards exactly what it was: value, flags and
    all. *)
Theorem user_write_frame (m : SettingsManager) (i : nat) (key : string)
    (candidate : JSValue) (j : nat) (key' : string) :
  j <> i \/ key' <> key ->
  setting_at (user_write i key candidate m) j key' = setting_at m j key'.
Proof.
  intros Hne. unfold user_write.
  destruct (setting_at m i key) as [s|]; [|reflexivity].
  destruct (String.eqb_spec key enable_key) as [->|_].
  - destruct candidate; try reflexivity.
    rewrite enable_change_eq. now apply setting_at_apply_and_save.
  - destruct (type s), candidate as [|b|[| |x|]|c]; try reflexivity.
    + unfold checkbox_change. destruct (setting_at m i key) as [s0|]; [|reflexivity].
      destruct (rejected s0 _); [reflexivity|].
      now apply setting_at_apply_and_save.
    + unfold range_change. destruct (setting_at m i key) as [s0|]; [|reflexivity].
      cbv zeta. destruct (out_of_bounds s0 _); [reflexivity|].
      destruct (rejected s0 _); [reflexivity|].
      now apply setting_at_apply_and_save.
    + unfold range_change. destruct (setting_at m i key) as [s0|]; [|reflexivity].
      cbv zeta. destruct (out_of_bounds s0 _); [reflexivity|].
      destruct (rejected s0 _); [reflexivity|].
      now apply setting_at_apply_and_save.
    + unfold color_change. destruct (setting_at m i key) as [s0|]; [|reflexivity].
      destruct (rejected s0 _); [reflexivity|].
      now apply setting_at_apply_and_save.
    + unfold text_change. destruct (setting_at m i key) as [s0|]; [|reflexivity].
      destruct (rejected s0 _); [reflexivity|].
      now apply setting_at_apply_and_save.
    + now apply setting_at_apply_and_save.
Qed.

Lemma user_write_frame_witness :
  setting_at (user_write 0 "mode" (VStr "b") Example.opened) 0 "volume"
  = setting_at Example.opened 0 "volume".
Proof.
  apply (user_write_frame Example.opened 0 "mode" (VStr "b") 0 "volume").
  right. discriminate.
Defined.

(** ** Refreshing the rows *)

Lemma id_fade_out e : id (fade_out e) = id e.
Proof. reflexivity. Qed.

Lemma id_show_flex e : id (show_flex e) = id e.
Proof. reflexivity. Qed.

Lemma find_update_first rid f l rid' :
  (forall e, id (f e) = id e) ->
  find (fun e => String.eqb (id e) rid') (update_first rid f l)
  = if String.eqb rid rid'
    then option_map f (find (fun e => String.eqb (id e) rid') l)
    else find (fun e => String.eqb (id e) rid') l.
Proof.
  intros Hf. induction l as [|e l IH]; simpl.
  - now destruct (String.eqb rid rid').
  - destruct (String.eqb_spec (id e) rid) as [E|N]; simpl.
    + subst rid. rewrite Hf. now destruct (String.eqb (id e) rid').
    + rewrite IH. destruct (String.eqb_spec (id e) rid') as [E'|N'].
      * destruct (String.eqb_spec rid rid') as [->|]; [contradiction|reflexivity].
      * reflexivity.
Qed.

Lemma getElementById_update_element rid f m rid' :
  (forall e, id (f e) = id e) ->
  getElementById (update_element rid f m) rid'
  = if String.eqb rid rid'
    then option_map f (getElementById m rid')
    else getElementById m rid'.
Proof.
  intros Hf. unfold getElementById, update_element, document_elements.
  destruct (currentView m) eqn:V; simpl; try rewrite V.
  - now apply find_update_first.
  - destruct (pluginSettingsView m) as [v|]; simpl.
    + now apply find_update_first.
    + now destruct (String.eqb rid rid').
Qed.

Lemma setting_at_refresh_row i m k j key :
  setting_at (refresh_row i m k) j key = setting_at m j key.
Proof. unfold setting_at. now rewrite pluginList_refresh_row. Qed.

(** The row a setting owns ends up in the state its [hidden] flag asks
    for; [settle] is what the loop does to it. *)
Lemma visibility_row_get i m k key s :
  key <> enable_key ->
  setting_at m i key = Some s ->
  getElementById (refresh_row i m k) (row_id key)
  = if String.eqb k key
    then option_map (if truthy (hidden s) then fade_out else show_flex)
                    (getElementById m (row_id key))
    else getElementById m (row_id key).
Proof.
  intros Hk Hs. unfold refresh_row.
  destruct (String.eqb_spec k key) as [->|N].
  - destruct (String.eqb_spec key enable_key); [contradiction|].
    rewrite Hs. destruct (getElementById m (row_id key)) as [e|] eqn:G;
      [|now rewrite G].
    destruct (truthy (hidden s)).
    + change (getElementById (update_element (row_id key) fade_out m) (row_id key)
              = Some (fade_out e)).
      rewrite getElementById_update_element by apply id_fade_out.
      now rewrite String.eqb_refl, G.
    + destruct (display e) eqn:D.
      * rewrite G. simpl. unfold show_flex. rewrite <- D. now destruct e.
      * change (getElementById (update_element (row_id key) show_flex m) (row_id key)
                = Some (show_flex e)).
        rewrite getElementById_update_element by apply id_show_flex.
        now rewrite String.eqb_refl, G.
  - assert (Hne : String.eqb (row_id k) (row_id key) = false).
    { apply String.eqb_neq. intros E. apply row_id_inj in E. contradiction. }
    destruct (String.eqb k enable_key); [reflexivity|].
    destruct (setting_at m i k) as [s0|]; [|reflexivity].
    destruct (getElementById m (row_id k)) as [e0|]; [|reflexivity].
    destruct (truthy (hidden s0)).
    + change (getElementById (update_element (row_id k) fade_out m) (row_id key)
              = getElementById m (row_id key)).
      rewrite getElementById_update_element by apply id_fade_out. now rewrite Hne.
    + destruct (display e0); [reflexivity|].
      change (getElementById (update_element (row_id k) show_flex m) (row_id key)
              = getElementById m (row_id key)).
      rewrite getElementById_update_element by apply id_show_flex. now rewrite Hne.
Qed.

Lemma settle_twice (h : bool) e :
  (if h then fade_out else show_flex) ((if h then fade_out else show_flex) e)
  = (if h then fade_out else show_flex) e.
Proof. now destruct h. Qed.

Lemma visibility_fold_get i key s e :
  key <> enable_key ->
  forall ks m,
    setting_at m i key = Some s ->
    getElementById m (row_id key) = Some e ->
    getElementById (fold_left (refresh_row i) ks m) (row_id key)
    = Some (if existsb (String.eqb key) ks
            then (if truthy (hidden s) then fade_out else show_flex) e
            else e).
Proof.
  intros Hk ks. revert e.
  induction ks as [|k ks IH]; intros e m Hs G; simpl; [exact G|].
  pose proof (visibility_row_get i m k key s Hk Hs) as R. rewrite G in R.
  assert (Hs' : setting_at (refresh_row i m k) i key = Some s)
    by (now rewrite setting_at_refresh_row).
  rewrite (String.eqb_sym key k).
  destruct (String.eqb k key); simpl in *.
  - rewrite (IH _ _ Hs' R), settle_twice. now destruct (existsb _ ks).
  - exact (IH _ _ Hs' R).
Qed.

(** X16. After [refreshPluginSettingsVisibility] the row of every setting of
    the plugin agrees with the [hidden] flag of the setting: the row of a
    hidden setting is faded out, with its [display] left to the timer, and
    the row of a visible setting is displayed as [flex]; nothing else about
    the row changes. *)
Theorem refreshPluginSettingsVisibility_settles (m : SettingsManager)
    (i : nat) (p : Plugin) (key : string) (s : PluginSettings) (e : Element) :
  nth_error (pluginList m) i = Some p ->
  key <> enable_key ->
  settings_get p key = Some s ->
  getElementById m (row_id key) = Some e ->
  getElementById (refreshPluginSettingsVisibility i m) (row_id key)
  = Some (if truthy (hidden s) then fade_out e else show_flex e).
Proof.
  intros Hp Hk Hs G. unfold refreshPluginSettingsVisibility. rewrite Hp.
  assert (Hs' : setting_at m i key = Some s)
    by (unfold setting_at; now rewrite Hp).
  rewrite (visibility_fold_get i key s e Hk (settings_keys p) m Hs' G).
  replace (existsb (String.eqb key) (settings_keys p)) with true.
  - now destruct (truthy (hidden s)).
  - symmetry. apply existsb_exists. exists key. split.
    + eapply settings_get_in_keys; eauto.
    + apply String.eqb_refl.
Qed.

Lemma log_update_element rid f m : log (update_element rid f m) = log m.
Proof. unfold update_element. now destruct (currentView m). Qed.

Lemma log_refresh i m : log (refreshPluginSettingsVisibility i m) = log m.
Proof.
  unfold refreshPluginSettingsVisibility.
  destruct (nth_error (pluginList m) i) as [p|]; [|reflexivity].
  generalize (settings_keys p) as ks. intros ks. revert m.
  induction ks as [|k ks IH]; intros m; simpl; [reflexivity|].
  rewrite IH. unfold refresh_row.
  destruct (String.eqb k enable_key); [reflexivity|].
  destruct (setting_at m i k) as [s|]; [|reflexivity].
  destruct (getElementById m (row_id k)) as [e|]; [|reflexivity].
  destruct (truthy (hidden s)); [apply log_update_element|].
  destruct (display e); [reflexivity|apply log_update_element].
Qed.

(** X17. A button stores nothing.  Its click calls the callback of the
    setting, once, and refreshes the rows; the settings of every plugin,
    the store and the record in memory are what they were, and the call is
    the only thing the click adds to the trace.  Neither the validator nor
    the [disabled] flag of the setting is looked at. *)
Theorem button_click_frame (i : nat) (key : string) (m : SettingsManager) :
  pluginList (button_click i key m) = pluginList m
  /\ same_store m (button_click i key m)
  /\ log (button_click i key m) = log m ++ [Callback i key].
Proof.
  unfold button_click. split; [|split].
  - now rewrite pluginList_refresh.
  - apply (same_store_refresh i (emit (Callback i key) m)).
  - now rewrite log_refresh.
Qed.

Lemma refreshPluginSettingsVisibility_settles_witness :
  getElementById (write_hidden 0 "sound" (Some true) Example.opened)
                 (row_id "sound")
  = Some (mkElement (row_id "sound") flex false)
  /\ getElementById
       (refreshPluginSettingsVisibility 0
          (write_hidden 0 "sound" (Some true) Example.opened))
       (row_id "sound")
     = Some (mkElement (row_id "sound") flex true).
Proof.
  set (m := write_hidden 0 "sound" (Some true) Example.opened).
  assert (G : getElementById m (row_id "sound")
              = Some (mkElement (row_id "sound") flex false))
    by (vm_compute; reflexivity).
  split; [exact G|].
  assert (P : exists p s, nth_error (pluginList m) 0 = Some p
                          /\ settings_get p "sound" = Some s
                          /\ truthy (hidden s) = true).
  { vm_compute. do 2 eexists. repeat split; reflexivity. }
  destruct P as (p & s & P1 & P2 & P3).
  assert (N : "sound" <> enable_key) by discriminate.
  rewrite (refreshPluginSettingsVisibility_settles m 0 p "sound" s _ P1 N P2 G).
  now rewrite P3.
Defined.

(** ** Opening a detail view twice *)

Lemma setting_at_adjust i k f m j key :
  setting_at (adjust_setting i k f m) j key
  = if Nat.eqb i j && String.eqb k key
    then option_map f (setting_at m j key)
    else setting_at m j key.
Proof.
  unfold setting_at, adjust_setting. simpl.
  destruct (Nat.eqb_spec i j) as [<-|N]; simpl.
  - rewrite nth_error_update_nth_same.
    destruct (nth_error (pluginList m) i) as [p|]; simpl;
      [|now destruct (String.eqb k key)].
    destruct (String.eqb_spec k key) as [<-|N].
    + apply settings_get_adjust_same.
    + now apply settings_get_adjust_other.
  - now rewrite nth_error_update_nth_other.
Qed.

Lemma pluginList_apply_and_save i key v after m :
  pluginList (apply_and_save i key v after m)
  = pluginList (adjust_setting i key (with_value v) m).
Proof.
  unfold apply_and_save, store_plugin. simpl.
  now destruct (nth_error _ i).
Qed.

Lemma setting_at_apply_and_save_eq i key v after m j key' :
  setting_at (apply_and_save i key v after m) j key'
  = setting_at (adjust_setting i key (with_value v) m) j key'.
Proof. unfold setting_at. now rewrite pluginList_apply_and_save. Qed.

Lemma open_step_unfold i m k :
  open_step i m k
  = if String.eqb k enable_key then m
    else match setting_at m i k with
         | Some s => build_control i k s m
         | None => m
         end.
Proof.
  unfold open_step, open_row. simpl.
  destruct (String.eqb k enable_key); [reflexivity|].
  now destruct (setting_at m i k).
Qed.

(** What a turn of the loop does to the settings: nothing, or the value of
    the setting of the turn becomes its first option. *)
Lemma setting_at_open_step i m k j key :
  setting_at (open_step i m k) j key = setting_at m j key
  \/ exists s first rest,
       j = i /\ key = k /\ k <> enable_key
       /\ setting_at m i k = Some s
       /\ type s = SettingsTypes.combobox
       /\ options s = Some (first :: rest)
       /\ needs_reset (value s) (first :: rest) = true
       /\ setting_at (open_step i m k) j key = Some (with_value (VStr first) s).
Proof.
  rewrite open_step_unfold.
  destruct (String.eqb_spec k enable_key) as [|Hk]; [now left|].
  destruct (setting_at m i k) as [s|] eqn:Hs; [|now left].
  unfold build_control.
  destruct (type s) eqn:Ht; try (now left).
  unfold build_combobox.
  destruct (options s) as [[|first rest]|] eqn:Ho; try (now left).
  destruct (needs_reset (value s) (first :: rest)) eqn:Hr; [|now left].
  unfold combobox_change.
  rewrite setting_at_apply_and_save_eq, !setting_at_adjust.
  destruct (Nat.eqb_spec i j) as [<-|]; [|now left].
  destruct (String.eqb_spec k key) as [<-|]; [|now left].
  simpl. right. exists s, first, rest. rewrite Hs. simpl.
  repeat split; auto.
Qed.

Lemma detail_row_open_step i m k key :
  detail_row i (open_step i m k) key = detail_row i m key.
Proof.
  unfold detail_row. destruct (String.eqb key enable_key); [reflexivity|].
  destruct (setting_at_open_step i m k i key)
    as [->|(s & first & rest & _ & -> & _ & Hs & _ & _ & _ & ->)];
    [reflexivity|].
  now rewrite Hs.
Qed.

Lemma open_row_unfold i m rows k :
  open_row i (m, rows) k = (open_step i m k, rows ++ detail_row i m k).
Proof.
  rewrite open_step_unfold. unfold open_row, detail_row. simpl.
  destruct (String.eqb k enable_key); [now rewrite app_nil_r|].
  destruct (setting_at m i k); [reflexivity|now rewrite app_nil_r].
Qed.

Lemma detail_row_fold i key ks :
  forall m, detail_row i (fold_left (open_step i) ks m) key = detail_row i m key.
Proof.
  induction ks as [|k ks IH]; intros m; simpl; [reflexivity|].
  now rewrite IH, detail_row_open_step.
Qed.

(** The rows of the new view are those the final state of the settings
    would give. *)
Lemma fold_open_row i ks :
  forall m rows,
    fold_left (open_row i) ks (m, rows)
    = (fold_left (open_step i) ks m,
       rows ++ flat_map (detail_row i (fold_left (open_step i) ks m)) ks).
Proof.
  induction ks as [|k ks IH]; intros m rows; simpl.
  - now rewrite app_nil_r.
  - rewrite open_row_unfold, IH, <- app_assoc. do 2 f_equal.
    now rewrite detail_row_fold, detail_row_open_step.
Qed.

Lemma settled_open_step_same i m k :
  k <> enable_key -> settled (open_step i m k) i k.
Proof.
  intros Hk s' first' rest' Hs' Ht' Ho'.
  rewrite open_step_unfold in Hs'.
  destruct (String.eqb_spec k enable_key); [contradiction|].
  destruct (setting_at m i k) as [s|] eqn:Hs; [|congruence].
  unfold build_control in Hs'.
  destruct (type s) eqn:Ht;
    try (rewrite Hs in Hs'; injection Hs' as <-; congruence).
  unfold build_combobox in Hs'.
  destruct (options s) as [[|first rest]|] eqn:Ho;
    try (rewrite Hs in Hs'; injection Hs' as <-; congruence).
  destruct (needs_reset (value s) (first :: rest)) eqn:Hr.
  - unfold combobox_change in Hs'.
    rewrite setting_at_apply_and_save_eq, !setting_at_adjust in Hs'.
    rewrite Nat.eqb_refl, String.eqb_refl, Hs in Hs'. simpl in Hs'.
    injection Hs' as <-. simpl in *. rewrite Ho in Ho'. injection Ho' as <- <-.
    apply needs_reset_first.
  - rewrite Hs in Hs'. injection Hs' as <-.
    rewrite Ho in Ho'. injection Ho' as <- <-. exact Hr.
Qed.

Lemma settled_open_step_other i m k key :
  settled m i key -> settled (open_step i m k) i key.
Proof.
  intros H.
  destruct (setting_at_open_step i m k i key)
    as [E|(s & first & rest & _ & -> & Hk & _)].
  - intros s' first' rest'. rewrite E. apply H.
  - now apply settled_open_step_same.
Qed.

Lemma settled_fold i key ks :
  forall m,
    key <> enable_key ->
    In key ks \/ settled m i key ->
    settled (fold_left (open_step i) ks m) i key.
Proof.
  induction ks as [|k ks IH]; intros m Hk H; simpl.
  - destruct H as [[]|H]. exact H.
  - apply IH; [exact Hk|]. destruct H as [[->|H]|H].
    + right. now apply settled_open_step_same.
    + now left.
    + right. now apply settled_open_step_other.
Qed.

(** With nothing to repair a turn of the loop leaves the manager alone. *)
Lemma open_step_settled i m k :
  (k <> enable_key -> settled m i k) -> open_step i m k = m.
Proof.
  intros H. rewrite open_step_unfold.
  destruct (String.eqb_spec k enable_key) as [|Hk]; [reflexivity|].
  destruct (setting_at m i k) as [s|] eqn:Hs; [|reflexivity].
  unfold build_control. destruct (type s) eqn:Ht; try reflexivity.
  unfold build_combobox.
  destruct (options s) as [[|first rest]|] eqn:Ho; try reflexivity.
  now rewrite (H Hk s first rest Hs Ht Ho).
Qed.

Lemma fold_open_step_settled i ks :
  forall m,
    (forall k, In k ks -> k <> enable_key -> settled m i k) ->
    fold_left (open_step i) ks m = m.
Proof.
  induction ks as [|k ks IH]; intros m H; simpl; [reflexivity|].
  rewrite open_step_settled by (apply H; now left).
  apply IH. intros k' Hin. apply H. now right.
Qed.

Lemma settled_ext m m' i key :
  pluginList m' = pluginList m -> settled m i key -> settled m' i key.
Proof.
  intros E H s first rest. unfold setting_at. rewrite E. apply H.
Qed.

Lemma detail_row_ext m m' i key :
  pluginList m' = pluginList m -> detail_row i m' key = detail_row i m key.
Proof. intros E. unfold detail_row, setting_at. now rewrite E. Qed.

Lemma declaration_keys p q :
  declaration p = declaration q -> settings_keys p = settings_keys q.
Proof.
  assert (E : forall r, settings_keys r = enable_key :: map fst (snd (declaration r))).
  { intros r. unfold settings_keys, Obj.keys, declaration. simpl.
    now rewrite map_map. }
  intros H. now rewrite (E p), (E q), H.
Qed.

Lemma openPluginSettings_eq i m p :
  nth_error (pluginList m) i = Some p ->
  let mf := fold_left (open_step i) (settings_keys p) m in
  openPluginSettings i m
  = with_views (mainSettingsView mf)
               (Some (holder :: flat_map (detail_row i mf) (settings_keys p)))
               PluginView mf.
Proof.
  intros Hp mf. unfold openPluginSettings. rewrite Hp. cbv zeta.
  rewrite fold_open_row. reflexivity.
Qed.

Lemma openPluginSettings_settled i m p :
  nth_error (pluginList m) i = Some p ->
  (forall k, In k (settings_keys p) -> k <> enable_key -> settled m i k) ->
  openPluginSettings i m
  = with_views (mainSettingsView m)
               (Some (holder :: flat_map (detail_row i m) (settings_keys p)))
               PluginView m.
Proof.
  intros Hp H. rewrite (openPluginSettings_eq i m p Hp). cbv zeta.
  now rewrite (fold_open_step_settled i (settings_keys p) m H).
Qed.

(** X18. Opening the detail view of a plugin again changes nothing, be it
    straight away or after going back to the main view.  The first opening
    repairs the comboboxes; a second one finds nothing to repair, calls no
    callback, writes nothing to the store and builds the same rows: the
    manager is exactly as the first opening left it. *)
Theorem openPluginSettings_twice (i : nat) (m : SettingsManager) (p : Plugin) :
  nth_error (pluginList m) i = Some p ->
  openPluginSettings i (openPluginSettings i m) = openPluginSettings i m
  /\ openPluginSettings i (back_click (openPluginSettings i m))
     = openPluginSettings i m.
Proof.
  intros Hp.
  rewrite (openPluginSettings_eq i m p Hp). cbv zeta.
  set (mf := fold_left (open_step i) (settings_keys p) m).
  set (rows := flat_map (detail_row i mf) (settings_keys p)).
  set (m1 := with_views (mainSettingsView mf) (Some (holder :: rows))
                        PluginView mf).
  assert (Hd : same_declarations m mf).
  { apply same_declarations_fold. intros. apply same_declarations_open_step. }
  assert (Hpf : exists pf, nth_error (pluginList mf) i = Some pf
                           /\ settings_keys pf = settings_keys p).
  { unfold same_declarations in Hd.
    assert (E : nth_error (map declaration (pluginList mf)) i
                = nth_error (map declaration (pluginList m)) i)
      by now rewrite Hd.
    rewrite !nth_error_map, Hp in E.
    destruct (nth_error (pluginList mf) i) as [pf|]; [|discriminate].
    exists pf. split; [reflexivity|]. simpl in E.
    apply declaration_keys. congruence. }
  destruct Hpf as (pf & Hpf & Hkeys).
  assert (Again : forall m',
             pluginList m' = pluginList mf ->
             openPluginSettings i m'
             = with_views (mainSettingsView m') (Some (holder :: rows))
                          PluginView m').
  { intros m' Hl.
    rewrite (openPluginSettings_settled i m' pf).
    - rewrite Hkeys. do 3 f_equal. unfold rows. apply flat_map_ext.
      intros k. now apply detail_row_ext.
    - now rewrite Hl.
    - rewrite Hkeys. intros k Hin Hk. apply (settled_ext mf m' i k Hl).
      apply settled_fold; [exact Hk|now left]. }
  split; rewrite Again; reflexivity.
Qed.

Lemma openPluginSettings_twice_witness :
  log Example.opened <> log Example.installed
  /\ openPluginSettings 0 Example.opened = Example.opened
  /\ openPluginSettings 0 (back_click Example.opened) = Example.opened.
Proof.
  split; [vm_compute; discriminate|].
  assert (P : exists p, nth_error (pluginList Example.installed) 0 = Some p)
    by (vm_compute; eexists; reflexivity).
  destruct P as (p & P).
  exact (openPluginSettings_twice 0 Example.installed p P).
Defined.

(** ** Proxy layers *)

Lemma count_occ_keys p key :
  NoDup (settings_keys p) -> In key (settings_keys p) ->
  count_occ string_dec (settings_keys p) key = 1.
Proof. intros Hnd Hin. now apply NoDup_count_occ'. Qed.

(** One registration adds one layer to every setting but [enable]. *)
Lemma registerPlugins_wraps m i p key s :
  unique_names m ->
  nth_error (pluginList m) i = Some p ->
  NoDup (settings_keys p) ->
  key <> enable_key ->
  settings_get p key = Some s ->
  exists p' s',
    nth_error (pluginList (registerPlugins m)) i = Some p'
    /\ settings_keys p' = settings_keys p
    /\ settings_get p' key = Some s'
    /\ proxies s' = S (proxies s)
    /\ hidden s' = hidden s.
Proof.
  intros Hu Hp Hnd Hk Hs.
  destruct (load_settings_shape m Hu) as (_ & _ & _ & Hload).
  destruct (Hload i p Hp) as (pL & HpL & _ & Hkeys & Hget).
  destruct (write_back_spec (load_settings (read_store m))) as (W1 & _).
  unfold registerPlugins.
  exists (make_reactive pL).
  rewrite W1, nth_error_map, HpL, make_reactive_keys, make_reactive_get.
  assert (Hin : In key (settings_keys pL))
    by (rewrite Hkeys; eapply settings_get_in_keys; eauto).
  rewrite <- Hkeys in Hnd.
  apply String.eqb_neq in Hk. rewrite Hk, (count_occ_keys pL key Hnd Hin).
  rewrite Hget, Hs. cbn [option_map Nat.iter nat_rect].
  eexists. split; [reflexivity|]. split; [exact Hkeys|]. split; [reflexivity|].
  now destruct (stored_value m (pluginName p) key).
Qed.

Lemma iter_registerPlugins_wraps m i p key s :
  unique_names m ->
  nth_error (pluginList m) i = Some p ->
  NoDup (settings_keys p) ->
  key <> enable_key ->
  settings_get p key = Some s ->
  forall n,
    unique_names (Nat.iter n registerPlugins m)
    /\ exists p' s',
        nth_error (pluginList (Nat.iter n registerPlugins m)) i = Some p'
        /\ settings_keys p' = settings_keys p
        /\ settings_get p' key = Some s'
        /\ proxies s' = n + proxies s
        /\ hidden s' = hidden s.
Proof.
  intros Hu Hp Hnd Hk Hs. induction n as [|n (Hun & p' & s' & Hp' & Hk' & Hs' & Hpr & Hh)].
  - split; [exact Hu|]. exists p, s. repeat split; auto.
  - simpl. split.
    + eapply unique_same_declarations;
        [apply same_declarations_registerPlugins|exact Hun].
    + rewrite <- Hk' in Hnd.
      destruct (registerPlugins_wraps _ i p' key s' Hun Hp' Hnd Hk Hs')
        as (p2 & s2 & H1 & H2 & H3 & H4 & H5).
      exists p2, s2. repeat split; auto; congruence.
Qed.

(** X19. Every registration wraps the settings once more.  After [n] runs
    of [registerPlugins] a setting other than [enable] carries [n] proxy
    layers on top of those it had, and each layer answers a change of its
    [hidden] flag on its own: one assignment of a new value queues [n]
    refreshes of the rows instead of one. *)
Theorem registerPlugins_stacks_proxies (m : SettingsManager) (n i : nat)
    (p : Plugin) (key : string) (s : PluginSettings) (v : option bool) :
  unique_names m ->
  nth_error (pluginList m) i = Some p ->
  NoDup (settings_keys p) ->
  key <> enable_key ->
  settings_get p key = Some s ->
  flag_eqb (hidden s) v = false ->
  let m' := Nat.iter n registerPlugins m in
  tasks (write_hidden i key v m')
  = tasks m' ++ repeat (RefreshVisibility i) (n + proxies s).
Proof.
  intros Hu Hp Hnd Hk Hs Hv m'.
  destruct (iter_registerPlugins_wraps m i p key s Hu Hp Hnd Hk Hs n)
    as (_ & p' & s' & Hp' & _ & Hs' & Hpr & Hh).
  fold m' in Hp'. unfold write_hidden, setting_at.
  rewrite Hp', Hs', Hh, Hv, Hpr. reflexivity.
Qed.

Lemma alerts_keys_NoDup : NoDup (settings_keys Example.alerts).
Proof.
  unfold settings_keys. simpl.
  repeat constructor; simpl; intuition discriminate.
Qed.

Lemma registerPlugins_stacks_proxies_witness :
  tasks (write_hidden 0 "sound" (Some true)
           (registerPlugins (registerPlugins Example.returning)))
  = tasks (registerPlugins (registerPlugins Example.returning))
    ++ [RefreshVisibility 0; RefreshVisibility 0].
Proof.
  assert (N : "sound" <> enable_key) by discriminate.
  generalize (registerPlugins_stacks_proxies Example.returning 2 0
                Example.alerts "sound" (Example.toggle true) (Some true)
                example_unique_names eq_refl alerts_keys_NoDup N eq_refl eq_refl).
  vm_compute. intros H. exact H.
Defined.

(** ** Showing and hiding a setting *)

Lemma getElementById_write_hidden i key v m rid :
  getElementById (write_hidden i key v m) rid = getElementById m rid.
Proof.
  unfold write_hidden. destruct (setting_at m i key) as [s|]; [|reflexivity].
  now destruct (flag_eqb (hidden s) v).
Qed.

Lemma setting_at_update_element rid f m i key :
  setting_at (update_element rid f m) i key = setting_at m i key.
Proof. unfold setting_at. now rewrite pluginList_update_element. Qed.

Lemma tasks_update_element rid f m : tasks (update_element rid f m) = tasks m.
Proof. unfold update_element. now destruct (currentView m). Qed.

Lemma write_hidden_eq i key v m s :
  setting_at m i key = Some s ->
  setting_at (write_hidden i key v m) i key = Some (with_hidden v s)
  /\ tasks (write_hidden i key v m)
     = tasks m ++ (if flag_eqb (hidden s) v then []
                   else repeat (RefreshVisibility i) (proxies s)).
Proof.
  intros Hs. unfold write_hidden. rewrite Hs.
  assert (A : setting_at (adjust_setting i key (with_hidden v) m) i key
              = Some (with_hidden v s)).
  { rewrite setting_at_adjust, Nat.eqb_refl, String.eqb_refl, Hs. reflexivity. }
  destruct (flag_eqb (hidden s) v); split; try exact A; simpl.
  - now rewrite app_nil_r.
  - reflexivity.
Qed.

(** X20. When the row is in the document and the plugin named has the
    setting, [toggleSettingVisibility] sets the [hidden] flag of the setting
    to the state asked for, or to the opposite of its current truth value
    when none is given, fades the row out or displays it accordingly, and
    queues the timer of the animation after one refresh for each proxy layer
    if the flag changed. *)
Theorem toggleSettingVisibility_sets (m : SettingsManager)
    (name settingKey : string) (hidden_arg : option bool)
    (e : Element) (i : nat) (p : Plugin) (s : PluginSettings) :
  getElementById m (row_id settingKey) = Some e ->
  find_plugin name (pluginList m) = Some (i, p) ->
  settings_get p settingKey = Some s ->
  let h := match hidden_arg with
           | Some h => h
           | None => negb (truthy (hidden s))
           end in
  let m' := toggleSettingVisibility name settingKey hidden_arg m in
  setting_at m' i settingKey = Some (with_hidden (Some h) s)
  /\ getElementById m' (row_id settingKey)
     = Some (if h then fade_out e else show_flex e)
  /\ tasks m'
     = tasks m
       ++ (if flag_eqb (hidden s) (Some h) then []
           else repeat (RefreshVisibility i) (proxies s))
       ++ [if h then DisplayNone (row_id settingKey)
           else FadeIn (row_id settingKey)].
Proof.
  intros He Hf Hs h m'.
  destruct (find_plugin_some _ _ _ _ Hf) as (Hp & _).
  assert (Hat : setting_at m i settingKey = Some s)
    by (unfold setting_at; now rewrite Hp).
  destruct (write_hidden_eq i settingKey (Some h) m s Hat) as (W1 & W2).
  assert (Hg : getElementById (write_hidden i settingKey (Some h) m)
                              (row_id settingKey) = Some e)
    by (now rewrite getElementById_write_hidden).
  unfold m', toggleSettingVisibility. rewrite He, Hf, Hs. fold h.
  destruct h.
  - split; [|split].
    + change (setting_at (update_element (row_id settingKey) fade_out
                            (write_hidden i settingKey (Some true) m))
                         i settingKey = Some (with_hidden (Some true) s)).
      now rewrite setting_at_update_element.
    + change (getElementById (update_element (row_id settingKey) fade_out
                                (write_hidden i settingKey (Some true) m))
                             (row_id settingKey) = Some (fade_out e)).
      rewrite getElementById_update_element by apply id_fade_out.
      now rewrite String.eqb_refl, Hg.
    + simpl. rewrite tasks_update_element, W2. now rewrite <- app_assoc.
  - split; [|split].
    + change (setting_at (update_element (row_id settingKey) show_flex
                            (write_hidden i settingKey (Some false) m))
                         i settingKey = Some (with_hidden (Some false) s)).
      now rewrite setting_at_update_element.
    + change (getElementById (update_element (row_id settingKey) show_flex
                                (write_hidden i settingKey (Some false) m))
                             (row_id settingKey) = Some (show_flex e)).
      rewrite getElementById_update_element by apply id_show_flex.
      now rewrite String.eqb_refl, Hg.
    + simpl. rewrite tasks_update_element, W2. now rewrite <- app_assoc.
Qed.

Lemma toggleSettingVisibility_sets_witness :
  option_map hidden
    (setting_at (toggleSettingVisibility "Alerts" "sound" None Example.opened)
                0 "sound")
  = Some (Some true)
  /\ getElementById (toggleSettingVisibility "Alerts" "sound" None Example.opened)
                    (row_id "sound")
     = Some (mkElement (row_id "sound") flex true).
Proof.
  assert (P : exists p s,
             find_plugin "Alerts" (pluginList Example.opened) = Some (0, p)
             /\ settings_get p "sound" = Some s
             /\ hidden s = None).
  { vm_compute. do 2 eexists. repeat split; reflexivity. }
  destruct P as (p & s & P1 & P2 & P3).
  assert (G : getElementById Example.opened (row_id "sound")
              = Some (mkElement (row_id "sound") flex false))
    by (vm_compute; reflexivity).
  destruct (toggleSettingVisibility_sets Example.opened "Alerts" "sound" None
              _ 0 p s G P1 P2) as (H1 & H2 & _).
  rewrite P3 in H1, H2. simpl in H1, H2.
  split; [now rewrite H1|exact H2].
Defined.

(** ** The rows of the main view *)

Lemma register_from_rows rest :
  forall done m,
    pluginList m = done ++ rest ->
    mainSettingsView
      (fold_left register_plugin (seq (length done) (length rest)) m)
    = mainSettingsView m
      ++ map (fun p => mkElement (row_id (pluginName p)) flex false) rest.
Proof.
  induction rest as [|p rest IH]; intros done m Hl; simpl.
  - now rewrite app_nil_r.
  - assert (Hp : nth_error (pluginList m) (length done) = Some p)
      by (rewrite Hl, nth_error_app2, Nat.sub_diag by lia; reflexivity).
    rewrite (register_plugin_eq m (length done) p Hp). cbv zeta.
    match goal with
    | |- mainSettingsView (fold_left _ _ ?m1) = _ =>
        specialize (IH (done ++ [make_reactive p]) m1)
    end.
    rewrite length_app, Nat.add_comm in IH. simpl in IH.
    rewrite IH.
    + simpl. now rewrite <- app_assoc.
    + rewrite Hl, update_nth_middle, <- app_assoc. reflexivity.
Qed.

Lemma mainSettingsView_load_settings m :
  mainSettingsView (load_settings m) = mainSettingsView m.
Proof.
  unfold load_settings. destruct (databaseSettings m) as [r|]; [|reflexivity].
  generalize (Obj.keys r) as ns. intros ns. revert m.
  induction ns as [|n ns IH]; intros m; simpl; [reflexivity|].
  rewrite IH. unfold load_plugin.
  destruct (Obj.get r n) as [data|]; [|reflexivity].
  generalize (Obj.keys data) as ks. intros ks. clear IH. revert m.
  induction ks as [|k ks IH]; intros m; simpl; [reflexivity|].
  rewrite IH. unfold load_setting.
  destruct (Obj.get data k) as [[|b|x|s]|]; try reflexivity;
    (destruct (find_plugin n (pluginList m)) as [[i p]|]; [|reflexivity]);
    (destruct (settings_get p k) as [st|]; [|reflexivity]);
    now destruct (onLoaded st).
Qed.

(** X21. [registerPlugins] appends to the main view one summary row for
    each registered plugin, in the order of the plugin list, after the rows
    the view had; it removes none, so that a second registration leaves the
    view with two rows for every plugin. *)
Theorem registerPlugins_appends_rows (m : SettingsManager) :
  mainSettingsView (registerPlugins m)
  = mainSettingsView m
    ++ map (fun p => mkElement (row_id (pluginName p)) flex false)
           (pluginList m).
Proof.
  unfold registerPlugins, write_back.
  set (mL := load_settings (read_store m)).
  pose proof (register_from_rows (pluginList mL) [] mL eq_refl) as R.
  change (Datatypes.length (@nil Plugin)) with 0 in R. rewrite R. clear R.
  unfold mL at 1. rewrite mainSettingsView_load_settings. simpl. f_equal.
  assert (Hn : map pluginName (pluginList mL) = map pluginName (pluginList m)).
  { apply (same_declarations_names m mL).
    eapply same_declarations_trans with (m2 := read_store m);
      [apply same_declarations_list; reflexivity
      |apply same_declarations_load_settings]. }
  rewrite <- (map_map pluginName (fun n => mkElement (row_id n) flex false)),
          Hn, map_map.
  reflexivity.
Qed.
